(** * mysql-to-json: schema normalisation and code generation

    A shallow embedding of the schema engine of the repository:
    - [src/frontend/mysql_schema_helpers.js] (the type classifier),
    - the schema parser module ([assertColumnMetadataRaw], [MySQLTableColumn],
      [MySQLTable], [MySQLDatabase], the two source renderers),
    - the "render raw" click handler of [src/frontend/index.js], with the part
      of [JSON.stringify] it relies on and a reader for the texts it writes.

    The embedding comes first, then the notions the specification is
    stated with ([Spec]) and concrete rows ([Examples]), then the theorems.

    Conventions of the embedding.
    - A JavaScript string is a Rocq [string]; every character is one code
      unit below 256.  [toLowerCase] and [toUpperCase] act on the ASCII
      letters, which is what they do on catalog identifiers and type names.
    - A JavaScript number is an integer [Z] (the numeric catalog fields are
      counts and positions); it prints in decimal digits, as the engine
      prints an integer of absolute value below 10^21.  Fractions, [NaN],
      the infinities and the numbers the engine prints with an exponent are
      outside the embedding; a theorem that prints a number and reads it
      back is stated for the numbers written in digits
      ([Spec.written_in_digits]).
    - A JavaScript value is a [JsValue]; a plain object is the list of its own
      enumerable properties in enumeration order, which for the keys of
      catalog rows (none is an array index) is the order of insertion.
    - A thrown exception ends a computation with [Throw]; code that mutates
      [this] runs in a state-and-exception monad, so that what a [throw]
      leaves behind is what the statements before it wrote. *)

From Stdlib Require Import String Ascii List ZArith Bool Lia.
From Stdlib Require Import DecimalString DecimalZ DecimalPos DecimalFacts.
Import ListNotations.
Open Scope string_scope.

(** ** Strings *)

Module Str.

Definition nl : string := String "010" "".
Definition dquote : string := String "034" "".
Definition backslash : string := String "092" "".

Definition lower_char (c : ascii) : ascii :=
  let n := nat_of_ascii c in
  if (65 <=? n)%nat && (n <=? 90)%nat then ascii_of_nat (n + 32) else c.

Definition upper_char (c : ascii) : ascii :=
  let n := nat_of_ascii c in
  if (97 <=? n)%nat && (n <=? 122)%nat then ascii_of_nat (n - 32) else c.

Fixpoint map_chars (f : ascii -> ascii) (s : string) : string :=
  match s with
  | EmptyString => EmptyString
  | String c t => String (f c) (map_chars f t)
  end.

(** [s.toLowerCase()], [s.toUpperCase()] *)
Definition toLowerCase (s : string) : string := map_chars lower_char s.
Definition toUpperCase (s : string) : string := map_chars upper_char s.

(** [hay.startsWith(needle)], the anchored pattern [/^needle/] *)
Definition startsWith (needle hay : string) : bool := String.prefix needle hay.

(** [hay.includes(needle)], the unanchored literal pattern [/needle/] *)
Fixpoint includes (needle hay : string) : bool :=
  String.prefix needle hay
  || match hay with
     | EmptyString => false
     | String _ t => includes needle t
     end.

(** [/p1|p2|.../.test(s)] for literal alternatives *)
Definition test_any (alternatives : list string) (s : string) : bool :=
  existsb (fun p => includes p s) alternatives.

(** [s.replace(/c/g, by)] for a one-character pattern *)
Fixpoint replace_all (c : ascii) (by_ : string) (s : string) : string :=
  match s with
  | EmptyString => EmptyString
  | String a t =>
      if Ascii.eqb a c then by_ ++ replace_all c by_ t
      else String a (replace_all c by_ t)
  end.

(** [parts.join(sep)] *)
Fixpoint join (sep : string) (parts : list string) : string :=
  match parts with
  | [] => ""
  | [p] => p
  | p :: rest => p ++ sep ++ join sep rest
  end.

(** membership in a list of string literals, [[...].includes(s)] on strings *)
Definition mem (s : string) (l : list string) : bool :=
  existsb (String.eqb s) l.

End Str.

(** ** JavaScript values, exceptions *)

Unset Elimination Schemes.
Inductive JsValue : Type :=
| JUndefined
| JNull
| JBool (b : bool)
| JNumber (n : Z)
| JString (s : string)
| JArray (items : list JsValue)
| JObject (props : list (string * JsValue)).
Set Elimination Schemes.


Inductive Exception : Type :=
| Error (message : string)   (* [new Error(message)] *)
| TypeError.                 (* raised by the engine: a method of a value that has none *)

Inductive Result (A : Type) : Type :=
| Ok (a : A)
| Throw (e : Exception).
Arguments Ok {A} a.
Arguments Throw {A} e.

Module Res.
Definition bind {A B} (r : Result A) (k : A -> Result B) : Result B :=
  match r with
  | Ok a => k a
  | Throw e => Throw e
  end.

(** a [for] loop whose body may throw, threading an accumulator *)
Fixpoint fold {A S} (body : S -> A -> Result S) (l : list A) (s : S) : Result S :=
  match l with
  | [] => Ok s
  | a :: rest => bind (body s a) (fold body rest)
  end.

Fixpoint mapM {A B} (f : A -> Result B) (l : list A) : Result (list B) :=
  match l with
  | [] => Ok []
  | a :: rest =>
      bind (f a) (fun b => bind (mapM f rest) (fun bs => Ok (b :: bs)))
  end.
End Res.

Declare Scope res_scope.
Delimit Scope res_scope with res.
Notation "x <- c ;; k" := (Res.bind c (fun x => k))
  (at level 61, c at next level, right associativity) : res_scope.
Notation "c ;;; k" := (Res.bind c (fun _ => k))
  (at level 61, right associativity) : res_scope.

Module Js.

(** [typeof v] *)
Definition typeof (v : JsValue) : string :=
  match v with
  | JUndefined => "undefined"
  | JNull => "object"
  | JBool _ => "boolean"
  | JNumber _ => "number"
  | JString _ => "string"
  | JArray _ => "object"
  | JObject _ => "object"
  end.

(** Number to string: decimal digits, a leading minus sign when negative;
    this is the text of an integer of absolute value below 10^21 (from
    10^21 on the engine writes an exponent, [1e+21]) *)
Definition number_to_string (n : Z) : string :=
  NilZero.string_of_int (Z.to_int n).

(** [String(v)], the conversion a template literal applies *)
Fixpoint ToString (v : JsValue) : string :=
  match v with
  | JUndefined => "undefined"
  | JNull => "null"
  | JBool true => "true"
  | JBool false => "false"
  | JNumber n => number_to_string n
  | JString s => s
  | JArray items =>
      Str.join ","
        (map (fun e => match e with
                       | JUndefined | JNull => ""
                       | _ => ToString e
                       end) items)
  | JObject _ => "[object Object]"
  end.

(** truthiness, as tested by [if (v)], [!v] and [a || b] *)
Definition ToBoolean (v : JsValue) : bool :=
  match v with
  | JUndefined | JNull => false
  | JBool b => b
  | JNumber n => negb (n =? 0)%Z
  | JString s => negb (s =? "")
  | JArray _ | JObject _ => true
  end.

(** [a || b] *)
Definition or (a b : JsValue) : JsValue := if ToBoolean a then a else b.

(** [a === b] and SameValueZero on primitives.  Two objects are equal only
    when they are the same reference; an object is never equal to a
    primitive.  Every comparison of this program has a string on one side
    (a literal, a checkbox value, a validated table or column name). *)
Definition strict_equals (a b : JsValue) : bool :=
  match a, b with
  | JUndefined, JUndefined => true
  | JNull, JNull => true
  | JBool x, JBool y => Bool.eqb x y
  | JNumber x, JNumber y => (x =? y)%Z
  | JString x, JString y => (x =? y)
  | _, _ => false
  end.

Definition is_string (v : JsValue) (s : string) : bool :=
  strict_equals v (JString s).

(** own-property lookup in a property list *)
Fixpoint lookup (key : string) (props : list (string * JsValue)) : option JsValue :=
  match props with
  | [] => None
  | (k, v) :: rest => if (k =? key) then Some v else lookup key rest
  end.

(** [key in obj], for the catalog field names (none of them is a property
    of [Object.prototype] or of an array) *)
Definition has_property (key : string) (obj : JsValue) : bool :=
  match obj with
  | JObject props => match lookup key props with Some _ => true | None => false end
  | _ => false
  end.

(** [obj[key]] on a non-null object, for the catalog field names *)
Definition get (obj : JsValue) (key : string) : JsValue :=
  match obj with
  | JObject props => match lookup key props with Some v => v | None => JUndefined end
  | _ => JUndefined
  end.

(** [obj.key]: on [null] and [undefined] the engine throws *)
Definition member (obj : JsValue) (key : string) : Result JsValue :=
  match obj with
  | JUndefined | JNull => Throw TypeError
  | _ => Ok (get obj key)
  end.

(** [v.toLowerCase()], [v.toUpperCase()]: only strings have the method *)
Definition toLowerCase (v : JsValue) : Result string :=
  match v with
  | JString s => Ok (Str.toLowerCase s)
  | _ => Throw TypeError
  end.

Definition toUpperCase (v : JsValue) : Result string :=
  match v with
  | JString s => Ok (Str.toUpperCase s)
  | _ => Throw TypeError
  end.

(** [v.includes(needle)]: substring test on a string, membership on an
    array; no other value has the method *)
Definition includes (v : JsValue) (needle : string) : Result bool :=
  match v with
  | JString s => Ok (Str.includes needle s)
  | JArray items => Ok (existsb (fun e => is_string e needle) items)
  | _ => Throw TypeError
  end.

End Js.

(** ** The state-and-exception monad of a method body

    A method that assigns to the fields of [this] is a function from the
    object's state to an outcome and the state it leaves.  A [throw] keeps the
    state as the statements before it made it. *)

Module Method.
Definition M (S A : Type) : Type := S -> Result A * S.

Definition ret {S A} (a : A) : M S A := fun s => (Ok a, s).

Definition bind {S A B} (m : M S A) (k : A -> M S B) : M S B :=
  fun s =>
    match m s with
    | (Ok a, s') => k a s'
    | (Throw e, s') => (Throw e, s')
    end.

(** a call whose result or exception does not depend on [this] *)
Definition call {S A} (r : Result A) : M S A := fun s => (r, s).

(** an assignment [this.f = v], given the update of the state *)
Definition assign {S} (update : S -> S) : M S unit := fun s => (Ok tt, update s).
End Method.

Declare Scope method_scope.
Delimit Scope method_scope with method.
Notation "x <- c ;; k" := (Method.bind c (fun x => k))
  (at level 61, c at next level, right associativity) : method_scope.
Notation "c ;;; k" := (Method.bind c (fun _ => k))
  (at level 61, right associativity) : method_scope.

(** ** assertColumnMetadataRaw *)

Module Validator.

Definition requiredKeys : list string :=
  ["TABLE_CATALOG"; "TABLE_SCHEMA"; "TABLE_NAME"; "COLUMN_NAME";
   "ORDINAL_POSITION"; "IS_NULLABLE"; "DATA_TYPE"; "COLUMN_TYPE";
   "COLUMN_KEY"; "EXTRA"; "PRIVILEGES"; "COLUMN_COMMENT"; "IS_GENERATED"].

(** [cond || message]: a validator answers [true] or the message *)
Definition or_message (cond : bool) (message : string) : JsValue :=
  if cond then JBool true else JString message.

Definition typeof_is (v : JsValue) (ty : string) : bool :=
  (Js.typeof v =? ty).

Definition is_null (v : JsValue) : bool := Js.strict_equals v JNull.

Definition expect_string (val : JsValue) : JsValue :=
  or_message (typeof_is val "string")
    ("Expected string, got " ++ Js.typeof val).

Definition expect_number (val : JsValue) : JsValue :=
  or_message (typeof_is val "number")
    ("Expected number, got " ++ Js.typeof val).

Definition expect_string_or_null (val : JsValue) : JsValue :=
  or_message (is_null val || typeof_is val "string")
    ("Expected string or null, got " ++ Js.typeof val).

Definition expect_number_or_null (val : JsValue) : JsValue :=
  or_message (is_null val || typeof_is val "number")
    ("Expected number or null, got " ++ Js.typeof val).

Definition expect_is_nullable (val : JsValue) : JsValue :=
  or_message (Js.is_string val "YES" || Js.is_string val "NO")
    ("Expected 'YES' or 'NO', got " ++ Js.ToString val).

Definition expect_column_key (val : JsValue) : JsValue :=
  or_message
    (existsb (fun lit => Js.is_string val lit) ["PRI"; "UNI"; "MUL"; ""])
    ("Expected 'PRI', 'UNI', 'MUL' or empty string, got " ++ Js.ToString val).

Definition expect_is_generated (val : JsValue) : JsValue :=
  or_message
    (Js.is_string val "NEVER" || Js.is_string val "ALWAYS"
     || typeof_is val "string")
    ("Expected 'NEVER', 'ALWAYS' or string, got " ++ Js.ToString val).

(** the [validators] object literal, in the order [Object.entries] walks it *)
Definition validators : list (string * (JsValue -> JsValue)) :=
  [("TABLE_CATALOG", expect_string);
   ("TABLE_SCHEMA", expect_string);
   ("TABLE_NAME", expect_string);
   ("COLUMN_NAME", expect_string);
   ("ORDINAL_POSITION", expect_number);
   ("COLUMN_DEFAULT", expect_string_or_null);
   ("IS_NULLABLE", expect_is_nullable);
   ("DATA_TYPE", expect_string);
   ("CHARACTER_MAXIMUM_LENGTH", expect_number_or_null);
   ("CHARACTER_OCTET_LENGTH", expect_number_or_null);
   ("NUMERIC_PRECISION", expect_number_or_null);
   ("NUMERIC_SCALE", expect_number_or_null);
   ("DATETIME_PRECISION", expect_number_or_null);
   ("CHARACTER_SET_NAME", expect_string_or_null);
   ("COLLATION_NAME", expect_string_or_null);
   ("COLUMN_TYPE", expect_string);
   ("COLUMN_KEY", expect_column_key);
   ("EXTRA", expect_string);
   ("PRIVILEGES", expect_string);
   ("COLUMN_COMMENT", expect_string);
   ("IS_GENERATED", expect_is_generated);
   ("GENERATION_EXPRESSION", expect_string_or_null)].

(** the first loop: [if (!(key in obj)) throw ...] *)
Fixpoint check_required (keys : list string) (obj : JsValue) : Result unit :=
  match keys with
  | [] => Ok tt
  | key :: rest =>
      if negb (Js.has_property key obj)
      then Throw (Error ("Missing required field: " ++ key))
      else check_required rest obj
  end.

(** the second loop: run every validator on [obj[key]] *)
Fixpoint check_validators (vs : list (string * (JsValue -> JsValue)))
                          (obj : JsValue) : Result unit :=
  match vs with
  | [] => Ok tt
  | (key, validator) :: rest =>
      let validationResult := validator (Js.get obj key) in
      if typeof_is validationResult "string"
      then Throw (Error ("Invalid " ++ key ++ ": " ++ Js.ToString validationResult))
      else check_validators rest obj
  end.

Definition assertColumnMetadataRaw (obj : JsValue) : Result bool :=
  if negb (typeof_is obj "object") || is_null obj
  then Throw (Error "Input must be a non-null object")
  else
    (check_required requiredKeys obj ;;;
     check_validators validators obj ;;;
     Ok true)%res.

End Validator.

(** ** class MySQLTableColumn *)

Module MySQLTableColumn.

(** The instance fields, in declaration order.  A field holds whatever
    value was assigned to it; before any assignment it holds [undefined]. *)
Record t : Type := mk {
  tableCatalog : JsValue;
  tableSchema : JsValue;
  tableName : JsValue;
  columnName : JsValue;
  ordinalPosition : JsValue;
  columnDefault : JsValue;
  isNullable : JsValue;
  dataType : JsValue;
  characterMaximumLength : JsValue;
  characterOctetLength : JsValue;
  numericPrecision : JsValue;
  numericScale : JsValue;
  datetimePrecision : JsValue;
  characterSetName : JsValue;
  collationName : JsValue;
  columnType : JsValue;
  columnKey : JsValue;
  extra : JsValue;
  privileges : JsValue;
  columnComment : JsValue;
  isGenerated : JsValue;
  generationExpression : JsValue
}.


(** [new MySQLTableColumn()]: every declared field is [undefined] *)
Definition blank : t :=
  mk JUndefined JUndefined JUndefined JUndefined JUndefined JUndefined JUndefined JUndefined JUndefined JUndefined JUndefined JUndefined JUndefined JUndefined JUndefined JUndefined JUndefined JUndefined JUndefined JUndefined JUndefined JUndefined.

(** the assignments [this.f = v] *)
Definition set_tableCatalog (v : JsValue) (c : t) : t :=
  mk v (c.(tableSchema)) (c.(tableName)) (c.(columnName))
    (c.(ordinalPosition)) (c.(columnDefault)) (c.(isNullable))
    (c.(dataType)) (c.(characterMaximumLength)) (c.(characterOctetLength))
    (c.(numericPrecision)) (c.(numericScale)) (c.(datetimePrecision))
    (c.(characterSetName)) (c.(collationName)) (c.(columnType))
    (c.(columnKey)) (c.(extra)) (c.(privileges)) (c.(columnComment))
    (c.(isGenerated)) (c.(generationExpression)).
Definition set_tableSchema (v : JsValue) (c : t) : t :=
  mk (c.(tableCatalog)) v (c.(tableName)) (c.(columnName))
    (c.(ordinalPosition)) (c.(columnDefault)) (c.(isNullable))
    (c.(dataType)) (c.(characterMaximumLength)) (c.(characterOctetLength))
    (c.(numericPrecision)) (c.(numericScale)) (c.(datetimePrecision))
    (c.(characterSetName)) (c.(collationName)) (c.(columnType))
    (c.(columnKey)) (c.(extra)) (c.(privileges)) (c.(columnComment))
    (c.(isGenerated)) (c.(generationExpression)).
Definition set_tableName (v : JsValue) (c : t) : t :=
  mk (c.(tableCatalog)) (c.(tableSchema)) v (c.(columnName))
    (c.(ordinalPosition)) (c.(columnDefault)) (c.(isNullable))
    (c.(dataType)) (c.(characterMaximumLength)) (c.(characterOctetLength))
    (c.(numericPrecision)) (c.(numericScale)) (c.(datetimePrecision))
    (c.(characterSetName)) (c.(collationName)) (c.(columnType))
    (c.(columnKey)) (c.(extra)) (c.(privileges)) (c.(columnComment))
    (c.(isGenerated)) (c.(generationExpression)).
Definition set_columnName (v : JsValue) (c : t) : t :=
  mk (c.(tableCatalog)) (c.(tableSchema)) (c.(tableName)) v
    (c.(ordinalPosition)) (c.(columnDefault)) (c.(isNullable))
    (c.(dataType)) (c.(characterMaximumLength)) (c.(characterOctetLength))
    (c.(numericPrecision)) (c.(numericScale)) (c.(datetimePrecision))
    (c.(characterSetName)) (c.(collationName)) (c.(columnType))
    (c.(columnKey)) (c.(extra)) (c.(privileges)) (c.(columnComment))
    (c.(isGenerated)) (c.(generationExpression)).
Definition set_ordinalPosition (v : JsValue) (c : t) : t :=
  mk (c.(tableCatalog)) (c.(tableSchema)) (c.(tableName)) (c.(columnName))
    v (c.(columnDefault)) (c.(isNullable)) (c.(dataType))
    (c.(characterMaximumLength)) (c.(characterOctetLength))
    (c.(numericPrecision)) (c.(numericScale)) (c.(datetimePrecision))
    (c.(characterSetName)) (c.(collationName)) (c.(columnType))
    (c.(columnKey)) (c.(extra)) (c.(privileges)) (c.(columnComment))
    (c.(isGenerated)) (c.(generationExpression)).
Definition set_columnDefault (v : JsValue) (c : t) : t :=
  mk (c.(tableCatalog)) (c.(tableSchema)) (c.(tableName)) (c.(columnName))
    (c.(ordinalPosition)) v (c.(isNullable)) (c.(dataType))
    (c.(characterMaximumLength)) (c.(characterOctetLength))
    (c.(numericPrecision)) (c.(numericScale)) (c.(datetimePrecision))
    (c.(characterSetName)) (c.(collationName)) (c.(columnType))
    (c.(columnKey)) (c.(extra)) (c.(privileges)) (c.(columnComment))
    (c.(isGenerated)) (c.(generationExpression)).
Definition set_isNullable (v : JsValue) (c : t) : t :=
  mk (c.(tableCatalog)) (c.(tableSchema)) (c.(tableName)) (c.(columnName))
    (c.(ordinalPosition)) (c.(columnDefault)) v (c.(dataType))
    (c.(characterMaximumLength)) (c.(characterOctetLength))
    (c.(numericPrecision)) (c.(numericScale)) (c.(datetimePrecision))
    (c.(characterSetName)) (c.(collationName)) (c.(columnType))
    (c.(columnKey)) (c.(extra)) (c.(privileges)) (c.(columnComment))
    (c.(isGenerated)) (c.(generationExpression)).
Definition set_dataType (v : JsValue) (c : t) : t :=
  mk (c.(tableCatalog)) (c.(tableSchema)) (c.(tableName)) (c.(columnName))
    (c.(ordinalPosition)) (c.(columnDefault)) (c.(isNullable)) v
    (c.(characterMaximumLength)) (c.(characterOctetLength))
    (c.(numericPrecision)) (c.(numericScale)) (c.(datetimePrecision))
    (c.(characterSetName)) (c.(collationName)) (c.(columnType))
    (c.(columnKey)) (c.(extra)) (c.(privileges)) (c.(columnComment))
    (c.(isGenerated)) (c.(generationExpression)).
Definition set_characterMaximumLength (v : JsValue) (c : t) : t :=
  mk (c.(tableCatalog)) (c.(tableSchema)) (c.(tableName)) (c.(columnName))
    (c.(ordinalPosition)) (c.(columnDefault)) (c.(isNullable))
    (c.(dataType)) v (c.(characterOctetLength)) (c.(numericPrecision))
    (c.(numericScale)) (c.(datetimePrecision)) (c.(characterSetName))
    (c.(collationName)) (c.(columnType)) (c.(columnKey)) (c.(extra))
    (c.(privileges)) (c.(columnComment)) (c.(isGenerated))
    (c.(generationExpression)).
Definition set_characterOctetLength (v : JsValue) (c : t) : t :=
  mk (c.(tableCatalog)) (c.(tableSchema)) (c.(tableName)) (c.(columnName))
    (c.(ordinalPosition)) (c.(columnDefault)) (c.(isNullable))
    (c.(dataType)) (c.(characterMaximumLength)) v (c.(numericPrecision))
    (c.(numericScale)) (c.(datetimePrecision)) (c.(characterSetName))
    (c.(collationName)) (c.(columnType)) (c.(columnKey)) (c.(extra))
    (c.(privileges)) (c.(columnComment)) (c.(isGenerated))
    (c.(generationExpression)).
Definition set_numericPrecision (v : JsValue) (c : t) : t :=
  mk (c.(tableCatalog)) (c.(tableSchema)) (c.(tableName)) (c.(columnName))
    (c.(ordinalPosition)) (c.(columnDefault)) (c.(isNullable))
    (c.(dataType)) (c.(characterMaximumLength)) (c.(characterOctetLength))
    v (c.(numericScale)) (c.(datetimePrecision)) (c.(characterSetName))
    (c.(collationName)) (c.(columnType)) (c.(columnKey)) (c.(extra))
    (c.(privileges)) (c.(columnComment)) (c.(isGenerated))
    (c.(generationExpression)).
Definition set_numericScale (v : JsValue) (c : t) : t :=
  mk (c.(tableCatalog)) (c.(tableSchema)) (c.(tableName)) (c.(columnName))
    (c.(ordinalPosition)) (c.(columnDefault)) (c.(isNullable))
    (c.(dataType)) (c.(characterMaximumLength)) (c.(characterOctetLength))
    (c.(numericPrecision)) v (c.(datetimePrecision))
    (c.(characterSetName)) (c.(collationName)) (c.(columnType))
    (c.(columnKey)) (c.(extra)) (c.(privileges)) (c.(columnComment))
    (c.(isGenerated)) (c.(generationExpression)).
Definition set_datetimePrecision (v : JsValue) (c : t) : t :=
  mk (c.(tableCatalog)) (c.(tableSchema)) (c.(tableName)) (c.(columnName))
    (c.(ordinalPosition)) (c.(columnDefault)) (c.(isNullable))
    (c.(dataType)) (c.(characterMaximumLength)) (c.(characterOctetLength))
    (c.(numericPrecision)) (c.(numericScale)) v (c.(characterSetName))
    (c.(collationName)) (c.(columnType)) (c.(columnKey)) (c.(extra))
    (c.(privileges)) (c.(columnComment)) (c.(isGenerated))
    (c.(generationExpression)).
Definition set_characterSetName (v : JsValue) (c : t) : t :=
  mk (c.(tableCatalog)) (c.(tableSchema)) (c.(tableName)) (c.(columnName))
    (c.(ordinalPosition)) (c.(columnDefault)) (c.(isNullable))
    (c.(dataType)) (c.(characterMaximumLength)) (c.(characterOctetLength))
    (c.(numericPrecision)) (c.(numericScale)) (c.(datetimePrecision)) v
    (c.(collationName)) (c.(columnType)) (c.(columnKey)) (c.(extra))
    (c.(privileges)) (c.(columnComment)) (c.(isGenerated))
    (c.(generationExpression)).
Definition set_collationName (v : JsValue) (c : t) : t :=
  mk (c.(tableCatalog)) (c.(tableSchema)) (c.(tableName)) (c.(columnName))
    (c.(ordinalPosition)) (c.(columnDefault)) (c.(isNullable))
    (c.(dataType)) (c.(characterMaximumLength)) (c.(characterOctetLength))
    (c.(numericPrecision)) (c.(numericScale)) (c.(datetimePrecision))
    (c.(characterSetName)) v (c.(columnType)) (c.(columnKey)) (c.(extra))
    (c.(privileges)) (c.(columnComment)) (c.(isGenerated))
    (c.(generationExpression)).
Definition set_columnType (v : JsValue) (c : t) : t :=
  mk (c.(tableCatalog)) (c.(tableSchema)) (c.(tableName)) (c.(columnName))
    (c.(ordinalPosition)) (c.(columnDefault)) (c.(isNullable))
    (c.(dataType)) (c.(characterMaximumLength)) (c.(characterOctetLength))
    (c.(numericPrecision)) (c.(numericScale)) (c.(datetimePrecision))
    (c.(characterSetName)) (c.(collationName)) v (c.(columnKey))
    (c.(extra)) (c.(privileges)) (c.(columnComment)) (c.(isGenerated))
    (c.(generationExpression)).
Definition set_columnKey (v : JsValue) (c : t) : t :=
  mk (c.(tableCatalog)) (c.(tableSchema)) (c.(tableName)) (c.(columnName))
    (c.(ordinalPosition)) (c.(columnDefault)) (c.(isNullable))
    (c.(dataType)) (c.(characterMaximumLength)) (c.(characterOctetLength))
    (c.(numericPrecision)) (c.(numericScale)) (c.(datetimePrecision))
    (c.(characterSetName)) (c.(collationName)) (c.(columnType)) v
    (c.(extra)) (c.(privileges)) (c.(columnComment)) (c.(isGenerated))
    (c.(generationExpression)).
Definition set_extra (v : JsValue) (c : t) : t :=
  mk (c.(tableCatalog)) (c.(tableSchema)) (c.(tableName)) (c.(columnName))
    (c.(ordinalPosition)) (c.(columnDefault)) (c.(isNullable))
    (c.(dataType)) (c.(characterMaximumLength)) (c.(characterOctetLength))
    (c.(numericPrecision)) (c.(numericScale)) (c.(datetimePrecision))
    (c.(characterSetName)) (c.(collationName)) (c.(columnType))
    (c.(columnKey)) v (c.(privileges)) (c.(columnComment))
    (c.(isGenerated)) (c.(generationExpression)).
Definition set_privileges (v : JsValue) (c : t) : t :=
  mk (c.(tableCatalog)) (c.(tableSchema)) (c.(tableName)) (c.(columnName))
    (c.(ordinalPosition)) (c.(columnDefault)) (c.(isNullable))
    (c.(dataType)) (c.(characterMaximumLength)) (c.(characterOctetLength))
    (c.(numericPrecision)) (c.(numericScale)) (c.(datetimePrecision))
    (c.(characterSetName)) (c.(collationName)) (c.(columnType))
    (c.(columnKey)) (c.(extra)) v (c.(columnComment)) (c.(isGenerated))
    (c.(generationExpression)).
Definition set_columnComment (v : JsValue) (c : t) : t :=
  mk (c.(tableCatalog)) (c.(tableSchema)) (c.(tableName)) (c.(columnName))
    (c.(ordinalPosition)) (c.(columnDefault)) (c.(isNullable))
    (c.(dataType)) (c.(characterMaximumLength)) (c.(characterOctetLength))
    (c.(numericPrecision)) (c.(numericScale)) (c.(datetimePrecision))
    (c.(characterSetName)) (c.(collationName)) (c.(columnType))
    (c.(columnKey)) (c.(extra)) (c.(privileges)) v (c.(isGenerated))
    (c.(generationExpression)).
Definition set_isGenerated (v : JsValue) (c : t) : t :=
  mk (c.(tableCatalog)) (c.(tableSchema)) (c.(tableName)) (c.(columnName))
    (c.(ordinalPosition)) (c.(columnDefault)) (c.(isNullable))
    (c.(dataType)) (c.(characterMaximumLength)) (c.(characterOctetLength))
    (c.(numericPrecision)) (c.(numericScale)) (c.(datetimePrecision))
    (c.(characterSetName)) (c.(collationName)) (c.(columnType))
    (c.(columnKey)) (c.(extra)) (c.(privileges)) (c.(columnComment)) v
    (c.(generationExpression)).
Definition set_generationExpression (v : JsValue) (c : t) : t :=
  mk (c.(tableCatalog)) (c.(tableSchema)) (c.(tableName)) (c.(columnName))
    (c.(ordinalPosition)) (c.(columnDefault)) (c.(isNullable))
    (c.(dataType)) (c.(characterMaximumLength)) (c.(characterOctetLength))
    (c.(numericPrecision)) (c.(numericScale)) (c.(datetimePrecision))
    (c.(characterSetName)) (c.(collationName)) (c.(columnType))
    (c.(columnKey)) (c.(extra)) (c.(privileges)) (c.(columnComment))
    (c.(isGenerated)) v.


(** [constructor(data)]: without data the fields stay [undefined]; with
    data every field is copied from the property of the same name *)
Definition constructor (data : JsValue) : t :=
  if negb (Js.ToBoolean data) then blank
  else
    mk (Js.get data "tableCatalog")
       (Js.get data "tableSchema")
       (Js.get data "tableName")
       (Js.get data "columnName")
       (Js.get data "ordinalPosition")
       (Js.get data "columnDefault")
       (Js.get data "isNullable")
       (Js.get data "dataType")
       (Js.get data "characterMaximumLength")
       (Js.get data "characterOctetLength")
       (Js.get data "numericPrecision")
       (Js.get data "numericScale")
       (Js.get data "datetimePrecision")
       (Js.get data "characterSetName")
       (Js.get data "collationName")
       (Js.get data "columnType")
       (Js.get data "columnKey")
       (Js.get data "extra")
       (Js.get data "privileges")
       (Js.get data "columnComment")
       (Js.get data "isGenerated")
       (Js.get data "generationExpression").

(** one statement [this.f = rawMetadata.KEY] *)
Definition assign_from (rawMetadata : JsValue) (key : string)
                       (set : JsValue -> t -> t) : Method.M t unit :=
  (v <- Method.call (Js.member rawMetadata key) ;;
   Method.assign (set v))%method.

(** [importFromRawData(rawMetadata)]: the validation, then the twenty-two
    assignments, in the order of the source *)
Definition importFromRawData (rawMetadata : JsValue) : Method.M t unit :=
  (Method.call (Validator.assertColumnMetadataRaw rawMetadata) ;;;
   assign_from rawMetadata "TABLE_CATALOG" set_tableCatalog ;;;
   assign_from rawMetadata "TABLE_SCHEMA" set_tableSchema ;;;
   assign_from rawMetadata "TABLE_NAME" set_tableName ;;;
   assign_from rawMetadata "COLUMN_NAME" set_columnName ;;;
   assign_from rawMetadata "ORDINAL_POSITION" set_ordinalPosition ;;;
   assign_from rawMetadata "COLUMN_DEFAULT" set_columnDefault ;;;
   assign_from rawMetadata "IS_NULLABLE" set_isNullable ;;;
   assign_from rawMetadata "DATA_TYPE" set_dataType ;;;
   assign_from rawMetadata "CHARACTER_MAXIMUM_LENGTH" set_characterMaximumLength ;;;
   assign_from rawMetadata "CHARACTER_OCTET_LENGTH" set_characterOctetLength ;;;
   assign_from rawMetadata "NUMERIC_PRECISION" set_numericPrecision ;;;
   assign_from rawMetadata "NUMERIC_SCALE" set_numericScale ;;;
   assign_from rawMetadata "DATETIME_PRECISION" set_datetimePrecision ;;;
   assign_from rawMetadata "CHARACTER_SET_NAME" set_characterSetName ;;;
   assign_from rawMetadata "COLLATION_NAME" set_collationName ;;;
   assign_from rawMetadata "COLUMN_TYPE" set_columnType ;;;
   assign_from rawMetadata "COLUMN_KEY" set_columnKey ;;;
   assign_from rawMetadata "EXTRA" set_extra ;;;
   assign_from rawMetadata "PRIVILEGES" set_privileges ;;;
   assign_from rawMetadata "COLUMN_COMMENT" set_columnComment ;;;
   assign_from rawMetadata "IS_GENERATED" set_isGenerated ;;;
   assign_from rawMetadata "GENERATION_EXPRESSION" set_generationExpression)%method.

(** [let column = new MySQLTableColumn(); column.importFromRawData(raw);]
    the object is reachable only when the import returned *)
Definition new_imported (raw : JsValue) : Result t :=
  match importFromRawData raw blank with
  | (Ok _, column) => Ok column
  | (Throw e, _) => Throw e
  end.

Definition isPrimaryKey (this : t) : bool :=
  Js.is_string this.(columnKey) "PRI".

Definition allowsNull (this : t) : bool :=
  Js.is_string this.(isNullable) "YES".

Definition isAutoIncrement (this : t) : Result bool :=
  Js.includes this.(extra) "auto_increment".

Definition getColumnDefinition (this : t) : Result string :=
  (let head := Js.ToString this.(columnName) ++ " " ++ Js.ToString this.(columnType) in
   let pk := if isPrimaryKey this then " PRIMARY KEY" else "" in
   ai <- isAutoIncrement this ;;
   Ok (head ++ pk
       ++ (if ai then " AUTO_INCREMENT" else "")
       ++ (if allowsNull this then "" else " NOT NULL")))%res.

(** [toJSON()]: the spread [{...this}] copies the fields in declaration order *)
Definition toJSON (this : t) : JsValue :=
  JObject
    [("tableCatalog", this.(tableCatalog));
     ("tableSchema", this.(tableSchema));
     ("tableName", this.(tableName));
     ("columnName", this.(columnName));
     ("ordinalPosition", this.(ordinalPosition));
     ("columnDefault", this.(columnDefault));
     ("isNullable", this.(isNullable));
     ("dataType", this.(dataType));
     ("characterMaximumLength", this.(characterMaximumLength));
     ("characterOctetLength", this.(characterOctetLength));
     ("numericPrecision", this.(numericPrecision));
     ("numericScale", this.(numericScale));
     ("datetimePrecision", this.(datetimePrecision));
     ("characterSetName", this.(characterSetName));
     ("collationName", this.(collationName));
     ("columnType", this.(columnType));
     ("columnKey", this.(columnKey));
     ("extra", this.(extra));
     ("privileges", this.(privileges));
     ("columnComment", this.(columnComment));
     ("isGenerated", this.(isGenerated));
     ("generationExpression", this.(generationExpression))].

End MySQLTableColumn.

(** ** mysql_schema_helpers.js *)

Module SchemaHelpers.
Import MySQLTableColumn.

Definition hasIntegerDataType (column : t) : Result bool :=
  (dataType <- Js.toLowerCase column.(dataType) ;;
   if Str.includes "bigint" dataType
   then Throw (Error "bigint not supported")
   else Ok (Str.test_any
              ["integer"; "int"; "smallint"; "tinyint"; "mediumint"; "bigint"]
              dataType))%res.

(** the pattern [/^is_|_is_|^has_/] *)
Definition boolean_name (columnName : string) : bool :=
  Str.startsWith "is_" columnName
  || Str.includes "_is_" columnName
  || Str.startsWith "has_" columnName.

Definition hasBooleanDataType (column : t) : Result bool :=
  (dataType <- Js.toLowerCase column.(dataType) ;;
   columnType <- Js.toLowerCase column.(columnType) ;;
   if (columnType =? "tinyint(1)") then Ok true
   else
     isInteger <- hasIntegerDataType column ;;
     if isInteger
     then (columnName <- Js.toLowerCase column.(columnName) ;;
           Ok (boolean_name columnName))
     else Ok (dataType =? "boolean"))%res.

Definition hasFloatDataType (column : t) : Result bool :=
  (dataType <- Js.toLowerCase column.(dataType) ;;
   Ok (Str.test_any ["float"; "double"; "real"; "decimal"] dataType))%res.

Definition hasStringDataType (column : t) : Result bool :=
  (dataType <- Js.toLowerCase column.(dataType) ;;
   Ok (Str.test_any
         ["char"; "varchar"; "tinytext"; "text"; "mediumtext"; "longtext"]
         dataType))%res.

Definition hasDateDataType (column : t) : Result bool :=
  (dataType <- Js.toLowerCase column.(dataType) ;;
   Ok (Str.test_any ["date"; "time"; "datetime"; "timestamp"] dataType))%res.

Definition detectFieldTypeByColumnType (column : t) : Result string :=
  (isBoolean <- hasBooleanDataType column ;;
   if isBoolean then Ok "bit"
   else
     isInteger <- hasIntegerDataType column ;;
     if isInteger then Ok "integer"
     else
       isString <- hasStringDataType column ;;
       if isString then Ok "string"
       else
         isFloat <- hasFloatDataType column ;;
         if isFloat then Ok "float"
         else Ok "string")%res.

End SchemaHelpers.

(** ** JSON.stringify, JSON.parse *)

Module JSON.

Definition hex_digit (n : nat) : ascii :=
  if (n <? 10)%nat then ascii_of_nat (48 + n) else ascii_of_nat (87 + n).

(** one code unit of a quoted string: the two-character escapes, [\u00xx]
    for the other control characters, the character itself otherwise *)
Definition quote_char (c : ascii) : string :=
  let n := nat_of_ascii c in
  if (n =? 8)%nat then Str.backslash ++ "b"
  else if (n =? 9)%nat then Str.backslash ++ "t"
  else if (n =? 10)%nat then Str.backslash ++ "n"
  else if (n =? 12)%nat then Str.backslash ++ "f"
  else if (n =? 13)%nat then Str.backslash ++ "r"
  else if (n =? 34)%nat then Str.backslash ++ Str.dquote
  else if (n =? 92)%nat then Str.backslash ++ Str.backslash
  else if (n <? 32)%nat
       then Str.backslash ++ "u00"
            ++ String (hex_digit (n / 16)) (String (hex_digit (n mod 16)) "")
  else String c "".

Fixpoint quote_chars (s : string) : string :=
  match s with
  | EmptyString => ""
  | String c t => quote_char c ++ quote_chars t
  end.

(** QuoteJSONString *)
Definition QuoteJSONString (s : string) : string :=
  Str.dquote ++ quote_chars s ++ Str.dquote.

(** the text between the brackets of an array or an object *)
Definition wrap (gap stepback indent : string) (open_ close_ : string)
                (partial : list string) : string :=
  match partial with
  | [] => open_ ++ close_
  | _ =>
      if (gap =? "") then open_ ++ Str.join "," partial ++ close_
      else open_ ++ Str.nl ++ indent
           ++ Str.join ("," ++ Str.nl ++ indent) partial
           ++ Str.nl ++ stepback ++ close_
  end.

(** SerializeJSONProperty with SerializeJSONArray and SerializeJSONObject:
    [None] is the [undefined] result; in an array it prints as [null], in an
    object the property is left out.  A number is an integer and prints in
    digits, which is the text of the engine below 10^21 in absolute value;
    a number that is not finite, which the engine prints as [null], is not
    a value of the embedding. *)
Fixpoint SerializeJSONProperty (gap indent : string) (value : JsValue)
  : option string :=
  match value with
  | JUndefined => None
  | JNull => Some "null"
  | JBool true => Some "true"
  | JBool false => Some "false"
  | JNumber n => Some (Js.number_to_string n)
  | JString s => Some (QuoteJSONString s)
  | JArray items =>
      let stepback := indent in
      let indent := indent ++ gap in
      Some (wrap gap stepback indent "[" "]"
              (map (fun e =>
                      match SerializeJSONProperty gap indent e with
                      | Some strP => strP
                      | None => "null"
                      end) items))
  | JObject props =>
      let stepback := indent in
      let indent := indent ++ gap in
      Some (wrap gap stepback indent "{" "}"
              (flat_map (fun p =>
                           match SerializeJSONProperty gap indent (snd p) with
                           | Some strP =>
                               [QuoteJSONString (fst p) ++ ":"
                                ++ (if (gap =? "") then "" else " ") ++ strP]
                           | None => []
                           end) props))
  end.

(** [JSON.stringify(value, null, gap)] for a gap of at most ten spaces;
    [JSON.stringify(value)] is the case of the empty gap *)
Definition stringify (value : JsValue) (gap : string) : option string :=
  SerializeJSONProperty gap "" value.

(** the text a template literal or a text field shows for the result *)
Definition stringify_text (value : JsValue) (gap : string) : string :=
  match stringify value gap with
  | Some text => text
  | None => "undefined"
  end.

(** *** JSON.parse, on the texts of the integer fragment

    The reader accepts JSON texts whose numbers are integers without
    fraction or exponent and whose string characters are below 256; it
    accepts no text that is not JSON.  It is the reader of the texts that
    [JSON.stringify] writes for values whose numbers are written in digits
    ([Spec.written_in_digits]); a text with a fraction or an exponent is
    outside its domain and gets no value. *)



Definition is_digit (c : ascii) : bool :=
  let n := nat_of_ascii c in (48 <=? n)%nat && (n <=? 57)%nat.













(** a member read from the text: a key that is already there keeps its
    place and takes the new value *)
Fixpoint define_property (key : string) (v : JsValue)
                         (props : list (string * JsValue))
  : list (string * JsValue) :=
  match props with
  | [] => [(key, v)]
  | (k, x) :: rest =>
      if (k =? key) then (k, v) :: rest
      else (k, x) :: define_property key v rest
  end.











End JSON.

(** ** Map

    A [Map] keeps its entries in insertion order; [set] on a key that is
    present replaces the value and keeps the position.  Keys are compared
    with [Js.strict_equals]. *)

Module JsMap.

Definition t (V : Type) : Type := list (JsValue * V).

Definition empty {V} : t V := [].

Fixpoint get {V} (key : JsValue) (m : t V) : option V :=
  match m with
  | [] => None
  | (k, v) :: rest => if Js.strict_equals k key then Some v else get key rest
  end.

Fixpoint set {V} (key : JsValue) (v : V) (m : t V) : t V :=
  match m with
  | [] => [(key, v)]
  | (k, x) :: rest =>
      if Js.strict_equals k key then (k, v) :: rest
      else (k, x) :: set key v rest
  end.

Definition values {V} (m : t V) : list V := map snd m.

Definition size {V} (m : t V) : nat := length m.

End JsMap.

(** ** class MySQLTable *)

Module MySQLTable.

Record t : Type := mk {
  tableName : JsValue;
  columns : JsMap.t MySQLTableColumn.t
}.

(** the [options] argument of [generateCreateTableQuery]; a property that
    is not given is [undefined] *)
Record Options : Type := mkOptions {
  engine : JsValue;
  charset : JsValue;
  collation : JsValue;
  comment : JsValue
}.

Definition no_options : Options :=
  mkOptions JUndefined JUndefined JUndefined JUndefined.

(** [constructor(tableName, columns = [])]: every row is imported into a
    fresh column, which is stored under the row's [COLUMN_NAME] *)
Definition constructor (name : JsValue) (rows : list JsValue) : Result t :=
  Res.fold
    (fun this raw =>
       (column <- MySQLTableColumn.new_imported raw ;;
        key <- Js.member raw "COLUMN_NAME" ;;
        Ok (mk this.(tableName) (JsMap.set key column this.(columns))))%res)
    rows (mk name JsMap.empty).

Definition addColumn (column : MySQLTableColumn.t) (this : t) : t :=
  mk this.(tableName)
     (JsMap.set column.(MySQLTableColumn.columnName) column this.(columns)).

Definition getColumns (this : t) : list MySQLTableColumn.t :=
  JsMap.values this.(columns).

(** [getColumn(columnName)]: [None] is the [null] result *)
Definition getColumn (columnName : JsValue) (this : t) : option MySQLTableColumn.t :=
  JsMap.get columnName this.(columns).

(** [#escapeString(str)] *)
Definition escapeString (str : JsValue) : Result string :=
  match str with
  | JString s =>
      Ok (Str.replace_all "092"%char (Str.backslash ++ Str.backslash)
            (Str.replace_all "'"%char "''" s))
  | _ => Throw TypeError
  end.

(** [#formatDefaultValue(column)] *)
Definition formatDefaultValue (column : MySQLTableColumn.t) : Result JsValue :=
  let columnDefault := column.(MySQLTableColumn.columnDefault) in
  if Js.strict_equals columnDefault JNull then Ok (JString "NULL")
  else
    (dataType <- Js.toLowerCase column.(MySQLTableColumn.dataType) ;;
     if Str.mem dataType ["char"; "varchar"; "text"; "enum"; "set"]
     then (escaped <- escapeString columnDefault ;;
           Ok (JString ("'" ++ escaped ++ "'")))
     else
       isCurrent <-
         (if Str.mem dataType ["timestamp"; "datetime"]
          then (upper <- Js.toUpperCase columnDefault ;;
                Ok (upper =? "CURRENT_TIMESTAMP"))
          else Ok false) ;;
       if isCurrent then Ok (JString "CURRENT_TIMESTAMP")
       else if Str.mem dataType ["blob"; "binary"]
       then Ok (JString ("x'" ++ Js.ToString columnDefault ++ "'"))
       else Ok columnDefault)%res.

(** the text built for one column in the loop of [generateCreateTableQuery] *)
Definition columnDefinition (column : MySQLTableColumn.t) : Result string :=
  (let definition :=
     "`" ++ Js.ToString column.(MySQLTableColumn.columnName) ++ "` "
     ++ Js.ToString column.(MySQLTableColumn.columnType) in
   let definition :=
     if negb (MySQLTableColumn.allowsNull column)
     then definition ++ " NOT NULL" else definition in
   definition <-
     (if negb (Js.strict_equals column.(MySQLTableColumn.columnDefault) JNull)
      then (defaultValue <- formatDefaultValue column ;;
            Ok (definition ++ " DEFAULT " ++ Js.ToString defaultValue))
      else Ok definition) ;;
   autoIncrement <- MySQLTableColumn.isAutoIncrement column ;;
   let definition :=
     if autoIncrement then definition ++ " AUTO_INCREMENT" else definition in
   if Js.ToBoolean column.(MySQLTableColumn.columnComment)
   then (escaped <- escapeString column.(MySQLTableColumn.columnComment) ;;
         Ok (definition ++ " COMMENT '" ++ escaped ++ "'"))
   else Ok definition)%res.

(** the four arrays the loop fills *)
Record Collected : Type := mkCollected {
  columnDefinitions : list string;
  primaryKeys : list string;
  uniqueKeys : list string;
  indexes : list string
}.

Definition collect (acc : Collected) (column : MySQLTableColumn.t) : Result Collected :=
  (definition <- columnDefinition column ;;
   let defs := (acc.(columnDefinitions) ++ [definition])%list in
   let quoted := "`" ++ Js.ToString column.(MySQLTableColumn.columnName) ++ "`" in
   if MySQLTableColumn.isPrimaryKey column
   then Ok (mkCollected defs (acc.(primaryKeys) ++ [quoted])%list
                        acc.(uniqueKeys) acc.(indexes))
   else if Js.is_string column.(MySQLTableColumn.columnKey) "UNI"
   then Ok (mkCollected defs acc.(primaryKeys)
                        (acc.(uniqueKeys) ++ [quoted])%list acc.(indexes))
   else if Js.is_string column.(MySQLTableColumn.columnKey) "MUL"
   then Ok (mkCollected defs acc.(primaryKeys)
                        acc.(uniqueKeys) (acc.(indexes) ++ [quoted])%list)
   else Ok (mkCollected defs acc.(primaryKeys) acc.(uniqueKeys) acc.(indexes)))%res.

Definition uniqueKeyClause (uniqueCol : string) : string :=
  "UNIQUE KEY `" ++ Str.replace_all "`"%char "" uniqueCol ++ "_unique` ("
  ++ uniqueCol ++ ")".

Definition generateCreateTableQuery (options : Options) (this : t) : Result string :=
  let columns := getColumns this in
  match columns with
  | [] =>
      Throw (Error ("Table " ++ Js.ToString this.(tableName) ++ " has no columns"))
  | first :: _ =>
      (acc <- Res.fold collect columns (mkCollected [] [] [] []) ;;
       let defs := acc.(columnDefinitions) in
       let defs :=
         match acc.(primaryKeys) with
         | [] => defs
         | _ =>
             (defs ++ [("PRIMARY KEY (" ++ Str.join ", " acc.(primaryKeys) ++ ")")%string])%list
         end in
       let defs := (defs ++ map uniqueKeyClause acc.(uniqueKeys))%list in
       let query :=
         "CREATE TABLE `" ++ Js.ToString this.(tableName) ++ "` (" ++ Str.nl ++ "  "
         ++ Str.join ("," ++ Str.nl ++ "  ") defs
         ++ Str.nl ++ ")" in
       let query :=
         if Js.ToBoolean options.(engine)
         then query ++ " ENGINE=" ++ Js.ToString options.(engine) else query in
       let charset :=
         Js.or (Js.or options.(charset) first.(MySQLTableColumn.characterSetName))
               (JString "utf8mb4") in
       let collation :=
         Js.or (Js.or options.(collation) first.(MySQLTableColumn.collationName))
               (JString "utf8mb4_unicode_ci") in
       let query :=
         query ++ " DEFAULT CHARSET=" ++ Js.ToString charset
         ++ " COLLATE=" ++ Js.ToString collation in
       query <-
         (if Js.ToBoolean options.(comment)
          then (escaped <- escapeString options.(comment) ;;
                Ok (query ++ " COMMENT='" ++ escaped ++ "'"))
          else Ok query) ;;
       Ok (query ++ ";"))%res
  end.

End MySQLTable.

(** ** class MySQLDatabase *)

Module MySQLDatabase.

Record t : Type := mk {
  databaseName : JsValue;
  tables : JsMap.t MySQLTable.t
}.

(** [constructor(databaseName, tables = [])], each entry of [tables] being
    a [{tableName, columns}] pair *)
Definition constructor (name : JsValue)
                       (entries : list (JsValue * list JsValue)) : Result t :=
  Res.fold
    (fun this entry =>
       (table <- MySQLTable.constructor (fst entry) (snd entry) ;;
        Ok (mk this.(databaseName)
               (JsMap.set (fst entry) table this.(tables))))%res)
    entries (mk name JsMap.empty).

Definition addTable (table : MySQLTable.t) (this : t) : t :=
  mk this.(databaseName)
     (JsMap.set table.(MySQLTable.tableName) table this.(tables)).

End MySQLDatabase.

(** ** The source renderers *)

Module Renderers.

(** the loop body shared by both renderers: import the row, find or create
    the table of its [tableName], add the column to it.  The table is an
    object of the map, so [addColumn] shows in the map. *)
Definition add_row (db : MySQLDatabase.t) (jsonData : JsValue)
  : Result MySQLDatabase.t :=
  (column <- MySQLTableColumn.new_imported jsonData ;;
   let name := column.(MySQLTableColumn.tableName) in
   found <-
     match JsMap.get name db.(MySQLDatabase.tables) with
     | Some table => Ok (db, table)
     | None =>
         table <- MySQLTable.constructor name [] ;;
         Ok (MySQLDatabase.addTable table db, table)
     end ;;
   let db := fst found in
   let table := MySQLTable.addColumn column (snd found) in
   Ok (MySQLDatabase.mk db.(MySQLDatabase.databaseName)
         (JsMap.set name table db.(MySQLDatabase.tables))))%res.

(** [let db = new MySQLDatabase(data[0].TABLE_SCHEMA);] and the loop *)
Definition build (first : JsValue) (data : list JsValue) : Result MySQLDatabase.t :=
  (schema <- Js.member first "TABLE_SCHEMA" ;;
   db <- MySQLDatabase.constructor schema [] ;;
   Res.fold add_row data db)%res.

(** the documentation block that opens the object-literal output *)
Definition typedef_header : string :=
"
/**
 * @typedef {Object} ColumnMetadataParams
 * @property {string} tableCatalog - Table catalog (usually 'def')
 * @property {string} tableSchema - Database/schema name
 * @property {string} tableName - Table name
 * @property {string} columnName - Column name
 * @property {number} ordinalPosition - Position in table (1-based)
 * @property {string|null} columnDefault - Default value
 * @property {'YES'|'NO'} isNullable - Nullable status
 * @property {string} dataType - Data type (e.g. 'int', 'varchar')
 * @property {number|null} characterMaximumLength - Max length for string types (characters)
 * @property {number|null} characterOctetLength - Max length for string types (bytes)
 * @property {number|null} numericPrecision - Precision for numeric types
 * @property {number|null} numericScale - Scale for numeric types
 * @property {number|null} datetimePrecision - Precision for datetime types
 * @property {string|null} characterSetName - Character set for string types
 * @property {string|null} collationName - Collation for string types
 * @property {string} columnType - Full column type (e.g. 'int(11) unsigned')
 * @property {'PRI'|'UNI'|'MUL'|''} columnKey - Key type (primary/unique/etc.)
 * @property {string} extra - Extra information (e.g. 'auto_increment')
 * @property {string} privileges - Column privileges
 * @property {string} columnComment - Column comment
 * @property {'NEVER'|'ALWAYS'|string} isGenerated - Generation status
 * @property {string|null} generationExpression - Generation expression
 */

".

Definition column_literal_lines (column : MySQLTableColumn.t) : list string :=
  let opening := "    " ++ Js.ToString column.(MySQLTableColumn.columnName) ++ ": {" in
  let closing := "    }," ++ Str.nl in
  ([opening]
   ++ match MySQLTableColumn.toJSON column with
      | JObject entries =>
          map (fun entry =>
                 ("        " ++ fst entry ++ ": "
                  ++ JSON.stringify_text (snd entry) "" ++ ",")%string) entries
      | _ => []
      end
   ++ [closing])%list.

Definition table_literal_lines (table : MySQLTable.t) : list string :=
  let opening := "export const " ++ Js.ToString table.(MySQLTable.tableName) ++ " = {" in
  ([opening]
   ++ flat_map column_literal_lines (MySQLTable.getColumns table)
   ++ ["};"])%list.

Definition convertColumnMetadataToJsCode (data : list JsValue) : Result string :=
  match data with
  | [] => Ok ""
  | first :: _ =>
      (db <- build first data ;;
       let output :=
         (typedef_header
          :: flat_map table_literal_lines
               (JsMap.values db.(MySQLDatabase.tables)))%list in
       Ok (Str.join Str.nl output))%res
  end.

Definition upperCaseFirstLetter (str : JsValue) : Result string :=
  match str with
  | JString EmptyString => Ok ""
  | JString (String c rest) => Ok (String (Str.upper_char c) rest)
  | _ => Throw TypeError
  end.

Definition field_declaration_lines (column : MySQLTableColumn.t)
  : Result (list string) :=
  (isString <- SchemaHelpers.hasStringDataType column ;;
   Ok ["    /** @type {" ++ (if isString then "string" else "number") ++ "} */";
       "    " ++ Js.ToString column.(MySQLTableColumn.columnName) ++ ";"])%res.

Definition field_coercion_line (column : MySQLTableColumn.t) : Result string :=
  (isString <- SchemaHelpers.hasStringDataType column ;;
   let name := Js.ToString column.(MySQLTableColumn.columnName) in
   if isString
   then Ok ("        this." ++ name ++ " = String(data." ++ name ++ ");")
   else Ok ("        this." ++ name ++ " = Number(data." ++ name ++ ");"))%res.

Definition table_class_lines (table : MySQLTable.t) : Result (list string) :=
  (className <- upperCaseFirstLetter table.(MySQLTable.tableName) ;;
   fields <- Res.mapM field_declaration_lines (MySQLTable.getColumns table) ;;
   coercions <- Res.mapM field_coercion_line (MySQLTable.getColumns table) ;;
   let opening := "export class " ++ className ++ "Item {" in
   Ok ([opening]
       ++ concat fields
       ++ ["    constructor(data) {"]
       ++ coercions
       ++ ["    }"; "};"])%list)%res.

Definition convertColumnMetadataToJsClassCode (data : list JsValue) : Result string :=
  match data with
  | [] => Ok ""
  | first :: _ =>
      (db <- build first data ;;
       tables <- Res.mapM table_class_lines
                   (JsMap.values db.(MySQLDatabase.tables)) ;;
       Ok (Str.join Str.nl ("" :: concat tables)))%res
  end.

End Renderers.

(** ** index.js: the "render raw" button *)

Module Frontend.

(** [table_names.indexOf(v) != -1] *)
Definition indexOf_found (table_names : list string) (v : JsValue) : bool :=
  existsb (fun name => Js.strict_equals (JString name) v) table_names.

(** the loop that fills [result_schema] *)
Definition select_row (table_names : list string)
                      (result_schema : list JsValue) (row : JsValue)
  : Result (list JsValue) :=
  (name <- Js.member row "TABLE_NAME" ;;
   if negb (Js.ToBoolean name) then Ok result_schema
   else if indexOf_found table_names name
   then Ok (result_schema ++ [row])%list
   else Ok result_schema)%res.

(** the click handler of [render_button]: [table_names] is what
    [getCheckedCheckboxes()] returned, [table_schema] the loaded rows; the
    result is the text stored in [output_textarea.value] *)
Definition render_button_click (table_names : list string)
                               (table_schema : list JsValue) : Result string :=
  (result_schema <- Res.fold (select_row table_names) table_schema [] ;;
   Ok (JSON.stringify_text (JArray result_schema) "  "))%res.

End Frontend.

(** ** The notions of the specification *)

Module Spec.

(** *** Validation: declared shapes *)

Inductive Shape : Type :=
| AString
| ANumber
| NullableString
| NullableNumber
| OneOf (literals : list string).

Definition matches (shape : Shape) (v : JsValue) : bool :=
  match shape, v with
  | AString, JString _ => true
  | ANumber, JNumber _ => true
  | NullableString, (JNull | JString _) => true
  | NullableNumber, (JNull | JNumber _) => true
  | OneOf literals, JString s => Str.mem s literals
  | _, _ => false
  end.

(** a validator of the code rejects exactly the values that miss the shape *)
Definition agrees (validator : JsValue -> JsValue) (shape : Shape) : Prop :=
  forall v, Validator.typeof_is (validator v) "string" = negb (matches shape v).

(** the twenty-two fields of a raw catalog row and their shapes; the
    generation status accepts any string *)
Definition declared_shape : list (string * Shape) :=
  [("TABLE_CATALOG", AString);
   ("TABLE_SCHEMA", AString);
   ("TABLE_NAME", AString);
   ("COLUMN_NAME", AString);
   ("ORDINAL_POSITION", ANumber);
   ("COLUMN_DEFAULT", NullableString);
   ("IS_NULLABLE", OneOf ["YES"; "NO"]);
   ("DATA_TYPE", AString);
   ("CHARACTER_MAXIMUM_LENGTH", NullableNumber);
   ("CHARACTER_OCTET_LENGTH", NullableNumber);
   ("NUMERIC_PRECISION", NullableNumber);
   ("NUMERIC_SCALE", NullableNumber);
   ("DATETIME_PRECISION", NullableNumber);
   ("CHARACTER_SET_NAME", NullableString);
   ("COLLATION_NAME", NullableString);
   ("COLUMN_TYPE", AString);
   ("COLUMN_KEY", OneOf ["PRI"; "UNI"; "MUL"; ""]);
   ("EXTRA", AString);
   ("PRIVILEGES", AString);
   ("COLUMN_COMMENT", AString);
   ("IS_GENERATED", AString);
   ("GENERATION_EXPRESSION", NullableString)].

(** the thirteen required fields *)
Definition required_fields : list string :=
  ["TABLE_CATALOG"; "TABLE_SCHEMA"; "TABLE_NAME"; "COLUMN_NAME";
   "ORDINAL_POSITION"; "IS_NULLABLE"; "DATA_TYPE"; "COLUMN_TYPE";
   "COLUMN_KEY"; "EXTRA"; "PRIVILEGES"; "COLUMN_COMMENT"; "IS_GENERATED"].

Definition present (key : string) (props : list (string * JsValue)) : bool :=
  match Js.lookup key props with Some _ => true | None => false end.

(** every required field is present *)
Definition required_present (props : list (string * JsValue)) : bool :=
  forallb (fun key => present key props) required_fields.

(** every field that is present matches its declared shape *)
Definition present_fields_match (props : list (string * JsValue)) : bool :=
  forallb (fun d =>
             match Js.lookup (fst d) props with
             | Some v => matches (snd d) v
             | None => true
             end) declared_shape.

(** every declared field is present and matches its declared shape *)
Definition all_fields_match (props : list (string * JsValue)) : bool :=
  forallb (fun d =>
             match Js.lookup (fst d) props with
             | Some v => matches (snd d) v
             | None => false
             end) declared_shape.

(** the row without the field [key] *)
Definition remove_field (key : string) (props : list (string * JsValue))
  : list (string * JsValue) :=
  filter (fun p => negb (fst p =? key)) props.

(** *** The column a raw row describes *)

(** every field of the column holds the value of the catalog field it is
    named after *)
Definition column_of (raw : JsValue) : MySQLTableColumn.t :=
  MySQLTableColumn.mk
    (Js.get raw "TABLE_CATALOG")
    (Js.get raw "TABLE_SCHEMA")
    (Js.get raw "TABLE_NAME")
    (Js.get raw "COLUMN_NAME")
    (Js.get raw "ORDINAL_POSITION")
    (Js.get raw "COLUMN_DEFAULT")
    (Js.get raw "IS_NULLABLE")
    (Js.get raw "DATA_TYPE")
    (Js.get raw "CHARACTER_MAXIMUM_LENGTH")
    (Js.get raw "CHARACTER_OCTET_LENGTH")
    (Js.get raw "NUMERIC_PRECISION")
    (Js.get raw "NUMERIC_SCALE")
    (Js.get raw "DATETIME_PRECISION")
    (Js.get raw "CHARACTER_SET_NAME")
    (Js.get raw "COLLATION_NAME")
    (Js.get raw "COLUMN_TYPE")
    (Js.get raw "COLUMN_KEY")
    (Js.get raw "EXTRA")
    (Js.get raw "PRIVILEGES")
    (Js.get raw "COLUMN_COMMENT")
    (Js.get raw "IS_GENERATED")
    (Js.get raw "GENERATION_EXPRESSION").

(** *** Default values in the generated statement *)

(** single quotes doubled, backslashes doubled *)
Fixpoint sql_escape (s : string) : string :=
  match s with
  | EmptyString => ""
  | String c t =>
      if Ascii.eqb c "'" then String "'" (String "'" (sql_escape t))
      else if Ascii.eqb c "092" then String "092" (String "092" (sql_escape t))
      else String c (sql_escape t)
  end.

(** the text of a default, by the lower-cased data type *)
Definition formatted_default (dataType columnDefault : string) : string :=
  let ty := Str.toLowerCase dataType in
  if Str.mem ty ["char"; "varchar"; "text"; "enum"; "set"]
  then "'" ++ sql_escape columnDefault ++ "'"
  else if Str.mem ty ["timestamp"; "datetime"]
          && (Str.toUpperCase columnDefault =? "CURRENT_TIMESTAMP")
  then "CURRENT_TIMESTAMP"
  else if Str.mem ty ["blob"; "binary"]
  then "x'" ++ columnDefault ++ "'"
  else columnDefault.

(** the head of a column's line: name, column type, NOT NULL *)
Definition line_head (column : MySQLTableColumn.t) : string :=
  "`" ++ Js.ToString column.(MySQLTableColumn.columnName) ++ "` "
  ++ Js.ToString column.(MySQLTableColumn.columnType)
  ++ (if MySQLTableColumn.allowsNull column then "" else " NOT NULL").

(** *** The rows the "render raw" action selects *)

(** a row is selected when its table name is a non-empty string among the
    checked names *)
Definition selected (table_names : list string) (row : JsValue) : bool :=
  match Js.get row "TABLE_NAME" with
  | JString name => negb (name =? "") && Str.mem name table_names
  | _ => false
  end.

(** a plain object, as the rows of the catalog answer are *)
Definition is_object (v : JsValue) : bool :=
  match v with
  | JObject _ => true
  | _ => false
  end.



(** *** The table-name invariant *)

Definition columns_belong (table : MySQLTable.t) : Prop :=
  Forall (fun column =>
            column.(MySQLTableColumn.tableName) = table.(MySQLTable.tableName))
         (MySQLTable.getColumns table).

(** every table is stored under its own name and owns its columns *)
Definition table_name_invariant (tables : JsMap.t MySQLTable.t) : Prop :=
  Forall (fun entry =>
            (snd entry).(MySQLTable.tableName) = fst entry
            /\ columns_belong (snd entry)) tables.

End Spec.

(** ** Concrete columns, rows and tables *)

Module Examples.

(** the twenty-two fields of a catalog row *)
Definition catalog_fields (table column dataType columnType : string)
    (position : Z) (default : JsValue) (key extra : string)
  : list (string * JsValue) :=
  [("TABLE_CATALOG", JString "def");
   ("TABLE_SCHEMA", JString "shop");
   ("TABLE_NAME", JString table);
   ("COLUMN_NAME", JString column);
   ("ORDINAL_POSITION", JNumber position);
   ("COLUMN_DEFAULT", default);
   ("IS_NULLABLE", JString "NO");
   ("DATA_TYPE", JString dataType);
   ("CHARACTER_MAXIMUM_LENGTH", JNull);
   ("CHARACTER_OCTET_LENGTH", JNull);
   ("NUMERIC_PRECISION", JNull);
   ("NUMERIC_SCALE", JNull);
   ("DATETIME_PRECISION", JNull);
   ("CHARACTER_SET_NAME", JNull);
   ("COLLATION_NAME", JNull);
   ("COLUMN_TYPE", JString columnType);
   ("COLUMN_KEY", JString key);
   ("EXTRA", JString extra);
   ("PRIVILEGES", JString "select,insert,update,references");
   ("COLUMN_COMMENT", JString "");
   ("IS_GENERATED", JString "NEVER");
   ("GENERATION_EXPRESSION", JNull)].

Definition users_id : list (string * JsValue) :=
  catalog_fields "users" "id" "int" "int(11)" 1 JNull "PRI" "auto_increment".

Definition users_name : list (string * JsValue) :=
  catalog_fields "users" "name" "varchar" "varchar(64)" 2 (JString "0") "" "".

(** a second description of the column [users.name] *)
Definition users_name_again : list (string * JsValue) :=
  catalog_fields "users" "name" "text" "text" 2 JNull "" "".

Definition orders_id : list (string * JsValue) :=
  catalog_fields "orders" "id" "int" "int(11)" 1 JNull "PRI" "auto_increment".

Definition empty_database : MySQLDatabase.t :=
  MySQLDatabase.mk (JString "shop") JsMap.empty.

(** the table [users] holding the column of a row of the table [orders] *)
Definition users_with_orders_column : MySQLTable.t :=
  MySQLTable.mk (JString "users")
    [(JString "id", Spec.column_of (JObject orders_id))].

Definition shop_rows : list JsValue :=
  [JObject users_id; JObject orders_id; JObject users_name].

(** the model the renderers build from [shop_rows] *)
Definition shop_database : MySQLDatabase.t :=
  Eval vm_compute in
    match Renderers.build (JObject users_id) shop_rows with
    | Ok db => db
    | Throw _ => empty_database
    end.

(** the table [users] with its two columns, and its statement *)
Definition users_table : MySQLTable.t :=
  Eval vm_compute in
    match MySQLTable.constructor (JString "users")
            [JObject users_id; JObject users_name] with
    | Ok table => table
    | Throw _ => MySQLTable.mk (JString "users") JsMap.empty
    end.

Definition users_statement : string :=
  Eval vm_compute in
    match MySQLTable.generateCreateTableQuery MySQLTable.no_options users_table with
    | Ok query => query
    | Throw _ => ""
    end.


(** [users.name] without the nullable field [COLUMN_DEFAULT] *)
Definition users_name_without_default : list (string * JsValue) :=
  Spec.remove_field "COLUMN_DEFAULT" users_name.

Definition bigint_column (name type_ : string) : MySQLTableColumn.t :=
  MySQLTableColumn.set_columnName (JString name)
    (MySQLTableColumn.set_columnType (JString type_)
       (MySQLTableColumn.set_dataType (JString "bigint") MySQLTableColumn.blank)).

Definition point_column : MySQLTableColumn.t :=
  MySQLTableColumn.set_columnName (JString "location")
    (MySQLTableColumn.set_columnType (JString "point")
       (MySQLTableColumn.set_dataType (JString "POINT") MySQLTableColumn.blank)).

End Examples.

(** ** dom-helper.js *)

Module DomHelper.

(** [escapeHtml(unsafe)]: five replacements, the ampersand first; only a
    string has the method [replace] *)
Definition escapeHtml (unsafe : JsValue) : Result string :=
  match unsafe with
  | JString s =>
      Ok (Str.replace_all "'" "&#039;"
            (Str.replace_all "034" "&quot;"
               (Str.replace_all ">" "&gt;"
                  (Str.replace_all "<" "&lt;"
                     (Str.replace_all "&" "&amp;" s)))))
  | _ => Throw TypeError
  end.

End DomHelper.

(** ** Set

    A [Set] keeps its values in insertion order and adds a value only when
    it holds none that is the same (two objects read from different rows
    are never the same). *)

Module JsSet.

Definition t : Type := list JsValue.

Definition has (v : JsValue) (s : t) : bool :=
  existsb (fun x => Js.strict_equals x v) s.

Definition add (v : JsValue) (s : t) : t :=
  if has v s then s else (s ++ [v])%list.

End JsSet.

(** ** index.js: the lists of databases and tables *)

Module FrontendLists.

Definition database_item (text : string) : string :=
  "<a href=" ++ Str.dquote ++ "#" ++
  Str.dquote ++ " class=" ++ Str.dquote ++
  "list-group-item list-group-item-action" ++ Str.dquote ++ " >" ++
  text ++ "</a>".

Definition createDataBaseList (list : list JsValue) : Result string :=
  (body <- Res.mapM (fun item => text <- DomHelper.escapeHtml item ;;
                                 Ok (database_item text)) list ;;
   let head := "<div class=" ++ Str.dquote ++ "list-group" ++ Str.dquote ++ ">" in
   let tail := "</div>" in
   Ok (Str.join Str.nl [head; Str.join Str.nl body; tail]))%res.

(** [Array.from(names)] after [names.add(table_schema[i].TABLE_NAME)] for
    every row *)
Definition getTablesNamesFromDatabaseSchema (table_schema : list JsValue)
  : Result (list JsValue) :=
  Res.fold (fun names row =>
              (name <- Js.member row "TABLE_NAME" ;;
               Ok (JsSet.add name names))%res)
           table_schema [].

Definition table_item (text : string) : string :=
  "
    <div class=" ++ Str.dquote ++ "form-check" ++
  Str.dquote ++ ">
        <label class=" ++ Str.dquote ++
  "form-check-label" ++ Str.dquote ++ ">
            <input class=" ++
  Str.dquote ++ "form-check-input" ++ Str.dquote ++
  " type=" ++ Str.dquote ++ "checkbox" ++
  Str.dquote ++ " value=" ++ Str.dquote ++
  text ++ Str.dquote ++ " checked=" ++
  Str.dquote ++ "checked" ++ Str.dquote ++
  ">
            " ++ text ++ "
        </label>
      </div>".

Definition createTableList (list : list JsValue) : Result string :=
  (body <- Res.mapM (fun item => text <- DomHelper.escapeHtml item ;;
                                 Ok (table_item text)) list ;;
   let head := "<div class=" ++ Str.dquote ++ "list-group" ++ Str.dquote ++ ">" in
   let tail := "</div>" in
   Ok (Str.join Str.nl [head; Str.join Str.nl body; tail]))%res.

End FrontendLists.

(** ** inet.js: response objects *)

Module Inet.

(** [response_ok(data = true)]: the default stands in for [undefined] *)
Definition response_ok (data : JsValue) : JsValue :=
  let data := match data with JUndefined => JBool true | _ => data end in
  JObject [("result", data); ("error", JBool false)].

Definition response_error (error : JsValue) : JsValue :=
  JObject [("result", JBool false); ("error", error)].

(** [response && !response.error] *)
Definition is_response_ok (response : JsValue) : JsValue :=
  if Js.ToBoolean response
  then JBool (negb (Js.ToBoolean (Js.get response "error")))
  else response.

End Inet.

(** ** db.js: the credentials *)

Module Db.

(** the initial [dbUserCredentials] *)
Definition dbUserCredentials : list (string * JsValue) :=
  [("host", JString "localhost"); ("user", JString "root");
   ("port", JNumber 3306); ("password", JString "")].

(** [dbUserCredentials[key] = v] on the own properties of the object: the
    property is created or overwritten.  The key [__proto__] of an object
    that has no own property of that name is the accessor of
    [Object.prototype]: the assignment goes to its setter and stores no
    property. *)
Definition assign (key : string) (v : JsValue) (db : list (string * JsValue))
  : list (string * JsValue) :=
  if (key =? "__proto__") && negb (Spec.present key db) then db
  else JSON.define_property key v db.

(** [setCredentials(credentials)] on the properties of the credentials
    object: [dbUserCredentials[key] = credentials[key]] for every key; the
    result is the new state of the own properties of [dbUserCredentials] *)
Definition setCredentials (credentials current : list (string * JsValue))
  : list (string * JsValue) :=
  fold_left
    (fun db p => assign (fst p) (Js.get (JObject credentials) (fst p)) db)
    credentials current.

End Db.

(** ** index.js of the application: the command line *)

Module App.

(** the initial [args] *)
Definition default_args : list (string * JsValue) :=
  [("port", JUndefined); ("db_port", JNumber 3306);
   ("db_host", JString "localhost"); ("user", JString "root");
   ("password", JString ""); ("open", JBool false); ("help", JBool false)].

(** [for (var key in args) { if (argv[key]) { args[key] = argv[key]; } }] *)
Definition read_args (argv : JsValue) : list (string * JsValue) :=
  fold_left
    (fun args p =>
       if Js.ToBoolean (Js.get argv (fst p))
       then JSON.define_property (fst p) (Js.get argv (fst p)) args
       else args)
    default_args default_args.

(** the object given to [setCredentials] *)
Definition credentials_of (args : list (string * JsValue))
  : list (string * JsValue) :=
  [("host", Js.get (JObject args) "db_host");
   ("user", Js.get (JObject args) "user");
   ("port", Js.get (JObject args) "db_port");
   ("password", Js.get (JObject args) "password")].

(** the part of [startApp()] that sets the credentials, from the parsed
    command line [argv]; the result is the state of [dbUserCredentials] *)
Definition startApp_credentials (argv : JsValue) : list (string * JsValue) :=
  Db.setCredentials (credentials_of (read_args argv)) Db.dbUserCredentials.

End App.

(** ** server.js: the port of the server *)

Module Server.

(** the loop [for (let i = 0; i < 100; i++) { port += i; try { app.listen(port);
    running = true; break; } catch ... }], from the index [i] on with [count]
    rounds left; [listen] tells whether [app.listen] returns or throws *)
Fixpoint probe (listen : JsValue -> Result unit) (count : nat) (i port : Z)
  : option Z :=
  match count with
  | O => None
  | S count' =>
      let port := (port + i)%Z in
      match listen (JNumber port) with
      | Ok _ => Some port
      | Throw _ => probe listen count' (i + 1)%Z port
      end
  end.

(** the part of [startServer(port)] that chooses the port *)
Definition startServer (listen : JsValue -> Result unit) (port : JsValue)
  : Result JsValue :=
  if Js.ToBoolean port
  then (listen port ;;; Ok port)%res
  else
    match probe listen 100 0 8080 with
    | Some p => Ok (JNumber p)
    | None => Throw (Error "Could not find an available port to listen on!")
    end.

End Server.

(** ** Further notions, for the properties of the code beyond the claims *)

Module Notions.

(** the classifier as a decision table over the lower-cased column name,
    data type and column type *)
Definition classify (columnName dataType columnType : string) : Result string :=
  if (columnType =? "tinyint(1)") then Ok "bit"
  else if Str.includes "bigint" dataType then Throw (Error "bigint not supported")
  else if Str.includes "int" dataType
  then (if SchemaHelpers.boolean_name columnName then Ok "bit" else Ok "integer")
  else if (dataType =? "boolean") then Ok "bit"
  else if Str.includes "char" dataType || Str.includes "text" dataType
  then Ok "string"
  else if Str.includes "float" dataType || Str.includes "double" dataType
          || Str.includes "real" dataType || Str.includes "decimal" dataType
  then Ok "float"
  else Ok "string".

(** a type that is no integer, boolean, character or floating type: the
    types the classifier has no case for (dates, enumerations, blobs, ...) *)
Definition other_type (dataType columnType : string) : bool :=
  negb (columnType =? "tinyint(1)")
  && negb (Str.includes "int" dataType)
  && negb (dataType =? "boolean")
  && negb (Str.includes "char" dataType)
  && negb (Str.includes "text" dataType)
  && negb (Str.includes "float" dataType)
  && negb (Str.includes "double" dataType)
  && negb (Str.includes "real" dataType)
  && negb (Str.includes "decimal" dataType).

(** the catalog name and the camel-cased name of every field *)
Definition field_map : list (string * string) :=
  [("TABLE_CATALOG", "tableCatalog");
   ("TABLE_SCHEMA", "tableSchema");
   ("TABLE_NAME", "tableName");
   ("COLUMN_NAME", "columnName");
   ("ORDINAL_POSITION", "ordinalPosition");
   ("COLUMN_DEFAULT", "columnDefault");
   ("IS_NULLABLE", "isNullable");
   ("DATA_TYPE", "dataType");
   ("CHARACTER_MAXIMUM_LENGTH", "characterMaximumLength");
   ("CHARACTER_OCTET_LENGTH", "characterOctetLength");
   ("NUMERIC_PRECISION", "numericPrecision");
   ("NUMERIC_SCALE", "numericScale");
   ("DATETIME_PRECISION", "datetimePrecision");
   ("CHARACTER_SET_NAME", "characterSetName");
   ("COLLATION_NAME", "collationName");
   ("COLUMN_TYPE", "columnType");
   ("COLUMN_KEY", "columnKey");
   ("EXTRA", "extra");
   ("PRIVILEGES", "privileges");
   ("COLUMN_COMMENT", "columnComment");
   ("IS_GENERATED", "isGenerated");
   ("GENERATION_EXPRESSION", "generationExpression")].

(** the entity that stands for a character in HTML text *)
Definition html_entity (c : ascii) : string :=
  if Ascii.eqb c "&" then "&amp;"
  else if Ascii.eqb c "<" then "&lt;"
  else if Ascii.eqb c ">" then "&gt;"
  else if Ascii.eqb c "034" then "&quot;"
  else if Ascii.eqb c "'" then "&#039;"
  else String c "".

(** every character escaped once, from left to right *)
Fixpoint html_escape (s : string) : string :=
  match s with
  | EmptyString => ""
  | String c t => html_entity c ++ html_escape t
  end.

(** the number of occurrences of a character in a text *)
Fixpoint count_char (c : ascii) (s : string) : nat :=
  match s with
  | EmptyString => 0
  | String a t => (if Ascii.eqb a c then 1 else 0) + count_char c t
  end.

(** the five replacements of [escapeHtml], on a text *)
Definition escaped (s : string) : string :=
  Str.replace_all "'" "&#039;"
    (Str.replace_all "034" "&quot;"
       (Str.replace_all ">" "&gt;"
          (Str.replace_all "<" "&lt;"
             (Str.replace_all "&" "&amp;" s)))).

(** the characters that open or close markup or a quoted attribute *)
Definition markup : list ascii := ["<"; ">"; "034"; "'"]%char.

(** a row that is an object whose table name is a string *)
Definition named_row (row : JsValue) : bool :=
  match row with
  | JObject _ =>
      match Js.get row "TABLE_NAME" with
      | JString _ => true
      | _ => false
      end
  | _ => false
  end.

(** the row has a table name that is not empty, [0], [null], ... *)
Definition has_table_name (row : JsValue) : bool :=
  Js.ToBoolean (Js.get row "TABLE_NAME").

(** a row that passes the validation *)
Definition valid_row (row : JsValue) : Prop :=
  Validator.assertColumnMetadataRaw row = Ok true.

(** a column read from a row that passes the validation *)
Definition validated (column : MySQLTableColumn.t) : Prop :=
  exists props,
    Spec.all_fields_match props = true
    /\ column = Spec.column_of (JObject props).

(** [null] and [undefined], which have no property *)
Definition nullish (v : JsValue) : bool :=
  match v with
  | JUndefined | JNull => true
  | _ => false
  end.

(** the row under the camel-cased names of its fields *)
Definition camel_row (row : JsValue) : JsValue :=
  JObject (map (fun names => (snd names, Js.get row (fst names))) field_map).

(** the step of the constructor of a table *)
Definition table_step (this : MySQLTable.t) (raw : JsValue) : Result MySQLTable.t :=
  (column <- MySQLTableColumn.new_imported raw ;;
   key <- Js.member raw "COLUMN_NAME" ;;
   Ok (MySQLTable.mk this.(MySQLTable.tableName)
         (JsMap.set key column this.(MySQLTable.columns))))%res.

(** the tables of a model have a text for name and hold validated columns *)
Definition model_ok (tables : JsMap.t MySQLTable.t) : Prop :=
  Forall (fun entry =>
            (exists tn, (snd entry).(MySQLTable.tableName) = JString tn)
            /\ Forall validated (MySQLTable.getColumns (snd entry)))
         tables.

(** the entries of a map of columns: every column under its own name, a
    text, and no name twice *)
Fixpoint keyed_by_name (Q : MySQLTableColumn.t -> Prop)
                       (m : JsMap.t MySQLTableColumn.t) : Prop :=
  match m with
  | [] => True
  | (k, v) :: rest =>
      JsMap.get k rest = None
      /\ v.(MySQLTableColumn.columnName) = k
      /\ (exists s, k = JString s)
      /\ Q v
      /\ keyed_by_name Q rest
  end.

(** the table of a list of columns, added one after the other *)
Definition table_of (name : JsValue) (columns : list MySQLTableColumn.t)
  : MySQLTable.t :=
  fold_left (fun table column => MySQLTable.addColumn column table) columns
            (MySQLTable.mk name JsMap.empty).

(** an entry of the list given to the constructor of a database: a text
    for table name, and valid rows *)
Definition valid_entry (entry : JsValue * list JsValue) : Prop :=
  (exists s, fst entry = JString s) /\ Forall valid_row (snd entry).

(** the step of the constructor of a database *)
Definition database_step (this : MySQLDatabase.t) (entry : JsValue * list JsValue)
  : Result MySQLDatabase.t :=
  (table <- MySQLTable.constructor (fst entry) (snd entry) ;;
   Ok (MySQLDatabase.mk this.(MySQLDatabase.databaseName)
         (JsMap.set (fst entry) table this.(MySQLDatabase.tables))))%res.

(** the map holds, under the key, a table of that name *)
Definition holds_table (tables : JsMap.t MySQLTable.t) (key : JsValue) : Prop :=
  exists table,
    JsMap.get key tables = Some table /\ table.(MySQLTable.tableName) = key.

(** the name of a column between backticks, as the key clauses list it *)
Definition quoted_name (column : MySQLTableColumn.t) : string :=
  "`" ++ Js.ToString column.(MySQLTableColumn.columnName) ++ "`".

Definition is_unique_key (column : MySQLTableColumn.t) : bool :=
  negb (MySQLTableColumn.isPrimaryKey column)
  && Js.is_string column.(MySQLTableColumn.columnKey) "UNI".

(** the clauses that follow the lines of the columns: one PRIMARY KEY clause
    naming the primary-key columns in order, when there is one, then one
    UNIQUE KEY clause for each unique column *)
Definition key_clauses (columns : list MySQLTableColumn.t) : list string :=
  (match filter MySQLTableColumn.isPrimaryKey columns with
   | [] => []
   | keys => [("PRIMARY KEY (" ++ Str.join ", " (map quoted_name keys) ++ ")")%string]
   end
   ++ map (fun column => MySQLTable.uniqueKeyClause (quoted_name column))
          (filter is_unique_key columns))%list.

(** a column whose key is MUL, with its key cleared *)
Definition without_index (column : MySQLTableColumn.t) : MySQLTableColumn.t :=
  if Js.is_string column.(MySQLTableColumn.columnKey) "MUL"
  then MySQLTableColumn.set_columnKey (JString "") column
  else column.

(** a text, or a value that counts as absent *)
Definition text_or_absent (v : JsValue) : bool :=
  match v with
  | JString _ => true
  | _ => negb (Js.ToBoolean v)
  end.

(** the table with the MUL keys of its columns cleared *)
Definition unindexed (table : MySQLTable.t) : MySQLTable.t :=
  MySQLTable.mk table.(MySQLTable.tableName)
    (map (fun entry => (fst entry, without_index (snd entry)))
         table.(MySQLTable.columns)).

(** two states of the loop that differ by the list of indexes at most *)
Definition same_clauses (a b : MySQLTable.Collected) : Prop :=
  a.(MySQLTable.columnDefinitions) = b.(MySQLTable.columnDefinitions)
  /\ a.(MySQLTable.primaryKeys) = b.(MySQLTable.primaryKeys)
  /\ a.(MySQLTable.uniqueKeys) = b.(MySQLTable.uniqueKeys).

(** the lines of the statement: those of the columns, the PRIMARY KEY
    clause when there is a primary key, the UNIQUE KEY clauses *)
Definition statement_lines (acc : MySQLTable.Collected) : list string :=
  ((match acc.(MySQLTable.primaryKeys) with
    | [] => acc.(MySQLTable.columnDefinitions)
    | _ =>
        acc.(MySQLTable.columnDefinitions)
        ++ [("PRIMARY KEY (" ++ Str.join ", " acc.(MySQLTable.primaryKeys) ++ ")")%string]
    end)
   ++ map MySQLTable.uniqueKeyClause acc.(MySQLTable.uniqueKeys))%list.

(** what follows the lines of the statement *)
Definition statement_tail (options : MySQLTable.Options)
                          (first : MySQLTableColumn.t) : Result string :=
  (let query := Str.nl ++ ")" in
   let query :=
     if Js.ToBoolean options.(MySQLTable.engine)
     then query ++ " ENGINE=" ++ Js.ToString options.(MySQLTable.engine) else query in
   let charset :=
     Js.or (Js.or options.(MySQLTable.charset)
                  first.(MySQLTableColumn.characterSetName))
           (JString "utf8mb4") in
   let collation :=
     Js.or (Js.or options.(MySQLTable.collation)
                  first.(MySQLTableColumn.collationName))
           (JString "utf8mb4_unicode_ci") in
   let query :=
     query ++ " DEFAULT CHARSET=" ++ Js.ToString charset
     ++ " COLLATE=" ++ Js.ToString collation in
   query <-
     (if Js.ToBoolean options.(MySQLTable.comment)
      then (escaped <- MySQLTable.escapeString options.(MySQLTable.comment) ;;
            Ok (query ++ " COMMENT='" ++ escaped ++ "'"))
      else Ok query) ;;
   Ok (query ++ ";"))%res.

(** the fields of a column, as [Object.entries(column.toJSON())] lists them *)
Definition fields (column : MySQLTableColumn.t) : list (string * JsValue) :=
  match MySQLTableColumn.toJSON column with
  | JObject entries => entries
  | _ => []
  end.

(** the text that the body of a quoted SQL text stands for: a doubled
    quote is a quote, a doubled backslash a backslash; a quote or a
    backslash alone is not part of a body *)
Fixpoint sql_unescape (s : string) : option string :=
  match s with
  | EmptyString => Some EmptyString
  | String c t =>
      if Ascii.eqb c "'" || Ascii.eqb c "092"
      then match t with
           | String c' t' =>
               if Ascii.eqb c' c then option_map (String c) (sql_unescape t')
               else None
           | EmptyString => None
           end
      else option_map (String c) (sql_unescape t)
  end.

(** an option of the command line, or the default when it is not given *)
Definition option_or (argv : JsValue) (key : string) (default : JsValue) : JsValue :=
  Js.or (Js.get argv key) default.

(** the [i]-th port the server tries when none is given *)
Definition probed_port (i : Z) : Z := (8080 + i * (i + 1) / 2)%Z.

End Notions.

(** ** More concrete values *)

Module Samples.

Definition created_at : list (string * JsValue) :=
  Examples.catalog_fields "orders" "created_at" "datetime" "datetime" 2
    (JString "CURRENT_TIMESTAMP") "MUL" "".

Definition created_at_column : MySQLTableColumn.t :=
  Spec.column_of (JObject created_at).

(** the rows of two tables, one of them without a name *)
Definition unnamed_id : list (string * JsValue) :=
  Examples.catalog_fields "" "id" "int" "int" 1 JNull "PRI" "".

Definition mixed_rows : list JsValue :=
  [JObject Examples.users_id; JObject unnamed_id; JObject Examples.users_name;
   JObject created_at].

(** a [listen] that throws on every port below 8082 and returns on the
    others *)
Definition listen_from_8082 (port : JsValue) : Result unit :=
  match port with
  | JNumber p => if (p <? 8082)%Z then Throw (Error "EADDRINUSE") else Ok tt
  | _ => Throw TypeError
  end.



(** a row of [users] whose position is a text *)
Definition bad_position : list (string * JsValue) :=
  [("TABLE_CATALOG", JString "def");
   ("TABLE_SCHEMA", JString "shop");
   ("TABLE_NAME", JString "users");
   ("COLUMN_NAME", JString "email");
   ("ORDINAL_POSITION", JString "3");
   ("COLUMN_DEFAULT", JNull);
   ("IS_NULLABLE", JString "YES");
   ("DATA_TYPE", JString "varchar");
   ("COLUMN_TYPE", JString "varchar(128)");
   ("COLUMN_KEY", JString "UNI");
   ("EXTRA", JString "");
   ("PRIVILEGES", JString "select");
   ("COLUMN_COMMENT", JString "");
   ("IS_GENERATED", JString "NEVER")].

Definition bad_position_error : Exception :=
  Eval vm_compute in
    match Validator.assertColumnMetadataRaw (JObject bad_position) with
    | Throw e => e
    | Ok _ => TypeError
    end.

(** the tables of a database, as given to its constructor: the second
    holds a row of the first *)
Definition shop_entries : list (JsValue * list JsValue) :=
  [(JString "users", [JObject Examples.users_id; JObject Examples.users_name]);
   (JString "orders", [JObject Examples.orders_id; JObject Examples.users_name])].

End Samples.

(** * Theorems *)


(** ** The validator *)

Section ValidatorFacts.
Import Validator.

Lemma check_required_present (props : list (string * JsValue)) (keys : list string) :
  check_required keys (JObject props) = Ok tt
  <-> forallb (fun key => Spec.present key props) keys = true.
Proof.
  induction keys as [|k keys IH]; simpl; [tauto|].
  unfold Spec.present at 1.
  destruct (Js.lookup k props); simpl; [exact IH|].
  split; discriminate.
Qed.

Lemma expect_string_agrees : Spec.agrees expect_string Spec.AString.
Proof. intros []; reflexivity. Qed.

Lemma expect_number_agrees : Spec.agrees expect_number Spec.ANumber.
Proof. intros []; reflexivity. Qed.

Lemma expect_string_or_null_agrees : Spec.agrees expect_string_or_null Spec.NullableString.
Proof. intros []; reflexivity. Qed.

Lemma expect_number_or_null_agrees : Spec.agrees expect_number_or_null Spec.NullableNumber.
Proof. intros []; reflexivity. Qed.

Lemma expect_is_nullable_agrees :
  Spec.agrees expect_is_nullable (Spec.OneOf ["YES"; "NO"]).
Proof.
  intros []; try reflexivity.
  unfold expect_is_nullable, Js.is_string, or_message. cbn.
  destruct (s =? "YES"), (s =? "NO"); reflexivity.
Qed.

Lemma expect_column_key_agrees :
  Spec.agrees expect_column_key (Spec.OneOf ["PRI"; "UNI"; "MUL"; ""]).
Proof.
  intros []; try reflexivity.
  unfold expect_column_key, Js.is_string, or_message. cbn.
  destruct (s =? "PRI"), (s =? "UNI"), (s =? "MUL"), (s =? ""); reflexivity.
Qed.

Lemma expect_is_generated_agrees : Spec.agrees expect_is_generated Spec.AString.
Proof.
  intros []; try reflexivity.
  unfold expect_is_generated, Js.is_string, or_message. cbn.
  destruct (s =? "NEVER"), (s =? "ALWAYS"); reflexivity.
Qed.

Lemma validators_follow_shapes :
  Forall2 (fun vf d => fst vf = fst d /\ Spec.agrees (snd vf) (snd d))
          validators Spec.declared_shape.
Proof.
  unfold validators, Spec.declared_shape.
  repeat (apply Forall2_cons; [split; [reflexivity|]|]); try apply Forall2_nil;
    simpl;
    first [ exact expect_string_agrees | exact expect_number_agrees
          | exact expect_string_or_null_agrees | exact expect_number_or_null_agrees
          | exact expect_is_nullable_agrees | exact expect_column_key_agrees
          | exact expect_is_generated_agrees ].
Qed.

Lemma matches_undefined (shape : Spec.Shape) : Spec.matches shape JUndefined = false.
Proof. destruct shape; reflexivity. Qed.

Lemma check_validators_shapes (props : list (string * JsValue)) vs ds :
  Forall2 (fun vf d => fst vf = fst d /\ Spec.agrees (snd vf) (snd d)) vs ds ->
  check_validators vs (JObject props) = Ok tt
  <-> forallb (fun d => match Js.lookup (fst d) props with
                        | Some v => Spec.matches (snd d) v
                        | None => false
                        end) ds = true.
Proof.
  induction 1 as [|x y vs ds Hxy _ IH]; simpl; [tauto|].
  destruct x as [k f], y as [k' sh], Hxy as [Hk Hf].
  simpl in Hk, Hf. subst k'. simpl fst. simpl snd.
  replace (Js.get (JObject props) k)
    with (match Js.lookup k props with Some v => v | None => JUndefined end)
    by reflexivity.
  rewrite Hf.
  destruct (Js.lookup k props) as [v|].
  - destruct (Spec.matches sh v); simpl; [exact IH|]. split; discriminate.
  - rewrite matches_undefined. simpl. split; discriminate.
Qed.

Lemma assert_object (props : list (string * JsValue)) :
  assertColumnMetadataRaw (JObject props) = Ok true
  <-> Spec.all_fields_match props = true.
Proof.
  unfold assertColumnMetadataRaw. simpl negb. simpl orb. cbv iota.
  pose proof (check_required_present props requiredKeys) as Hreq.
  pose proof (check_validators_shapes props _ _ validators_follow_shapes) as Hval.
  fold (Spec.all_fields_match props) in Hval.
  split.
  - unfold Res.bind.
    destruct (check_required requiredKeys (JObject props)) as [[]|]; [|discriminate].
    destruct (check_validators validators (JObject props)) as [[]|]; [|discriminate].
    intros _. now apply Hval.
  - intros Hall.
    assert (Hp : forallb (fun key => Spec.present key props) requiredKeys = true).
    { unfold Spec.all_fields_match in Hall. rewrite forallb_forall in Hall.
      apply forallb_forall. intros key Hin.
      assert (Hd : exists sh, In (key, sh) Spec.declared_shape).
      { simpl in Hin.
        repeat (destruct Hin as [<-|Hin];
                [eexists; simpl; repeat (first [left; reflexivity | right])|]).
        contradiction. }
      destruct Hd as [sh Hd]. specialize (Hall _ Hd). simpl in Hall.
      unfold Spec.present. now destruct (Js.lookup key props). }
    apply Hreq in Hp. apply Hval in Hall. now rewrite Hp, Hall.
Qed.

Lemma assert_only_objects (obj : JsValue) (b : bool) :
  assertColumnMetadataRaw obj = Ok b ->
  b = true /\ exists props, obj = JObject props.
Proof.
  unfold assertColumnMetadataRaw. destruct obj; try discriminate.
  unfold Res.bind. simpl negb. simpl orb. cbv iota.
  destruct (check_required requiredKeys (JObject props)) as [[]|]; [|discriminate].
  destruct (check_validators validators (JObject props)) as [[]|]; [|discriminate].
  intros [= <-]. eauto.
Qed.

Lemma lookup_remove_other key k props :
  k <> key -> Js.lookup k (Spec.remove_field key props) = Js.lookup k props.
Proof.
  intros Hne. induction props as [|[k0 v] props IH]; simpl; [reflexivity|].
  destruct (k0 =? key) eqn:E0; simpl.
  - apply String.eqb_eq in E0. subst k0.
    destruct (key =? k) eqn:E1; [apply String.eqb_eq in E1; congruence|exact IH].
  - destruct (k0 =? k); [reflexivity|exact IH].
Qed.

Lemma lookup_remove_same key props :
  Js.lookup key (Spec.remove_field key props) = None.
Proof.
  induction props as [|[k0 v] props IH]; simpl; [reflexivity|].
  destruct (k0 =? key) eqn:E0; simpl; [exact IH|]. now rewrite E0.
Qed.

Lemma check_required_removed key props keys :
  NoDup keys -> In key keys ->
  forallb (fun k => Spec.present k props) keys = true ->
  check_required keys (JObject (Spec.remove_field key props))
  = Throw (Error ("Missing required field: " ++ key)).
Proof.
  induction 1 as [|k keys Hnotin Hnd IH]; simpl; [contradiction|].
  intros [->|Hin] Hall; apply andb_prop in Hall; destruct Hall as [Hk Hall].
  - now rewrite lookup_remove_same.
  - assert (Hne : k <> key) by (intros ->; contradiction).
    rewrite (lookup_remove_other key k props Hne).
    unfold Spec.present in Hk. destruct (Js.lookup k props); [|discriminate].
    simpl. now apply IH.
Qed.

Lemma requiredKeys_NoDup : NoDup requiredKeys.
Proof.
  unfold requiredKeys.
  repeat (apply NoDup_cons;
          [simpl; intros H;
           repeat (destruct H as [H|H]; [discriminate H|]); exact H|]).
  apply NoDup_nil.
Qed.

End ValidatorFacts.

(** C2 (as amended).  Validation of a row succeeds if and only if every one
    of the twenty-two declared fields is present and matches its declared
    shape (a nullable field may hold [null], it may not be absent); and
    removing one of the thirteen required fields from a row that has them
    all makes validation fail with the message that names that field. *)
Theorem validate_iff_all_fields_match :
  forall props : list (string * JsValue),
    (Validator.assertColumnMetadataRaw (JObject props) = Ok true
     <-> Spec.all_fields_match props = true)
    /\ (forall key,
          In key Spec.required_fields ->
          Spec.required_present props = true ->
          Validator.assertColumnMetadataRaw (JObject (Spec.remove_field key props))
          = Throw (Error ("Missing required field: " ++ key))).
Proof.
  intros props. split; [apply assert_object|].
  intros key Hin Hall.
  unfold Validator.assertColumnMetadataRaw. simpl negb. simpl orb. cbv iota.
  change Spec.required_fields with Validator.requiredKeys in Hin.
  unfold Spec.required_present in Hall.
  change Spec.required_fields with Validator.requiredKeys in Hall.
  now rewrite (check_required_removed key props _ requiredKeys_NoDup Hin Hall).
Qed.


Lemma validate_iff_all_fields_match_witness :
  Validator.assertColumnMetadataRaw (JObject Examples.users_id) = Ok true
  /\ Validator.assertColumnMetadataRaw
       (JObject (Spec.remove_field "TABLE_NAME" Examples.users_id))
     = Throw (Error "Missing required field: TABLE_NAME").
Proof.
  destruct (validate_iff_all_fields_match Examples.users_id) as [Hiff Hremove].
  split.
  - apply Hiff. reflexivity.
  - apply (Hremove "TABLE_NAME"); [simpl; tauto | reflexivity].
Defined.

(** C2, as stated, fails: a row that has every required field, and whose
    present fields all match their shapes, is rejected when the nullable
    field [COLUMN_DEFAULT] is absent. *)
Lemma absent_nullable_field_is_rejected :
  Spec.required_present Examples.users_name_without_default = true
  /\ Spec.present_fields_match Examples.users_name_without_default = true
  /\ Spec.present "COLUMN_DEFAULT" Examples.users_name_without_default = false
  /\ Validator.assertColumnMetadataRaw (JObject Examples.users_name_without_default)
     = Throw (Error "Invalid COLUMN_DEFAULT: Expected string or null, got undefined").
Proof. repeat split. Qed.

(** ** Importing a row into a column *)

Section ImportFacts.
Import MySQLTableColumn.

Lemma import_rejected raw this e :
  Validator.assertColumnMetadataRaw raw = Throw e ->
  importFromRawData raw this = (Throw e, this).
Proof.
  intros H. unfold importFromRawData, Method.bind, Method.call. now rewrite H.
Qed.

Lemma import_accepted raw this b :
  Validator.assertColumnMetadataRaw raw = Ok b ->
  importFromRawData raw this = (Ok tt, Spec.column_of raw).
Proof.
  intros H. destruct (assert_only_objects raw b H) as [-> [props ->]].
  unfold importFromRawData, assign_from, Method.bind, Method.call, Method.assign.
  rewrite H. reflexivity.
Qed.

Lemma new_imported_ok raw column :
  new_imported raw = Ok column <->
  Validator.assertColumnMetadataRaw raw = Ok true /\ column = Spec.column_of raw.
Proof.
  unfold new_imported.
  destruct (Validator.assertColumnMetadataRaw raw) as [b|e] eqn:E.
  - rewrite (import_accepted raw blank b E).
    destruct (assert_only_objects raw b E) as [-> _].
    split; [intros [= <-]; auto | intros [_ ->]; reflexivity].
  - rewrite (import_rejected raw blank e E). split; [discriminate|intros [H _]; discriminate].
Qed.

End ImportFacts.

(** C9.  Importing is atomic: the validation comes first, so when it fails
    the call throws its error and every field of the column is as it was;
    and no other failure of the import can leave a changed column. *)
Theorem import_is_atomic :
  forall (raw : JsValue) (this : MySQLTableColumn.t),
    (forall e, Validator.assertColumnMetadataRaw raw = Throw e ->
               MySQLTableColumn.importFromRawData raw this = (Throw e, this))
    /\ (forall e, fst (MySQLTableColumn.importFromRawData raw this) = Throw e ->
                  snd (MySQLTableColumn.importFromRawData raw this) = this).
Proof.
  intros raw this. split.
  - intros e. apply import_rejected.
  - intros e. destruct (Validator.assertColumnMetadataRaw raw) as [b|e'] eqn:E.
    + rewrite (import_accepted raw this b E). discriminate.
    + now rewrite (import_rejected raw this e' E).
Qed.

(** ** The type classifier *)

Section Classifier.
Import MySQLTableColumn SchemaHelpers.

Variable column : MySQLTableColumn.t.
Variables dt ct : string.
Hypothesis Hdt : column.(dataType) = JString dt.
Hypothesis Hct : column.(columnType) = JString ct.

Lemma hasIntegerDataType_bigint :
  Str.includes "bigint" (Str.toLowerCase dt) = true ->
  hasIntegerDataType column = Throw (Error "bigint not supported").
Proof.
  intros Hbig. unfold hasIntegerDataType. rewrite Hdt. simpl. now rewrite Hbig.
Qed.

Lemma hasIntegerDataType_int :
  Str.includes "bigint" (Str.toLowerCase dt) = false ->
  Str.includes "int" (Str.toLowerCase dt) = true ->
  hasIntegerDataType column = Ok true.
Proof.
  intros Hbig Hint. unfold hasIntegerDataType. rewrite Hdt. simpl Res.bind.
  rewrite Hbig. unfold Str.test_any. simpl existsb. rewrite Hint.
  now rewrite orb_true_r.
Qed.

Lemma hasBooleanDataType_not_tinyint1 :
  (Str.toLowerCase ct =? "tinyint(1)") = false ->
  hasBooleanDataType column =
  Res.bind (hasIntegerDataType column)
    (fun isInteger =>
       if isInteger
       then Res.bind (Js.toLowerCase column.(columnName))
              (fun name => Ok (boolean_name name))
       else Ok (Str.toLowerCase dt =? "boolean")).
Proof.
  intros Hneq. unfold hasBooleanDataType. rewrite Hdt, Hct. simpl Res.bind.
  now rewrite Hneq.
Qed.

End Classifier.

(** lower-casing keeps what a text contains: a data type that contains
    [bigint] as written contains it once lower-cased *)
Lemma prefix_map_chars (f : ascii -> ascii) (s p : string) :
  String.prefix p s = true ->
  String.prefix (Str.map_chars f p) (Str.map_chars f s) = true.
Proof.
  revert p. induction s as [|b s IH]; intros [|a p]; simpl; trivial.
  destruct (ascii_dec a b) as [->|]; [|discriminate].
  destruct (ascii_dec (f b) (f b)); [apply IH | contradiction].
Qed.

Lemma includes_map_chars (f : ascii -> ascii) (p s : string) :
  Str.includes p s = true ->
  Str.includes (Str.map_chars f p) (Str.map_chars f s) = true.
Proof.
  induction s as [|b s IH]; simpl Str.includes; intros H;
    apply orb_true_iff in H; apply orb_true_iff.
  - destruct H as [H|H]; [left|discriminate].
    exact (prefix_map_chars f "" p H).
  - destruct H as [H|H]; [left | right; now apply IH].
    exact (prefix_map_chars f (String b s) p H).
Qed.

Lemma contains_bigint_in_any_case (dt : string) :
  Str.includes "bigint" dt = true ->
  Str.includes "bigint" (Str.toLowerCase dt) = true.
Proof. exact (includes_map_chars Str.lower_char "bigint" dt). Qed.

Lemma validation_message_differs (obj : JsValue) :
  Validator.assertColumnMetadataRaw obj <> Throw (Error "bigint not supported").
Proof.
  unfold Validator.assertColumnMetadataRaw.
  destruct (negb _ || _); [discriminate|].
  assert (Hreq : forall keys, Validator.check_required keys obj
                              <> Throw (Error "bigint not supported")).
  { induction keys as [|k keys IH]; simpl; [discriminate|].
    destruct (negb _); [|exact IH]. simpl. discriminate. }
  assert (Hval : forall vs, Validator.check_validators vs obj
                            <> Throw (Error "bigint not supported")).
  { induction vs as [|[k f] vs IH]; simpl; [discriminate|].
    destruct (Validator.typeof_is _ _); [|exact IH]. simpl. discriminate. }
  specialize (Hreq Validator.requiredKeys). specialize (Hval Validator.validators).
  unfold Res.bind.
  destruct (Validator.check_required Validator.requiredKeys obj) as [[]|e];
    [|intros H; apply Hreq; congruence].
  destruct (Validator.check_validators Validator.validators obj) as [[]|e];
    [discriminate|intros H; apply Hval; congruence].
Qed.

(** C1 (as amended).  A column whose lower-cased data type contains
    [bigint] (as every data type that contains it as written does) and
    whose lower-cased column type is not [tinyint(1)] makes the classifier,
    and both predicates that look at integers, throw the error "bigint not
    supported", whatever its column name; no validation failure carries
    that message. *)
Theorem bigint_is_rejected_unless_tinyint1 :
  forall (column : MySQLTableColumn.t) (dt ct : string),
    column.(MySQLTableColumn.dataType) = JString dt ->
    column.(MySQLTableColumn.columnType) = JString ct ->
    Str.includes "bigint" (Str.toLowerCase dt) = true ->
    (Str.toLowerCase ct =? "tinyint(1)") = false ->
    SchemaHelpers.detectFieldTypeByColumnType column
      = Throw (Error "bigint not supported")
    /\ SchemaHelpers.hasBooleanDataType column
      = Throw (Error "bigint not supported")
    /\ SchemaHelpers.hasIntegerDataType column
      = Throw (Error "bigint not supported")
    /\ forall obj, Validator.assertColumnMetadataRaw obj
                   <> Throw (Error "bigint not supported").
Proof.
  intros column dt ct Hdt Hct Hbig Hneq.
  pose proof (hasIntegerDataType_bigint column dt Hdt Hbig) as Hint.
  assert (Hbool : SchemaHelpers.hasBooleanDataType column
                  = Throw (Error "bigint not supported")).
  { rewrite (hasBooleanDataType_not_tinyint1 column dt ct Hdt Hct Hneq).
    now rewrite Hint. }
  repeat split; trivial.
  - unfold SchemaHelpers.detectFieldTypeByColumnType. now rewrite Hbool.
  - exact validation_message_differs.
Qed.

Lemma bigint_is_rejected_witness :
  SchemaHelpers.detectFieldTypeByColumnType (Examples.bigint_column "is_big" "bigint(20)")
  = Throw (Error "bigint not supported").
Proof.
  apply (bigint_is_rejected_unless_tinyint1
           (Examples.bigint_column "is_big" "bigint(20)") "bigint" "bigint(20)");
    reflexivity.
Defined.

(** C1, as stated, fails: with the column type [tinyint(1)] a [bigint]
    column is classified [bit] and nothing is thrown. *)
Lemma bigint_tinyint1_is_bit :
  let column := Examples.bigint_column "flags" "tinyint(1)" in
  column.(MySQLTableColumn.dataType) = JString "bigint"
  /\ Str.includes "bigint" "bigint" = true
  /\ SchemaHelpers.detectFieldTypeByColumnType column = Ok "bit".
Proof. repeat split. Qed.

(** C10.  Integer detection is by substring: a column whose lower-cased
    data type contains [int] but not [bigint], whose lower-cased column
    type is not [tinyint(1)] and whose lower-cased name does not match
    [^is_|_is_|^has_], is classified [integer]. *)
Theorem int_substring_is_integer :
  forall (column : MySQLTableColumn.t) (dt ct cn : string),
    column.(MySQLTableColumn.dataType) = JString dt ->
    column.(MySQLTableColumn.columnType) = JString ct ->
    column.(MySQLTableColumn.columnName) = JString cn ->
    Str.includes "int" (Str.toLowerCase dt) = true ->
    Str.includes "bigint" (Str.toLowerCase dt) = false ->
    (Str.toLowerCase ct =? "tinyint(1)") = false ->
    SchemaHelpers.boolean_name (Str.toLowerCase cn) = false ->
    SchemaHelpers.detectFieldTypeByColumnType column = Ok "integer".
Proof.
  intros column dt ct cn Hdt Hct Hcn Hint Hbig Hneq Hname.
  pose proof (hasIntegerDataType_int column dt Hdt Hbig Hint) as Hi.
  unfold SchemaHelpers.detectFieldTypeByColumnType.
  rewrite (hasBooleanDataType_not_tinyint1 column dt ct Hdt Hct Hneq).
  rewrite Hi. simpl Res.bind. rewrite Hcn. simpl Res.bind.
  now rewrite Hname.
Qed.

Lemma int_substring_is_integer_witness :
  SchemaHelpers.detectFieldTypeByColumnType Examples.point_column = Ok "integer".
Proof.
  apply (int_substring_is_integer Examples.point_column "POINT" "point" "location");
    reflexivity.
Defined.

Lemma import_is_atomic_witness :
  MySQLTableColumn.importFromRawData
    (JObject Examples.users_name_without_default) Examples.point_column
  = (Throw (Error "Invalid COLUMN_DEFAULT: Expected string or null, got undefined"),
     Examples.point_column).
Proof.
  apply (import_is_atomic (JObject Examples.users_name_without_default)
                          Examples.point_column).
  reflexivity.
Defined.

(** ** Tables *)

(** C5.  A table without columns has no CREATE TABLE statement: generation
    throws the error "Table <name> has no columns" and returns no text. *)
Theorem empty_table_has_no_statement :
  forall (options : MySQLTable.Options) (table : MySQLTable.t),
    MySQLTable.getColumns table = [] ->
    MySQLTable.generateCreateTableQuery options table
    = Throw (Error ("Table " ++ Js.ToString table.(MySQLTable.tableName)
                    ++ " has no columns"))
    /\ forall text, MySQLTable.generateCreateTableQuery options table <> Ok text.
Proof.
  intros options table Hempty.
  unfold MySQLTable.generateCreateTableQuery. rewrite Hempty.
  split; [reflexivity | discriminate].
Qed.

Lemma empty_table_has_no_statement_witness :
  MySQLTable.generateCreateTableQuery MySQLTable.no_options
    (MySQLTable.mk (JString "users") JsMap.empty)
  = Throw (Error "Table users has no columns").
Proof.
  apply (empty_table_has_no_statement MySQLTable.no_options
           (MySQLTable.mk (JString "users") JsMap.empty)).
  reflexivity.
Defined.

(** ** The renderers on the empty list *)

(** C7 (as amended).  On the empty row list the object-literal renderer and
    the typed-record renderer return the empty string; the JSON renderer
    returns the text of the empty array, whatever names are checked.  None
    of them fails. *)
Theorem renderers_on_no_rows :
  Renderers.convertColumnMetadataToJsCode [] = Ok ""
  /\ Renderers.convertColumnMetadataToJsClassCode [] = Ok ""
  /\ forall table_names, Frontend.render_button_click table_names [] = Ok "[]".
Proof. repeat split. Qed.

(** C7, as stated, fails for the JSON renderer: its text for the empty row
    list is not the empty string. *)
Lemma json_of_no_rows_is_not_empty :
  Frontend.render_button_click [] [] = Ok "[]"
  /\ Frontend.render_button_click [] [] <> Ok "".
Proof. split; [reflexivity | discriminate]. Qed.

(** ** Maps *)

Section JsMapFacts.
Context {V : Type}.
Implicit Types (m : JsMap.t V) (k : JsValue) (v : V).

Lemma strict_equals_string k s :
  Js.strict_equals k (JString s) = true -> k = JString s.
Proof.
  destruct k; simpl; try discriminate.
  intros H. apply String.eqb_eq in H. now subst.
Qed.

Lemma strict_equals_string_refl s :
  Js.strict_equals (JString s) (JString s) = true.
Proof. apply String.eqb_refl. Qed.

Lemma get_set_same k v m :
  Js.strict_equals k k = true -> JsMap.get k (JsMap.set k v m) = Some v.
Proof.
  intros Hk. induction m as [|[k0 x] m IH]; simpl.
  - now rewrite Hk.
  - destruct (Js.strict_equals k0 k) eqn:E; simpl; now rewrite E.
Qed.

Lemma set_set k v v' m :
  Js.strict_equals k k = true ->
  JsMap.set k v' (JsMap.set k v m) = JsMap.set k v' m.
Proof.
  intros Hk. induction m as [|[k0 x] m IH]; simpl.
  - now rewrite Hk.
  - destruct (Js.strict_equals k0 k) eqn:E; simpl; rewrite E; [reflexivity|].
    now rewrite IH.
Qed.

(** where [set] puts a value, a later [set] of the same key puts its own *)
Lemma set_in_place k v m :
  Js.strict_equals k k = true ->
  exists before k' after,
    JsMap.set k v m = (before ++ (k', v) :: after)%list
    /\ forall v', JsMap.set k v' (JsMap.set k v m) = (before ++ (k', v') :: after)%list.
Proof.
  intros Hk. induction m as [|[k0 x] m IH]; simpl.
  - exists [], k, []. split; [reflexivity|]. intros v'. simpl. now rewrite Hk.
  - destruct (Js.strict_equals k0 k) eqn:E.
    + exists [], k0, m. split; [reflexivity|]. intros v'. simpl. now rewrite E.
    + destruct IH as (before & k' & after & H1 & H2).
      exists ((k0, x) :: before), k', after. split.
      * simpl. now rewrite H1.
      * intros v'. simpl. rewrite E. now rewrite H2.
Qed.

Lemma get_In k m v :
  JsMap.get k m = Some v ->
  exists k0, In (k0, v) m /\ Js.strict_equals k0 k = true.
Proof.
  induction m as [|[k0 x] m IH]; simpl; [discriminate|].
  destruct (Js.strict_equals k0 k) eqn:E.
  - intros [= ->]. exists k0. auto.
  - intros H. destruct (IH H) as (k1 & Hin & Hk1). exists k1. auto.
Qed.

Lemma Forall_set (P : JsValue * V -> Prop) k v m :
  Forall P m ->
  (forall k0, Js.strict_equals k0 k = true -> P (k0, v)) ->
  P (k, v) ->
  Forall P (JsMap.set k v m).
Proof.
  intros Hall Hrepl Hnew. induction Hall as [|[k0 x] m Hx Hall IH]; simpl.
  - constructor; [exact Hnew | constructor].
  - destruct (Js.strict_equals k0 k) eqn:E.
    + constructor; [now apply Hrepl | exact Hall].
    + constructor; [exact Hx | exact IH].
Qed.

End JsMapFacts.

(** ** Validated columns *)

Lemma validated_field props key shape :
  Spec.all_fields_match props = true ->
  In (key, shape) Spec.declared_shape ->
  Spec.matches shape (Js.get (JObject props) key) = true.
Proof.
  unfold Spec.all_fields_match. rewrite forallb_forall.
  intros Hall Hin. specialize (Hall _ Hin). simpl in Hall |- *.
  now destruct (Js.lookup key props).
Qed.

Lemma matches_string v : Spec.matches Spec.AString v = true -> exists s, v = JString s.
Proof. destruct v; try discriminate. eauto. Qed.

Lemma imported_names raw column :
  MySQLTableColumn.new_imported raw = Ok column ->
  exists tn cn,
    column.(MySQLTableColumn.tableName) = JString tn
    /\ column.(MySQLTableColumn.columnName) = JString cn.
Proof.
  intros H. apply new_imported_ok in H. destruct H as [Hok ->].
  destruct (assert_only_objects raw true Hok) as [_ [props ->]].
  apply assert_object in Hok.
  destruct (matches_string _ (validated_field props "TABLE_NAME" Spec.AString Hok
                                ltac:(simpl; tauto))) as [tn Htn].
  destruct (matches_string _ (validated_field props "COLUMN_NAME" Spec.AString Hok
                                ltac:(simpl; tauto))) as [cn Hcn].
  exists tn, cn. split; assumption.
Qed.

(** ** Adding rows to the model *)

Section AddRow.
Import Renderers.

(** the table a row goes to: the one the map has, or a new empty one *)
Lemma add_row_ok db raw column tn :
  MySQLTableColumn.new_imported raw = Ok column ->
  column.(MySQLTableColumn.tableName) = JString tn ->
  add_row db raw =
  Ok (MySQLDatabase.mk db.(MySQLDatabase.databaseName)
        (JsMap.set (JString tn)
           (MySQLTable.addColumn column
              match JsMap.get (JString tn) db.(MySQLDatabase.tables) with
              | Some table => table
              | None => MySQLTable.mk (JString tn) JsMap.empty
              end)
           db.(MySQLDatabase.tables))).
Proof.
  intros Hnew Htn. unfold add_row. rewrite Hnew. simpl Res.bind. rewrite Htn.
  destruct (JsMap.get (JString tn) (MySQLDatabase.tables db)) as [table|];
    simpl; [reflexivity|].
  now rewrite set_set by apply strict_equals_string_refl.
Qed.

End AddRow.

(** C8.  Two validated rows with the same table name and the same column
    name, added to the model one after the other: both additions succeed,
    the table then holds the later row's column under that name, at the
    place where the earlier one was, and it has as many columns after the
    second addition as after the first. *)
Theorem last_write_wins :
  forall (db : MySQLDatabase.t) (r1 r2 : JsValue) (c1 c2 : MySQLTableColumn.t),
    MySQLTableColumn.new_imported r1 = Ok c1 ->
    MySQLTableColumn.new_imported r2 = Ok c2 ->
    c1.(MySQLTableColumn.tableName) = c2.(MySQLTableColumn.tableName) ->
    c1.(MySQLTableColumn.columnName) = c2.(MySQLTableColumn.columnName) ->
    exists db1 db2 t1 t2,
      Renderers.add_row db r1 = Ok db1
      /\ Renderers.add_row db1 r2 = Ok db2
      /\ JsMap.get c1.(MySQLTableColumn.tableName) db1.(MySQLDatabase.tables) = Some t1
      /\ JsMap.get c2.(MySQLTableColumn.tableName) db2.(MySQLDatabase.tables) = Some t2
      /\ MySQLTable.getColumn c2.(MySQLTableColumn.columnName) t2 = Some c2
      /\ length (MySQLTable.getColumns t2) = length (MySQLTable.getColumns t1)
      /\ exists before after,
           MySQLTable.getColumns t1 = (before ++ c1 :: after)%list
           /\ MySQLTable.getColumns t2 = (before ++ c2 :: after)%list.
Proof.
  intros db r1 r2 c1 c2 H1 H2 Htable Hcolumn.
  destruct (imported_names r1 c1 H1) as (tn & cn & Htn & Hcn).
  assert (Htn2 : c2.(MySQLTableColumn.tableName) = JString tn) by congruence.
  assert (Hcn2 : c2.(MySQLTableColumn.columnName) = JString cn) by congruence.
  pose proof (strict_equals_string_refl tn) as Rtn.
  pose proof (strict_equals_string_refl cn) as Rcn.
  pose proof (add_row_ok db r1 c1 tn H1 Htn) as A1.
  set (table0 := match JsMap.get (JString tn) db.(MySQLDatabase.tables) with
                 | Some table => table
                 | None => MySQLTable.mk (JString tn) JsMap.empty
                 end) in A1.
  set (t1 := MySQLTable.addColumn c1 table0) in A1.
  set (db1 := MySQLDatabase.mk _ _) in A1.
  assert (G1 : JsMap.get (JString tn) db1.(MySQLDatabase.tables) = Some t1)
    by (apply get_set_same; exact Rtn).
  pose proof (add_row_ok db1 r2 c2 tn H2 Htn2) as A2.
  rewrite G1 in A2.
  set (t2 := MySQLTable.addColumn c2 t1) in A2.
  set (db2 := MySQLDatabase.mk _ _) in A2.
  assert (G2 : JsMap.get (JString tn) db2.(MySQLDatabase.tables) = Some t2)
    by (apply get_set_same; exact Rtn).
  destruct (set_in_place (JString cn) c1 table0.(MySQLTable.columns) Rcn)
    as (before & k' & after & S1 & S2).
  assert (C1 : MySQLTable.getColumns t1
               = (map snd before ++ c1 :: map snd after)%list).
  { unfold MySQLTable.getColumns, JsMap.values, t1, MySQLTable.addColumn.
    simpl. rewrite Hcn, S1, map_app. reflexivity. }
  assert (C2 : MySQLTable.getColumns t2
               = (map snd before ++ c2 :: map snd after)%list).
  { unfold MySQLTable.getColumns, JsMap.values, t2, t1, MySQLTable.addColumn.
    simpl. rewrite Hcn, Hcn2, S2, map_app. reflexivity. }
  exists db1, db2, t1, t2. rewrite Htn, Htn2, Hcn2.
  repeat split; trivial.
  - unfold MySQLTable.getColumn, t2, MySQLTable.addColumn. simpl.
    rewrite Hcn2. apply get_set_same. exact Rcn.
  - rewrite C1, C2, !length_app. reflexivity.
  - exists (map snd before), (map snd after). split; assumption.
Qed.

Lemma last_write_wins_witness :
  exists db1 db2 t1 t2,
    Renderers.add_row Examples.empty_database (JObject Examples.users_name) = Ok db1
    /\ Renderers.add_row db1 (JObject Examples.users_name_again) = Ok db2
    /\ JsMap.get (JString "users") db1.(MySQLDatabase.tables) = Some t1
    /\ JsMap.get (JString "users") db2.(MySQLDatabase.tables) = Some t2
    /\ MySQLTable.getColumn (JString "name") t2
       = Some (Spec.column_of (JObject Examples.users_name_again))
    /\ length (MySQLTable.getColumns t2) = length (MySQLTable.getColumns t1)
    /\ exists before after,
         MySQLTable.getColumns t1
         = (before ++ Spec.column_of (JObject Examples.users_name) :: after)%list
         /\ MySQLTable.getColumns t2
            = (before ++ Spec.column_of (JObject Examples.users_name_again) :: after)%list.
Proof.
  apply (last_write_wins Examples.empty_database
           (JObject Examples.users_name) (JObject Examples.users_name_again)
           (Spec.column_of (JObject Examples.users_name))
           (Spec.column_of (JObject Examples.users_name_again)));
    reflexivity.
Defined.

(** ** The table-name invariant *)

Lemma add_row_keeps_invariant db raw db' :
  Spec.table_name_invariant db.(MySQLDatabase.tables) ->
  Renderers.add_row db raw = Ok db' ->
  Spec.table_name_invariant db'.(MySQLDatabase.tables).
Proof.
  intros Hinv Hadd.
  destruct (MySQLTableColumn.new_imported raw) as [column|e] eqn:Hnew.
  2:{ unfold Renderers.add_row in Hadd. rewrite Hnew in Hadd. discriminate. }
  destruct (imported_names raw column Hnew) as (tn & cn & Htn & Hcn).
  rewrite (add_row_ok db raw column tn Hnew Htn) in Hadd.
  injection Hadd as <-. simpl.
  set (table0 := match JsMap.get (JString tn) db.(MySQLDatabase.tables) with
                 | Some table => table
                 | None => MySQLTable.mk (JString tn) JsMap.empty
                 end).
  assert (Hname0 : table0.(MySQLTable.tableName) = JString tn
                   /\ Spec.columns_belong table0).
  { unfold table0.
    destruct (JsMap.get (JString tn) db.(MySQLDatabase.tables)) as [table|] eqn:G.
    - destruct (get_In _ _ _ G) as (k0 & Hin & Hk0).
      apply strict_equals_string in Hk0. subst k0.
      unfold Spec.table_name_invariant in Hinv. rewrite Forall_forall in Hinv.
      exact (Hinv _ Hin).
    - split; [reflexivity | constructor]. }
  destruct Hname0 as [Hname0 Hcols0].
  assert (Hnew_table :
            (MySQLTable.addColumn column table0).(MySQLTable.tableName) = JString tn
            /\ Spec.columns_belong (MySQLTable.addColumn column table0)).
  { split; [exact Hname0|].
    unfold Spec.columns_belong, MySQLTable.getColumns, JsMap.values,
      MySQLTable.addColumn in *. simpl.
    apply Forall_map. apply Forall_map in Hcols0.
    apply Forall_set; simpl; trivial; congruence. }
  apply Forall_set; simpl; trivial.
  intros k0 Hk0. apply strict_equals_string in Hk0. now subst k0.
Qed.

Lemma fold_add_row_keeps_invariant data :
  forall db db',
    Spec.table_name_invariant db.(MySQLDatabase.tables) ->
    Res.fold Renderers.add_row data db = Ok db' ->
    Spec.table_name_invariant db'.(MySQLDatabase.tables).
Proof.
  induction data as [|raw data IH]; simpl; intros db db' Hinv Hfold.
  - now injection Hfold as <-.
  - destruct (Renderers.add_row db raw) as [db1|e] eqn:Hadd; [|discriminate].
    simpl in Hfold.
    exact (IH db1 db' (add_row_keeps_invariant db raw db1 Hinv Hadd) Hfold).
Qed.

(** C6 (as amended).  In the model the renderers build from a row list,
    every table is stored under its own name and every column it contains
    has that name in its table-name field. *)
Theorem built_tables_own_their_columns :
  forall (first : JsValue) (data : list JsValue) (db : MySQLDatabase.t),
    Renderers.build first data = Ok db ->
    Spec.table_name_invariant db.(MySQLDatabase.tables).
Proof.
  intros first data db Hbuild. unfold Renderers.build in Hbuild.
  destruct (Js.member first "TABLE_SCHEMA") as [schema|e]; [|discriminate].
  simpl in Hbuild.
  apply (fold_add_row_keeps_invariant data _ db) in Hbuild; [exact Hbuild|].
  constructor.
Qed.

Lemma built_tables_own_their_columns_witness :
  Renderers.build (JObject Examples.users_id) Examples.shop_rows
  = Ok Examples.shop_database
  /\ Spec.table_name_invariant Examples.shop_database.(MySQLDatabase.tables).
Proof.
  split; [vm_compute; reflexivity|].
  apply (built_tables_own_their_columns (JObject Examples.users_id)
           Examples.shop_rows).
  vm_compute; reflexivity.
Defined.

(** C6, as stated, fails: the constructor stores the column of a row of
    another table, and so does [addColumn]; neither looks at the column's
    table name. *)
Lemma foreign_column_is_accepted :
  MySQLTable.constructor (JString "users") [JObject Examples.orders_id]
  = Ok Examples.users_with_orders_column
  /\ MySQLTable.addColumn (Spec.column_of (JObject Examples.orders_id))
       (MySQLTable.mk (JString "users") JsMap.empty)
     = Examples.users_with_orders_column
  /\ ~ Spec.columns_belong Examples.users_with_orders_column.
Proof.
  split; [vm_compute; reflexivity|].
  split; [vm_compute; reflexivity|].
  intros H. unfold Spec.columns_belong in H.
  inversion H as [|? ? Hhead _]. vm_compute in Hhead. discriminate Hhead.
Qed.

(** ** Default values in the generated statement *)

Section StringFacts.

Lemma append_assoc (a b c : string) : (a ++ b) ++ c = a ++ (b ++ c).
Proof. induction a as [|x a IH]; simpl; [reflexivity | now rewrite IH]. Qed.

Lemma append_nil_r (a : string) : a ++ "" = a.
Proof. induction a as [|x a IH]; simpl; [reflexivity | now rewrite IH]. Qed.


Lemma join_In (sep x : string) (parts : list string) :
  In x parts -> exists before after, Str.join sep parts = before ++ x ++ after.
Proof.
  induction parts as [|p parts IH]; [contradiction|].
  intros [->|Hin].
  - destruct parts as [|q parts].
    + exists "", "". simpl. now rewrite append_nil_r.
    + exists "", (sep ++ Str.join sep (q :: parts)). reflexivity.
  - destruct (IH Hin) as (before & after & Hjoin).
    destruct parts as [|q parts]; [contradiction|].
    exists (p ++ sep ++ before), after.
    change (Str.join sep (p :: q :: parts))
      with (p ++ sep ++ Str.join sep (q :: parts)).
    now rewrite Hjoin, !append_assoc.
Qed.

End StringFacts.

Section DefaultValues.
Import MySQLTable.

(** two texts that differ by the bracketing of their concatenations *)
Ltac same_text :=
  rewrite ?append_assoc; simpl; rewrite ?append_assoc, ?append_nil_r; reflexivity.

(** the two replacements of [#escapeString] double every quote and every
    backslash, as one pass would *)
Lemma escapeString_sql_escape (s : string) :
  escapeString (JString s) = Ok (Spec.sql_escape s).
Proof.
  unfold escapeString, Str.backslash. f_equal.
  induction s as [|c s IH]; [reflexivity|].
  simpl in IH |- *.
  destruct (Ascii.eqb c "'") eqn:Equote.
  - apply Ascii.eqb_eq in Equote. subst c. simpl. now rewrite IH.
  - simpl. destruct (Ascii.eqb c "092") eqn:Eback; simpl; now rewrite IH.
Qed.

Lemma formatDefaultValue_string (column : MySQLTableColumn.t) (d dt : string) :
  column.(MySQLTableColumn.columnDefault) = JString d ->
  column.(MySQLTableColumn.dataType) = JString dt ->
  formatDefaultValue column = Ok (JString (Spec.formatted_default dt d)).
Proof.
  intros Hd Hdt. unfold formatDefaultValue, Spec.formatted_default.
  rewrite Hd, Hdt. simpl Js.strict_equals. cbv iota. simpl Js.toLowerCase.
  unfold Res.bind at 1.
  destruct (Str.mem (Str.toLowerCase dt) ["char"; "varchar"; "text"; "enum"; "set"]).
  - now rewrite escapeString_sql_escape.
  - destruct (Str.mem (Str.toLowerCase dt) ["timestamp"; "datetime"]);
      unfold Res.bind; simpl Js.toUpperCase; simpl Js.ToString; cbv iota.
    + destruct (Str.toUpperCase d =? "CURRENT_TIMESTAMP"); [reflexivity|].
      simpl andb. cbv iota.
      now destruct (Str.mem (Str.toLowerCase dt) ["blob"; "binary"]).
    + simpl andb. cbv iota.
      now destruct (Str.mem (Str.toLowerCase dt) ["blob"; "binary"]).
Qed.

Lemma columnDefinition_default (column : MySQLTableColumn.t) (d dt line : string) :
  column.(MySQLTableColumn.columnDefault) = JString d ->
  column.(MySQLTableColumn.dataType) = JString dt ->
  columnDefinition column = Ok line ->
  exists rest,
    line = Spec.line_head column ++ " DEFAULT " ++ Spec.formatted_default dt d ++ rest.
Proof.
  intros Hd Hdt. unfold columnDefinition, Spec.line_head.
  rewrite (formatDefaultValue_string column d dt Hd Hdt).
  rewrite Hd. simpl Js.strict_equals. simpl negb at 2. cbv iota.
  unfold Res.bind.
  destruct (MySQLTableColumn.isAutoIncrement column) as [ai|]; [|discriminate].
  destruct (MySQLTableColumn.allowsNull column); simpl negb; cbv iota;
    destruct (Js.ToBoolean column.(MySQLTableColumn.columnComment));
    try (destruct (escapeString column.(MySQLTableColumn.columnComment)) as [esc|];
         [|discriminate]);
    destruct ai; intros [= <-]; simpl Js.ToString;
    first [ exists (" AUTO_INCREMENT" ++ " COMMENT '" ++ esc ++ "'"); same_text
          | exists (" COMMENT '" ++ esc ++ "'"); same_text
          | exists " AUTO_INCREMENT"; same_text
          | exists ""; same_text ].
Qed.

Lemma collect_definitions columns :
  forall acc acc',
    Res.fold collect columns acc = Ok acc' ->
    exists lines,
      Res.mapM columnDefinition columns = Ok lines
      /\ acc'.(columnDefinitions) = (acc.(columnDefinitions) ++ lines)%list.
Proof.
  induction columns as [|column columns IH]; simpl; intros acc acc' Hfold.
  - injection Hfold as <-. exists []. now rewrite List.app_nil_r.
  - unfold collect at 1 in Hfold.
    destruct (columnDefinition column) as [line|]; [|discriminate].
    simpl in Hfold.
    assert (Hstep : exists acc1,
               Res.fold collect columns acc1 = Ok acc'
               /\ acc1.(columnDefinitions) = (acc.(columnDefinitions) ++ [line])%list).
    { destruct (MySQLTableColumn.isPrimaryKey column); [eauto|].
      destruct (Js.is_string _ "UNI"); [eauto|].
      destruct (Js.is_string _ "MUL"); eauto. }
    destruct Hstep as (acc1 & Hrest & Hdefs).
    destruct (IH acc1 acc' Hrest) as (lines & Hlines & Heq).
    exists (line :: lines). rewrite Hlines. split; [reflexivity|].
    now rewrite Heq, Hdefs, <- List.app_assoc.
Qed.

Lemma mapM_In {A B} (f : A -> Result B) (l : list A) (bs : list B) (a : A) :
  Res.mapM f l = Ok bs -> In a l -> exists b, f a = Ok b /\ In b bs.
Proof.
  revert bs. induction l as [|x l IH]; simpl; intros bs Hmap Hin; [contradiction|].
  destruct (f x) as [b|] eqn:Ex; [|discriminate]. simpl in Hmap.
  destruct (Res.mapM f l) as [bs'|]; [|discriminate]. simpl in Hmap.
  injection Hmap as <-. destruct Hin as [->|Hin].
  - exists b. simpl. auto.
  - destruct (IH bs' eq_refl Hin) as (b' & Hb' & Hin'). exists b'. simpl. auto.
Qed.

(** text appended to a statement stays after its lines *)
Lemma tail_grows (query head lines added : string) :
  (exists tail, query = head ++ lines ++ tail) ->
  exists tail, query ++ added = head ++ lines ++ tail.
Proof.
  intros [tail ->]. exists (tail ++ added). now rewrite !append_assoc.
Qed.

(** the statement is a head, the joined lines, a tail *)
Lemma generateCreateTableQuery_lines options table query :
  generateCreateTableQuery options table = Ok query ->
  exists lines others tail,
    Res.mapM columnDefinition (getColumns table) = Ok lines
    /\ query = ("CREATE TABLE `" ++ Js.ToString table.(tableName) ++ "` ("
                ++ Str.nl ++ "  ")
               ++ Str.join ("," ++ Str.nl ++ "  ") (lines ++ others) ++ tail.
Proof.
  unfold generateCreateTableQuery.
  destruct (getColumns table) as [|first columns] eqn:Hcols; [discriminate|].
  destruct (Res.fold collect (first :: columns) (mkCollected [] [] [] []))
    as [acc|] eqn:Hfold; [|discriminate].
  destruct (collect_definitions _ _ _ Hfold) as (lines & Hlines & Hdefs).
  simpl in Hdefs. unfold Res.bind at 1.
  set (others := map uniqueKeyClause acc.(uniqueKeys)).
  set (defs := match acc.(primaryKeys) with
               | [] => acc.(columnDefinitions)
               | _ :: _ => _
               end).
  assert (Hshape : exists extra, (defs ++ others)%list = (lines ++ extra)%list).
  { unfold defs. rewrite Hdefs. destruct acc.(primaryKeys).
    - now exists others.
    - eexists. rewrite <- List.app_assoc. reflexivity. }
  destruct Hshape as [extra Hshape]. rewrite Hshape.
  set (head := "CREATE TABLE `" ++ Js.ToString table.(tableName) ++ "` ("
               ++ Str.nl ++ "  ").
  set (joined := Str.join ("," ++ Str.nl ++ "  ") (lines ++ extra)).
  set (query0 := "CREATE TABLE `" ++ Js.ToString table.(tableName) ++ "` ("
                 ++ Str.nl ++ "  " ++ joined ++ Str.nl ++ ")").
  assert (H0 : exists tail, query0 = head ++ joined ++ tail).
  { exists (Str.nl ++ ")"). unfold query0, head. now rewrite !append_assoc. }
  assert (Ehead : head = "CREATE TABLE `" ++ Js.ToString table.(tableName) ++ "` ("
                         ++ Str.nl ++ "  ") by reflexivity.
  assert (Ejoined : joined = Str.join ("," ++ Str.nl ++ "  ") (lines ++ extra))
    by reflexivity.
  clearbody query0 head joined.
  set (query1 := if Js.ToBoolean options.(engine) then _ else query0).
  assert (H1 : exists tail, query1 = head ++ joined ++ tail).
  { unfold query1. destruct (Js.ToBoolean options.(engine)); [|exact H0].
    now apply tail_grows. }
  clearbody query1.
  set (query2 := query1 ++ _).
  assert (H2 : exists tail, query2 = head ++ joined ++ tail)
    by (now apply tail_grows).
  clearbody query2.
  intros Hquery. exists lines, extra.
  assert (H3 : exists tail, query = head ++ joined ++ tail).
  { unfold Res.bind in Hquery.
    destruct (Js.ToBoolean options.(comment)).
    - destruct (escapeString options.(comment)) as [esc|]; [|discriminate].
      injection Hquery as <-. now apply tail_grows, tail_grows.
    - injection Hquery as <-. now apply tail_grows. }
  destruct H3 as [tail H3]. exists tail. subst head joined.
  split; [exact Hlines | exact H3].
Qed.

End DefaultValues.

Example formatted_default_examples :
  Spec.formatted_default "varchar" "0" = "'0'"
  /\ Spec.formatted_default "timestamp" "current_timestamp" = "CURRENT_TIMESTAMP"
  /\ Spec.formatted_default "DATETIME" "CURRENT_TIMESTAMP" = "CURRENT_TIMESTAMP"
  /\ Spec.formatted_default "datetime" "2000-01-01 00:00:00" = "2000-01-01 00:00:00"
  /\ Spec.formatted_default "blob" "00ff" = "x'00ff'"
  /\ Spec.formatted_default "int" "7" = "7"
  /\ Spec.formatted_default "enum" "it's" = "'it''s'".
Proof. repeat split. Qed.

(** C4.  In a generated statement the line of a column that has a default
    is its head (name, column type, NOT NULL), then DEFAULT and the default
    formatted by the lower-cased data type: quoted and escaped for char,
    varchar, text, enum, set; the keyword CURRENT_TIMESTAMP for a timestamp
    or datetime whose default is that keyword in any letter case; x'...' for
    blob and binary; the raw text otherwise. *)
Theorem default_follows_data_type :
  forall (options : MySQLTable.Options) (table : MySQLTable.t) (query : string)
         (column : MySQLTableColumn.t) (d dt : string),
    MySQLTable.generateCreateTableQuery options table = Ok query ->
    In column (MySQLTable.getColumns table) ->
    column.(MySQLTableColumn.columnDefault) = JString d ->
    column.(MySQLTableColumn.dataType) = JString dt ->
    MySQLTable.formatDefaultValue column = Ok (JString (Spec.formatted_default dt d))
    /\ exists line rest before after,
         MySQLTable.columnDefinition column = Ok line
         /\ line = Spec.line_head column ++ " DEFAULT "
                   ++ Spec.formatted_default dt d ++ rest
         /\ query = before ++ line ++ after.
Proof.
  intros options table query column d dt Hquery Hin Hd Hdt.
  split; [now apply formatDefaultValue_string|].
  destruct (generateCreateTableQuery_lines options table query Hquery)
    as (lines & others & tail & Hlines & Hshape).
  destruct (mapM_In _ _ _ column Hlines Hin) as (line & Hline & Hinline).
  destruct (columnDefinition_default column d dt line Hd Hdt Hline) as [rest Hrest].
  destruct (join_In ("," ++ Str.nl ++ "  ") line (lines ++ others)
              ltac:(apply in_or_app; now left)) as (b & a & Hjoin).
  rewrite Hjoin in Hshape.
  remember ("CREATE TABLE `" ++ Js.ToString table.(MySQLTable.tableName) ++ "` ("
            ++ Str.nl ++ "  ") as head eqn:Ehead.
  exists line, rest, (head ++ b), (a ++ tail).
  split; [exact Hline|]. split; [exact Hrest|].
  rewrite Hshape. clear. now rewrite !append_assoc.
Qed.

Lemma default_follows_data_type_witness :
  let column := Spec.column_of (JObject Examples.users_name) in
  MySQLTable.formatDefaultValue column
  = Ok (JString (Spec.formatted_default "varchar" "0"))
  /\ exists line rest before after,
       MySQLTable.columnDefinition column = Ok line
       /\ line = Spec.line_head column ++ " DEFAULT "
                 ++ Spec.formatted_default "varchar" "0" ++ rest
       /\ Examples.users_statement = before ++ line ++ after.
Proof.
  apply (default_follows_data_type MySQLTable.no_options Examples.users_table
           Examples.users_statement
           (Spec.column_of (JObject Examples.users_name)) "0" "varchar").
  - vm_compute; reflexivity.
  - right; left; vm_compute; reflexivity.
  - reflexivity.
  - reflexivity.
Defined.

(** ** JSON texts *)

Section JsonText.
Import JSON.






(** *** Strings *)



(** *** Numbers *)

Lemma digit_is_not_minus (c : ascii) : is_digit c = true -> Ascii.eqb c "-" = false.
Proof.
  destruct c as [[] [] [] [] [] [] [] []]; vm_compute; congruence.
Qed.








(** *** Arrays *)






(** *** Objects *)








(** *** Values *)














End JsonText.

(** ** The "render raw" action *)

Section RenderRaw.
Import Frontend.

Lemma indexOf_found_string (table_names : list string) (name : string) :
  indexOf_found table_names (JString name) = Str.mem name table_names.
Proof.
  unfold indexOf_found, Str.mem.
  induction table_names as [|n names IH]; [reflexivity|].
  simpl in IH |- *. now rewrite IH, String.eqb_sym.
Qed.

Lemma indexOf_found_other (table_names : list string) (v : JsValue) :
  (forall name, v <> JString name) -> indexOf_found table_names v = false.
Proof.
  intros Hv. unfold indexOf_found.
  induction table_names as [|n names IH]; [reflexivity|].
  simpl in IH |- *. rewrite IH, orb_false_r.
  destruct v; try reflexivity. now destruct (Hv s).
Qed.

Lemma select_row_selected (table_names : list string) result_schema props :
  select_row table_names result_schema (JObject props)
  = Ok (if Spec.selected table_names (JObject props)
        then (result_schema ++ [JObject props])%list
        else result_schema).
Proof.
  unfold select_row, Spec.selected.
  change (Js.member (JObject props) "TABLE_NAME")
    with (Ok (Js.get (JObject props) "TABLE_NAME")).
  generalize (Js.get (JObject props) "TABLE_NAME"). intros v. unfold Res.bind.
  destruct v as [| |b|n|name|items|ps];
    simpl Js.ToBoolean;
    try (rewrite indexOf_found_other by discriminate);
    try rewrite indexOf_found_string;
    try reflexivity.
  - now destruct b.
  - now destruct (n =? 0)%Z.
  - destruct (name =? ""); simpl; [reflexivity|].
    now destruct (Str.mem name table_names).
Qed.

Lemma select_rows (table_names : list string) (table_schema : list JsValue) :
  Forall (fun row => Spec.is_object row = true) table_schema ->
  forall result_schema,
    Res.fold (select_row table_names) table_schema result_schema
    = Ok (result_schema ++ filter (Spec.selected table_names) table_schema)%list.
Proof.
  induction 1 as [|row rows Hrow _ IH]; intros result_schema; simpl.
  - now rewrite List.app_nil_r.
  - destruct row; try discriminate Hrow.
    rewrite select_row_selected. simpl Res.bind. rewrite IH.
    destruct (Spec.selected table_names (JObject props));
      [now rewrite <- List.app_assoc | reflexivity].
Qed.

End RenderRaw.




(** * Further properties of the code *)

(** ** Texts inside texts *)

Section Substrings.

Lemma prefix_iff (p s : string) :
  String.prefix p s = true <-> exists b, s = p ++ b.
Proof.
  revert p. induction s as [|c s IH]; intros [|a p]; simpl.
  - split; [now exists "" | trivial].
  - split; [discriminate | intros [b H]; discriminate H].
  - split; [intros _; now exists (String c s) | trivial].
  - destruct (ascii_dec a c) as [->|Hne].
    + rewrite IH. split; intros [b H]; exists b; [now subst | now injection H].
    + split; [discriminate | intros [b H]; injection H; congruence].
Qed.

Lemma includes_cons (p : string) (c : ascii) (s : string) :
  Str.includes p (String c s) = String.prefix p (String c s) || Str.includes p s.
Proof. reflexivity. Qed.

Lemma includes_nil (p : string) :
  Str.includes p "" = String.prefix p "" || false.
Proof. reflexivity. Qed.

Lemma includes_iff (p s : string) :
  Str.includes p s = true <-> exists a b, s = a ++ p ++ b.
Proof.
  induction s as [|c s IH];
    [rewrite includes_nil | rewrite includes_cons];
    rewrite orb_true_iff, prefix_iff.
  - split.
    + intros [[b H]|H]; [|discriminate]. now exists "", b.
    + intros ([|x a] & b & H); [left; now exists b | discriminate H].
  - rewrite IH. split.
    + intros [[b H]|(a & b & H)]; [now exists "", b|].
      exists (String c a), b. simpl. now rewrite H.
    + intros ([|x a] & b & H); [left; now exists b|].
      right. exists a, b. now injection H.
Qed.

Lemma includes_trans (q p s : string) :
  Str.includes q p = true -> Str.includes p s = true -> Str.includes q s = true.
Proof.
  rewrite !includes_iff. intros (a & b & ->) (a' & b' & ->).
  exists (a' ++ a), (b ++ b'). now rewrite !append_assoc.
Qed.

(** a text without [base] has no text that contains [base] *)
Lemma includes_none (base alt s : string) :
  Str.includes base alt = true ->
  Str.includes base s = false -> Str.includes alt s = false.
Proof.
  intros Hbase Hnone. destruct (Str.includes alt s) eqn:E; [|reflexivity].
  now rewrite (includes_trans base alt s Hbase E) in Hnone.
Qed.

(** every alternative that contains an absent text is absent *)
Ltac absent base E :=
  repeat match goal with
         | |- context [Str.includes ?alt ?s] =>
             rewrite (includes_none base alt s eq_refl E)
         end.

Lemma integer_pattern (s : string) :
  Str.test_any ["integer"; "int"; "smallint"; "tinyint"; "mediumint"; "bigint"] s
  = Str.includes "int" s.
Proof.
  unfold Str.test_any. simpl existsb.
  destruct (Str.includes "int" s) eqn:E; [now rewrite orb_true_r|].
  absent "int" E. reflexivity.
Qed.

Lemma string_pattern (s : string) :
  Str.test_any ["char"; "varchar"; "tinytext"; "text"; "mediumtext"; "longtext"] s
  = Str.includes "char" s || Str.includes "text" s.
Proof.
  unfold Str.test_any. simpl existsb.
  destruct (Str.includes "char" s) eqn:Echar; [reflexivity|].
  rewrite (includes_none "char" "varchar" s eq_refl Echar).
  destruct (Str.includes "text" s) eqn:Etext; simpl; [now rewrite orb_true_r|].
  absent "text" Etext. reflexivity.
Qed.

Lemma date_pattern (s : string) :
  Str.test_any ["date"; "time"; "datetime"; "timestamp"] s
  = Str.includes "date" s || Str.includes "time" s.
Proof.
  unfold Str.test_any. simpl existsb.
  destruct (Str.includes "date" s) eqn:Edate; [reflexivity|].
  destruct (Str.includes "time" s) eqn:Etime; [reflexivity|].
  rewrite (includes_none "date" "datetime" s eq_refl Edate).
  now rewrite (includes_none "time" "timestamp" s eq_refl Etime).
Qed.

End Substrings.

(** ** The classifier, beyond the claims *)

Section ClassifierFacts.
Variables (column : MySQLTableColumn.t) (dt : string).
Hypothesis Hdt : column.(MySQLTableColumn.dataType) = JString dt.
Let lower := Str.toLowerCase dt.

Lemma hasStringDataType_text :
  SchemaHelpers.hasStringDataType column
  = Ok (Str.includes "char" lower || Str.includes "text" lower).
Proof.
  unfold SchemaHelpers.hasStringDataType. rewrite Hdt.
  change (Js.toLowerCase (JString dt)) with (Ok lower).
  unfold Res.bind. now rewrite string_pattern.
Qed.

Lemma hasDateDataType_text :
  SchemaHelpers.hasDateDataType column
  = Ok (Str.includes "date" lower || Str.includes "time" lower).
Proof.
  unfold SchemaHelpers.hasDateDataType. rewrite Hdt.
  change (Js.toLowerCase (JString dt)) with (Ok lower).
  unfold Res.bind. now rewrite date_pattern.
Qed.

Lemma hasFloatDataType_text :
  SchemaHelpers.hasFloatDataType column
  = Ok (Str.includes "float" lower || Str.includes "double" lower
        || Str.includes "real" lower || Str.includes "decimal" lower).
Proof.
  unfold SchemaHelpers.hasFloatDataType. rewrite Hdt.
  change (Js.toLowerCase (JString dt)) with (Ok lower).
  unfold Res.bind, Str.test_any. simpl existsb.
  now rewrite orb_false_r, !orb_assoc.
Qed.

Lemma hasIntegerDataType_text :
  SchemaHelpers.hasIntegerDataType column
  = if Str.includes "bigint" lower then Throw (Error "bigint not supported")
    else Ok (Str.includes "int" lower).
Proof.
  unfold SchemaHelpers.hasIntegerDataType. rewrite Hdt.
  change (Js.toLowerCase (JString dt)) with (Ok lower).
  unfold Res.bind. rewrite integer_pattern.
  now destruct (Str.includes "bigint" lower).
Qed.

Lemma hasBooleanDataType_text (cn ct : string) :
  column.(MySQLTableColumn.columnName) = JString cn ->
  column.(MySQLTableColumn.columnType) = JString ct ->
  SchemaHelpers.hasBooleanDataType column
  = if (Str.toLowerCase ct =? "tinyint(1)") then Ok true
    else if Str.includes "bigint" lower then Throw (Error "bigint not supported")
    else if Str.includes "int" lower
    then Ok (SchemaHelpers.boolean_name (Str.toLowerCase cn))
    else Ok (lower =? "boolean").
Proof.
  intros Hcn Hct. unfold SchemaHelpers.hasBooleanDataType.
  rewrite hasIntegerDataType_text, Hdt, Hct, Hcn. simpl Js.toLowerCase.
  fold lower. unfold Res.bind at 1 2.
  destruct (Str.toLowerCase ct =? "tinyint(1)"); [reflexivity|].
  destruct (Str.includes "bigint" lower); [reflexivity|]. simpl Res.bind.
  now destruct (Str.includes "int" lower).
Qed.

End ClassifierFacts.

(** the predicates of a column whose three texts are known, rewritten *)
Ltac by_texts Hcn Hdt Hct :=
  unfold SchemaHelpers.detectFieldTypeByColumnType;
  rewrite (hasBooleanDataType_text _ _ Hdt _ _ Hcn Hct),
    (hasIntegerDataType_text _ _ Hdt), (hasStringDataType_text _ _ Hdt),
    (hasFloatDataType_text _ _ Hdt).

(** X1.  The alternatives of the patterns collapse: on a column whose data
    type is a string, the string predicate answers whether the lower-cased
    data type contains [char] or [text], the date predicate whether it
    contains [date] or [time], and the integer predicate, when it does not
    throw, whether it contains [int]. *)
Theorem predicates_test_substrings :
  forall (column : MySQLTableColumn.t) (dt : string),
    column.(MySQLTableColumn.dataType) = JString dt ->
    let lower := Str.toLowerCase dt in
    SchemaHelpers.hasStringDataType column
    = Ok (Str.includes "char" lower || Str.includes "text" lower)
    /\ SchemaHelpers.hasDateDataType column
       = Ok (Str.includes "date" lower || Str.includes "time" lower)
    /\ (Str.includes "bigint" lower = false ->
        SchemaHelpers.hasIntegerDataType column = Ok (Str.includes "int" lower)).
Proof.
  intros column dt Hdt lower. split; [|split].
  - exact (hasStringDataType_text column dt Hdt).
  - exact (hasDateDataType_text column dt Hdt).
  - intros Hbig. rewrite (hasIntegerDataType_text column dt Hdt).
    fold lower. now rewrite Hbig.
Qed.

Lemma predicates_test_substrings_witness :
  SchemaHelpers.hasStringDataType Examples.point_column = Ok false
  /\ SchemaHelpers.hasDateDataType Examples.point_column = Ok false
  /\ (Str.includes "bigint" "point" = false ->
      SchemaHelpers.hasIntegerDataType Examples.point_column = Ok true).
Proof.
  apply (predicates_test_substrings Examples.point_column "POINT").
  reflexivity.
Defined.

(** X2.  The classifier is a decision table: on a column whose name, data
    type and column type are strings it answers, and throws, as
    [Notions.classify] does on their lower-cased texts: [tinyint(1)] first,
    then the rejection of [bigint], then the integers with the name
    heuristic, [boolean], the character types, the floating types, and
    [string] for every other type. *)
Theorem classifier_decision_table :
  forall (column : MySQLTableColumn.t) (cn dt ct : string),
    column.(MySQLTableColumn.columnName) = JString cn ->
    column.(MySQLTableColumn.dataType) = JString dt ->
    column.(MySQLTableColumn.columnType) = JString ct ->
    SchemaHelpers.detectFieldTypeByColumnType column
    = Notions.classify (Str.toLowerCase cn) (Str.toLowerCase dt)
                       (Str.toLowerCase ct).
Proof.
  intros column cn dt ct Hcn Hdt Hct. by_texts Hcn Hdt Hct.
  unfold Notions.classify.
  destruct (Str.toLowerCase ct =? "tinyint(1)"); [reflexivity|].
  destruct (Str.includes "bigint" (Str.toLowerCase dt)); [reflexivity|].
  destruct (Str.includes "int" (Str.toLowerCase dt)).
  - now destruct (SchemaHelpers.boolean_name (Str.toLowerCase cn)).
  - destruct (Str.toLowerCase dt =? "boolean"); [reflexivity|]. simpl Res.bind.
    destruct (Str.includes "char" (Str.toLowerCase dt)
              || Str.includes "text" (Str.toLowerCase dt)); [reflexivity|].
    simpl Res.bind.
    now destruct (Str.includes "float" (Str.toLowerCase dt)
                  || Str.includes "double" (Str.toLowerCase dt)
                  || Str.includes "real" (Str.toLowerCase dt)
                  || Str.includes "decimal" (Str.toLowerCase dt)).
Qed.

Lemma classifier_decision_table_witness :
  SchemaHelpers.detectFieldTypeByColumnType Examples.point_column
  = Notions.classify "location" "point" "point".
Proof.
  apply (classifier_decision_table Examples.point_column
           "location" "POINT" "point"); reflexivity.
Defined.

(** X3.  The classifier fails on [bigint] only: on a column whose name,
    data type and column type are strings, and whose column type is
    [tinyint(1)] or whose data type does not contain [bigint], it returns
    one of the four kinds. *)
Theorem classifier_returns_a_kind :
  forall (column : MySQLTableColumn.t) (cn dt ct : string),
    column.(MySQLTableColumn.columnName) = JString cn ->
    column.(MySQLTableColumn.dataType) = JString dt ->
    column.(MySQLTableColumn.columnType) = JString ct ->
    (Str.toLowerCase ct =? "tinyint(1)") = true
    \/ Str.includes "bigint" (Str.toLowerCase dt) = false ->
    exists kind,
      SchemaHelpers.detectFieldTypeByColumnType column = Ok kind
      /\ In kind ["bit"; "integer"; "string"; "float"].
Proof.
  intros column cn dt ct Hcn Hdt Hct Hok. by_texts Hcn Hdt Hct.
  destruct (Str.toLowerCase ct =? "tinyint(1)");
    [exists "bit"; simpl; auto|].
  destruct Hok as [Hok|Hok]; [discriminate|]. rewrite Hok.
  repeat match goal with
         | |- context [if ?b then _ else _] => destruct b
         | |- context [Res.bind (Ok ?b) _] => destruct b; simpl Res.bind
         end;
    eexists; (split; [reflexivity | simpl; auto]).
Qed.

Lemma classifier_returns_a_kind_witness :
  exists kind,
    SchemaHelpers.detectFieldTypeByColumnType Samples.created_at_column = Ok kind
    /\ In kind ["bit"; "integer"; "string"; "float"].
Proof.
  apply (classifier_returns_a_kind Samples.created_at_column
           "created_at" "datetime" "datetime"); try reflexivity.
  right. reflexivity.
Defined.

(** X4.  The typed-record renderer and the classifier part ways on the
    types the classifier sends to its [string] default: a column whose
    lower-cased data type is none of the integer, boolean, character and
    floating types, and whose column type is not [tinyint(1)], is a
    [string] for the classifier, and is declared [number] and read with
    [Number] by the renderer. *)
Theorem default_string_is_rendered_as_number :
  forall (column : MySQLTableColumn.t) (cn dt ct : string),
    column.(MySQLTableColumn.columnName) = JString cn ->
    column.(MySQLTableColumn.dataType) = JString dt ->
    column.(MySQLTableColumn.columnType) = JString ct ->
    Notions.other_type (Str.toLowerCase dt) (Str.toLowerCase ct) = true ->
    SchemaHelpers.detectFieldTypeByColumnType column = Ok "string"
    /\ Renderers.field_declaration_lines column
       = Ok ["    /** @type {number} */"; "    " ++ cn ++ ";"]
    /\ Renderers.field_coercion_line column
       = Ok ("        this." ++ cn ++ " = Number(data." ++ cn ++ ");").
Proof.
  intros column cn dt ct Hcn Hdt Hct Hother.
  unfold Notions.other_type in Hother.
  repeat (apply andb_true_iff in Hother as [Hother ?]).
  repeat match goal with
         | H : negb _ = true |- _ => apply negb_true_iff in H
         end.
  assert (Str.includes "bigint" (Str.toLowerCase dt) = false) as Hbig
      by (now apply (includes_none "int")).
  split; [|split].
  - by_texts Hcn Hdt Hct.
    repeat match goal with
           | H : _ = false |- _ => rewrite H; clear H
           end.
    reflexivity.
  - unfold Renderers.field_declaration_lines.
    rewrite (hasStringDataType_text _ _ Hdt), Hcn.
    repeat match goal with
           | H : _ = false |- _ => rewrite ?H; clear H
           end.
    reflexivity.
  - unfold Renderers.field_coercion_line.
    rewrite (hasStringDataType_text _ _ Hdt), Hcn.
    repeat match goal with
           | H : _ = false |- _ => rewrite ?H; clear H
           end.
    reflexivity.
Qed.

Lemma default_string_is_rendered_as_number_witness :
  SchemaHelpers.detectFieldTypeByColumnType Samples.created_at_column = Ok "string"
  /\ Renderers.field_declaration_lines Samples.created_at_column
     = Ok ["    /** @type {number} */"; "    " ++ "created_at" ++ ";"]
  /\ Renderers.field_coercion_line Samples.created_at_column
     = Ok ("        this." ++ "created_at" ++ " = Number(data." ++ "created_at" ++ ");").
Proof.
  apply (default_string_is_rendered_as_number Samples.created_at_column
           "created_at" "datetime" "datetime"); reflexivity.
Defined.

(** ** Escaped texts *)

Section Html.

Lemma replace_all_app (c : ascii) (by_ x y : string) :
  Str.replace_all c by_ (x ++ y)
  = Str.replace_all c by_ x ++ Str.replace_all c by_ y.
Proof.
  induction x as [|a x IH]; [reflexivity|].
  simpl. rewrite IH. destruct (Ascii.eqb a c); [|reflexivity].
  now rewrite append_assoc.
Qed.

Lemma escaped_app (x y : string) :
  Notions.escaped (x ++ y) = Notions.escaped x ++ Notions.escaped y.
Proof. unfold Notions.escaped. now rewrite !replace_all_app. Qed.

Lemma escaped_char (a : ascii) :
  Notions.escaped (String a "") = Notions.html_entity a.
Proof.
  destruct a as [[] [] [] [] [] [] [] []]; reflexivity.
Qed.

Lemma escaped_html_escape (s : string) :
  Notions.escaped s = Notions.html_escape s.
Proof.
  induction s as [|a s IH]; [reflexivity|].
  change (String a s) with (String a "" ++ s).
  rewrite escaped_app, escaped_char, IH. reflexivity.
Qed.

Lemma count_char_app (c : ascii) (x y : string) :
  Notions.count_char c (x ++ y)
  = Notions.count_char c x + Notions.count_char c y.
Proof.
  induction x as [|a x IH]; [reflexivity|].
  simpl. rewrite IH. lia.
Qed.

Lemma entity_has_no_markup (a c : ascii) :
  In c Notions.markup -> Notions.count_char c (Notions.html_entity a) = 0.
Proof.
  intros Hc.
  assert (forallb (fun m => Nat.eqb (Notions.count_char m (Notions.html_entity a)) 0)
                  Notions.markup = true) as Hall
      by (destruct a as [[] [] [] [] [] [] [] []]; reflexivity).
  rewrite forallb_forall in Hall. now apply Nat.eqb_eq, Hall.
Qed.

Lemma html_escape_has_no_markup (s : string) (c : ascii) :
  In c Notions.markup -> Notions.count_char c (Notions.html_escape s) = 0.
Proof.
  intros Hc. induction s as [|a s IH]; [reflexivity|].
  simpl. now rewrite count_char_app, IH, entity_has_no_markup.
Qed.

Lemma append_cancel (p x y : string) : p ++ x = p ++ y -> x = y.
Proof.
  induction p as [|a p IH]; simpl; [easy|].
  intros H. injection H as H. now apply IH.
Qed.

Lemma entity_head (a b : ascii) (x y : string) :
  Notions.html_entity a ++ x = Notions.html_entity b ++ y -> a = b.
Proof.
  unfold Notions.html_entity.
  repeat match goal with
         | |- context [Ascii.eqb ?u ?v] =>
             let E := fresh "E" in
             destruct (Ascii.eqb u v) eqn:E;
             [apply Ascii.eqb_eq in E; subst u|]
         end;
    simpl; intros H; try discriminate H; try reflexivity;
    injection H as H; subst;
    try reflexivity;
    repeat match goal with
           | E : Ascii.eqb ?u ?u = false |- _ => rewrite Ascii.eqb_refl in E
           end;
    try discriminate.
Qed.

Lemma html_escape_injective (s1 s2 : string) :
  Notions.html_escape s1 = Notions.html_escape s2 -> s1 = s2.
Proof.
  revert s2. induction s1 as [|a s1 IH]; intros [|b s2]; simpl; intros H.
  - reflexivity.
  - exfalso. unfold Notions.html_entity in H.
    repeat match type of H with
           | context [Ascii.eqb ?u ?v] => destruct (Ascii.eqb u v)
           end; discriminate H.
  - exfalso. unfold Notions.html_entity in H.
    repeat match type of H with
           | context [Ascii.eqb ?u ?v] => destruct (Ascii.eqb u v)
           end; discriminate H.
  - pose proof (entity_head _ _ _ _ H) as ->.
    apply append_cancel in H. now rewrite (IH _ H).
Qed.

End Html.

(** X5.  [escapeHtml] on a text is one pass over its characters: each of
    [&], [<], [>], the double quote and the apostrophe becomes its entity
    and every other character stays; the five successive replacements never
    escape an entity a second time.  The result holds none of [<], [>], the
    double quote and the apostrophe. *)
Theorem escapeHtml_is_one_pass :
  forall s : string,
    DomHelper.escapeHtml (JString s) = Ok (Notions.html_escape s)
    /\ forall c, In c Notions.markup ->
                 Notions.count_char c (Notions.html_escape s) = 0.
Proof.
  intros s. split.
  - change (DomHelper.escapeHtml (JString s)) with (Ok (Notions.escaped s)).
    now rewrite escaped_html_escape.
  - intros c. apply html_escape_has_no_markup.
Qed.

(** X6.  [escapeHtml] loses nothing: two texts with the same escaped text
    are the same text, so the escaped name of a table or of a database
    still tells which one it is. *)
Theorem escapeHtml_is_injective :
  forall (s1 s2 : string) (text : string),
    DomHelper.escapeHtml (JString s1) = Ok text ->
    DomHelper.escapeHtml (JString s2) = Ok text ->
    s1 = s2.
Proof.
  intros s1 s2 text H1 H2.
  change (DomHelper.escapeHtml (JString s1)) with (Ok (Notions.escaped s1)) in H1.
  change (DomHelper.escapeHtml (JString s2)) with (Ok (Notions.escaped s2)) in H2.
  rewrite escaped_html_escape in H1, H2.
  apply html_escape_injective. congruence.
Qed.

Lemma escapeHtml_is_injective_witness :
  DomHelper.escapeHtml (JString "a<b") = Ok "a&lt;b" /\ "a<b" = "a<b".
Proof.
  split; [reflexivity|].
  apply (escapeHtml_is_injective "a<b" "a<b" "a&lt;b"); reflexivity.
Defined.

(** ** The list of table names *)

Section TableNames.
Import FrontendLists.

Lemma has_string (n : string) (names : list string) :
  JsSet.has (JString n) (map JString names) = Str.mem n names.
Proof.
  unfold JsSet.has, Str.mem.
  induction names as [|m names IH]; [reflexivity|].
  simpl in IH |- *. now rewrite IH, String.eqb_sym.
Qed.

Lemma mem_In (n : string) (names : list string) :
  Str.mem n names = true <-> In n names.
Proof.
  unfold Str.mem. rewrite existsb_exists. split.
  - intros (m & Hin & E). apply String.eqb_eq in E. now subst.
  - intros Hin. exists n. split; [easy | apply String.eqb_refl].
Qed.

Lemma NoDup_snoc (n : string) (names : list string) :
  NoDup names -> ~ In n names -> NoDup (names ++ [n]).
Proof.
  intros Hnames Hn. apply NoDup_app; [easy | repeat constructor; easy |].
  intros m Hm [<-|[]]. contradiction.
Qed.

Lemma names_fold (rows : list JsValue) :
  forallb Notions.named_row rows = true ->
  forall seen : list string,
    NoDup seen ->
    exists names,
      Res.fold (fun names row =>
                  (name <- Js.member row "TABLE_NAME" ;;
                   Ok (JsSet.add name names))%res)
               rows (map JString seen)
      = Ok (map JString names)
      /\ NoDup names
      /\ (forall n, In n names <->
                    In n seen
                    \/ exists row, In row rows
                                   /\ Js.get row "TABLE_NAME" = JString n).
Proof.
  induction rows as [|row rows IH]; intros Hrows seen Hseen.
  - exists seen. split; [reflexivity|]. split; [easy|].
    intros n. split; [now left | intros [H|(row & [] & _)]; easy].
  - simpl in Hrows. apply andb_true_iff in Hrows as [Hrow Hrows].
    destruct row as [| | | | | |props]; try discriminate Hrow.
    unfold Notions.named_row in Hrow.
    destruct (Js.get (JObject props) "TABLE_NAME") as [| | | |name| |] eqn:Hname;
      try discriminate Hrow.
    simpl Res.fold.
    change (match Js.lookup "TABLE_NAME" props with
            | Some v => v
            | None => JUndefined
            end) with (Js.get (JObject props) "TABLE_NAME").
    rewrite Hname. unfold JsSet.add.
    rewrite has_string.
    destruct (Str.mem name seen) eqn:Hmem.
    + destruct (IH Hrows seen Hseen) as (names & Hfold & Hnames & Hin).
      exists names. split; [exact Hfold|]. split; [exact Hnames|].
      intros n. rewrite Hin. split.
      * intros [H|(row & Hrow' & Hn)]; [now left|].
        right. exists row. split; [now right | easy].
      * intros [H|(row & [<-|Hrow'] & Hn)]; [now left| |].
        -- left. rewrite Hname in Hn. injection Hn as <-. now apply mem_In.
        -- right. now exists row.
    + assert (~ In name seen) as Hfresh
          by (intros Hin; apply mem_In in Hin; congruence).
      change (map JString seen ++ [JString name])%list
        with (map JString seen ++ map JString [name])%list.
      rewrite <- map_app.
      destruct (IH Hrows (seen ++ [name])%list (NoDup_snoc _ _ Hseen Hfresh))
        as (names & Hfold & Hnames & Hin).
      exists names. split; [exact Hfold|]. split; [exact Hnames|].
      intros n. rewrite Hin, in_app_iff. split.
      * intros [[H|[<-|[]]]|(row & Hrow' & Hn)].
        -- now left.
        -- right. exists (JObject props). split; [now left | easy].
        -- right. exists row. split; [now right | easy].
      * intros [H|(row & [<-|Hrow'] & Hn)].
        -- left. now left.
        -- left. right. rewrite Hname in Hn. injection Hn as <-. now left.
        -- right. now exists row.
Qed.

Lemma named_rows_are_objects (rows : list JsValue) :
  forallb Notions.named_row rows = true ->
  Forall (fun row => Spec.is_object row = true) rows.
Proof.
  rewrite forallb_forall, Forall_forall. intros H row Hrow.
  specialize (H row Hrow). now destruct row.
Qed.

End TableNames.

(** X7.  On rows that are objects with a string for table name,
    [getTablesNamesFromDatabaseSchema] returns every table name of the rows
    and nothing else, each one once. *)
Theorem table_names_are_listed_once :
  forall rows : list JsValue,
    forallb Notions.named_row rows = true ->
    exists names : list string,
      FrontendLists.getTablesNamesFromDatabaseSchema rows = Ok (map JString names)
      /\ NoDup names
      /\ forall n, In n names <->
                   exists row, In row rows
                               /\ Js.get row "TABLE_NAME" = JString n.
Proof.
  intros rows Hrows.
  destruct (names_fold rows Hrows [] (NoDup_nil _)) as (names & Hfold & Hnames & Hin).
  exists names. split; [exact Hfold|]. split; [exact Hnames|].
  intros n. rewrite Hin. split; [now intros [[]|H] | now right].
Qed.

Lemma table_names_are_listed_once_witness :
  exists names : list string,
    FrontendLists.getTablesNamesFromDatabaseSchema Samples.mixed_rows
    = Ok (map JString names)
    /\ NoDup names
    /\ forall n, In n names <->
                 exists row, In row Samples.mixed_rows
                             /\ Js.get row "TABLE_NAME" = JString n.
Proof.
  apply (table_names_are_listed_once Samples.mixed_rows). reflexivity.
Defined.

(** X8.  When every name that [getTablesNamesFromDatabaseSchema] lists is
    checked, the render action writes the rows whose table name is not
    empty, in their order: a row with an empty table name is listed as a
    table but never rendered. *)
Theorem all_checked_renders_named_rows :
  forall (rows : list JsValue) (names : list string),
    forallb Notions.named_row rows = true ->
    FrontendLists.getTablesNamesFromDatabaseSchema rows = Ok (map JString names) ->
    Frontend.render_button_click names rows
    = Ok (JSON.stringify_text
            (JArray (filter Notions.has_table_name rows)) "  ").
Proof.
  intros rows names Hrows Hnames.
  destruct (names_fold rows Hrows [] (NoDup_nil _)) as (names' & Hnames' & _ & Hin).
  unfold FrontendLists.getTablesNamesFromDatabaseSchema in Hnames.
  change (@nil JsValue) with (map JString []) in Hnames.
  rewrite Hnames in Hnames'. injection Hnames' as Hsame.
  assert (names = names') as <-.
  { clear -Hsame. revert names' Hsame.
    induction names as [|n names IH]; intros [|m names']; simpl; intros H;
      try discriminate H; [reflexivity|].
    injection H as -> H. now rewrite (IH _ H). }
  unfold Frontend.render_button_click.
  rewrite (select_rows names rows (named_rows_are_objects rows Hrows) []).
  unfold Res.bind. do 3 f_equal. simpl app.
  apply filter_ext_in. intros row Hrow.
  unfold Spec.selected, Notions.has_table_name.
  rewrite forallb_forall in Hrows. specialize (Hrows row Hrow).
  unfold Notions.named_row in Hrows.
  destruct row as [| | | | | |props]; try discriminate Hrows.
  destruct (Js.get (JObject props) "TABLE_NAME") as [| | | |name| |] eqn:Hname;
    try discriminate Hrows.
  simpl Js.ToBoolean.
  assert (Str.mem name names = true) as ->
      by (apply mem_In, Hin; right; now exists (JObject props)).
  now rewrite andb_true_r.
Qed.

Lemma all_checked_renders_named_rows_witness :
  Frontend.render_button_click ["users"; ""; "orders"] Samples.mixed_rows
  = Ok (JSON.stringify_text
          (JArray (filter Notions.has_table_name Samples.mixed_rows)) "  ")
  /\ length (filter Notions.has_table_name Samples.mixed_rows) = 3.
Proof.
  split; [|reflexivity].
  apply (all_checked_renders_named_rows Samples.mixed_rows ["users"; ""; "orders"]);
    vm_compute; reflexivity.
Defined.

(** ** The markup of the lists *)

Section Markup.
Import FrontendLists.

Lemma count_char_join (c : ascii) (sep : string) (xs ys : list string) :
  Forall2 (fun x y => Notions.count_char c x = Notions.count_char c y) xs ys ->
  Notions.count_char c (Str.join sep xs) = Notions.count_char c (Str.join sep ys).
Proof.
  induction 1 as [|x y xs ys Hxy Hrest IH]; [reflexivity|].
  destruct Hrest as [|x' y' xs ys Hxy' Hrest]; [exact Hxy|].
  change (Str.join sep (x :: x' :: xs)) with (x ++ sep ++ Str.join sep (x' :: xs)).
  change (Str.join sep (y :: y' :: ys)) with (y ++ sep ++ Str.join sep (y' :: ys)).
  rewrite !count_char_app, IH, Hxy. reflexivity.
Qed.

Lemma items_of_texts (item : string -> string) (names : list string) :
  Res.mapM (fun v => text <- DomHelper.escapeHtml v ;; Ok (item text))%res
           (map JString names)
  = Ok (map (fun n => item (Notions.html_escape n)) names).
Proof.
  induction names as [|n names IH]; [reflexivity|].
  simpl map. simpl Res.mapM. rewrite IH. unfold Res.bind.
  now rewrite <- escaped_html_escape.
Qed.

Lemma items_count (item : string -> string) (c : ascii) (names : list string) :
  (forall n, Notions.count_char c (item (Notions.html_escape n))
             = Notions.count_char c (item "")) ->
  Forall2 (fun x y => Notions.count_char c x = Notions.count_char c y)
          (map (fun n => item (Notions.html_escape n)) names)
          (map (fun n => item (Notions.html_escape n)) (map (fun _ => "") names)).
Proof.
  intros Hitem. induction names as [|n names IH]; constructor; [|exact IH].
  rewrite Hitem. symmetry. apply (Hitem "").
Qed.

Lemma table_item_count (c : ascii) (n : string) :
  In c Notions.markup ->
  Notions.count_char c (table_item (Notions.html_escape n))
  = Notions.count_char c (table_item "").
Proof.
  intros Hc. unfold table_item.
  rewrite !count_char_app, !(html_escape_has_no_markup n c Hc). reflexivity.
Qed.

Lemma database_item_count (c : ascii) (n : string) :
  In c Notions.markup ->
  Notions.count_char c (database_item (Notions.html_escape n))
  = Notions.count_char c (database_item "").
Proof.
  intros Hc. unfold database_item.
  rewrite !count_char_app, !(html_escape_has_no_markup n c Hc). reflexivity.
Qed.

End Markup.

(** X9.  The names add no markup to the lists: for a list of texts,
    [createTableList] and [createDataBaseList] return, and their result
    holds each of [<], [>], the double quote and the apostrophe as many
    times as the result for a list of empty names of the same length. *)
Theorem names_add_no_markup :
  forall (names : list string) (c : ascii),
    In c Notions.markup ->
    let blank := map (fun _ => JString "") names in
    (exists html empty,
        FrontendLists.createTableList (map JString names) = Ok html
        /\ FrontendLists.createTableList blank = Ok empty
        /\ Notions.count_char c html = Notions.count_char c empty)
    /\ (exists html empty,
           FrontendLists.createDataBaseList (map JString names) = Ok html
           /\ FrontendLists.createDataBaseList blank = Ok empty
           /\ Notions.count_char c html = Notions.count_char c empty).
Proof.
  intros names c Hc blank.
  assert (blank = map JString (map (fun _ => "") names)) as ->
      by (unfold blank; now rewrite map_map).
  unfold FrontendLists.createTableList, FrontendLists.createDataBaseList.
  rewrite !items_of_texts. unfold Res.bind.
  split; eexists; eexists; (split; [reflexivity|]); (split; [reflexivity|]).
  - apply count_char_join. repeat constructor.
    apply count_char_join, items_count. intros n.
    now apply table_item_count.
  - apply count_char_join. repeat constructor.
    apply count_char_join, items_count. intros n.
    now apply database_item_count.
Qed.

Lemma names_add_no_markup_witness :
  (exists html empty,
      FrontendLists.createTableList (map JString ["a<b"; "it's"]) = Ok html
      /\ FrontendLists.createTableList (map (fun _ => JString "") ["a<b"; "it's"])
         = Ok empty
      /\ Notions.count_char "<" html = Notions.count_char "<" empty)
  /\ (exists html empty,
         FrontendLists.createDataBaseList (map JString ["a<b"; "it's"]) = Ok html
         /\ FrontendLists.createDataBaseList (map (fun _ => JString "") ["a<b"; "it's"])
            = Ok empty
         /\ Notions.count_char "<" html = Notions.count_char "<" empty).
Proof.
  apply (names_add_no_markup ["a<b"; "it's"] "<"). simpl. auto.
Defined.

(** ** Responses *)

(** X10.  A response built by [response_ok] is accepted by [is_response_ok]
    whatever its data; a response built by [response_error] is refused
    exactly when the error is truthy, so an error that is an empty text
    passes for a success; on a falsy response [is_response_ok] returns the
    response itself, not a boolean. *)
Theorem responses_are_told_apart :
  (forall data, Inet.is_response_ok (Inet.response_ok data) = JBool true)
  /\ (forall error,
        Inet.is_response_ok (Inet.response_error error)
        = JBool (negb (Js.ToBoolean error)))
  /\ (forall response,
        Js.ToBoolean response = false ->
        Inet.is_response_ok response = response).
Proof.
  split; [|split].
  - intros data. now destruct data.
  - intros error. reflexivity.
  - intros response H. unfold Inet.is_response_ok. now rewrite H.
Qed.

Lemma responses_are_told_apart_witness :
  Inet.is_response_ok (Inet.response_error (JString "")) = JBool true
  /\ Inet.is_response_ok JNull = JNull.
Proof.
  destruct responses_are_told_apart as (_ & Herror & Hfalsy).
  split; [apply (Herror (JString "")) | apply (Hfalsy JNull); reflexivity].
Defined.

(** ** Credentials *)

Section Credentials.









End Credentials.



(** ** The port of the server *)

Section Ports.
Variable listen : JsValue -> Result unit.

Lemma probed_port_next (i : Z) :
  (Notions.probed_port (i - 1) + i = Notions.probed_port i)%Z.
Proof.
  unfold Notions.probed_port.
  replace (i * (i + 1))%Z with ((i - 1) * (i - 1 + 1) + i * 2)%Z by lia.
  rewrite Z.div_add by lia. lia.
Qed.

Lemma probe_none (count : nat) :
  forall i : Z,
    (forall j, (i <= j < i + Z.of_nat count)%Z ->
               exists e, listen (JNumber (Notions.probed_port j)) = Throw e) ->
    Server.probe listen count i (Notions.probed_port (i - 1)) = None.
Proof.
  induction count as [|count IH]; intros i Hall; [reflexivity|].
  simpl. rewrite probed_port_next.
  destruct (Hall i ltac:(lia)) as (e & ->).
  replace i with (i + 1 - 1)%Z at 2 by lia.
  apply IH. intros j Hj. apply Hall. lia.
Qed.

Lemma probe_some (count : nat) :
  forall i k : Z,
    (i <= k < i + Z.of_nat count)%Z ->
    listen (JNumber (Notions.probed_port k)) = Ok tt ->
    (forall j, (i <= j < k)%Z ->
               exists e, listen (JNumber (Notions.probed_port j)) = Throw e) ->
    Server.probe listen count i (Notions.probed_port (i - 1))
    = Some (Notions.probed_port k).
Proof.
  induction count as [|count IH]; intros i k Hk Hok Hbefore; [lia|].
  simpl. rewrite probed_port_next.
  destruct (Z.eq_dec i k) as [->|Hne].
  - now rewrite Hok.
  - destruct (Hbefore i ltac:(lia)) as (e & ->).
    replace i with (i + 1 - 1)%Z at 2 by lia.
    apply IH; [lia | exact Hok |]. intros j Hj. apply Hbefore. lia.
Qed.

End Ports.

(** X12.  Without a port, [startServer] tries the ports 8080, 8081, 8083,
    8086, ..., [8080 + i (i + 1) / 2] for [i] from 0 to 99 (the step grows by
    one at every failure), and returns the first one on which [listen] does
    not throw; when [listen] throws on all hundred, it throws "Could not
    find an available port to listen on!". *)
Theorem startServer_probes_growing_steps :
  forall (listen : JsValue -> Result unit) (port : JsValue),
    Js.ToBoolean port = false ->
    (forall k : Z,
        (0 <= k < 100)%Z ->
        listen (JNumber (Notions.probed_port k)) = Ok tt ->
        (forall j, (0 <= j < k)%Z ->
                   exists e, listen (JNumber (Notions.probed_port j)) = Throw e) ->
        Server.startServer listen port = Ok (JNumber (Notions.probed_port k)))
    /\ ((forall j, (0 <= j < 100)%Z ->
                   exists e, listen (JNumber (Notions.probed_port j)) = Throw e) ->
        Server.startServer listen port
        = Throw (Error "Could not find an available port to listen on!")).
Proof.
  intros listen port Hport. unfold Server.startServer. rewrite Hport.
  change 8080%Z with (Notions.probed_port (0 - 1)).
  split.
  - intros k Hk Hok Hbefore.
    now rewrite (probe_some listen 100 0 k ltac:(lia) Hok Hbefore).
  - intros Hall.
    now rewrite (probe_none listen 100 0 ltac:(intros j Hj; apply Hall; lia)).
Qed.

Lemma startServer_probes_growing_steps_witness :
  Server.startServer Samples.listen_from_8082 JUndefined = Ok (JNumber 8083)
  /\ Server.startServer (fun _ => Throw TypeError) JUndefined
     = Throw (Error "Could not find an available port to listen on!").
Proof.
  destruct (startServer_probes_growing_steps Samples.listen_from_8082 JUndefined
              eq_refl) as (Hfirst & _).
  destruct (startServer_probes_growing_steps (fun _ => Throw TypeError) JUndefined
              eq_refl) as (_ & Hnone).
  split.
  - apply (Hfirst 2%Z); [lia | reflexivity |].
    intros j Hj. assert (j = 0 \/ j = 1)%Z as [-> | ->] by lia;
      eexists; reflexivity.
  - apply Hnone. intros j _. eexists. reflexivity.
Defined.

Lemma escapeHtml_is_one_pass_witness :
  DomHelper.escapeHtml (JString "a&lt;<b") = Ok "a&amp;lt;&lt;b"
  /\ Notions.count_char "<" (Notions.html_escape "a&lt;<b") = 0.
Proof.
  destruct (escapeHtml_is_one_pass "a&lt;<b") as [Htext Hnone].
  split; [exact Htext | apply Hnone; simpl; auto].
Defined.

(** ** Columns and their JSON objects *)

(** X13.  A column imported from a valid row shows, through [toJSON], the
    twenty-two values of the row under the camel-cased names, in the order
    of the declaration. *)
Theorem imported_column_shows_the_row :
  forall row : JsValue,
    Notions.valid_row row ->
    exists column,
      MySQLTableColumn.new_imported row = Ok column
      /\ MySQLTableColumn.toJSON column = Notions.camel_row row.
Proof.
  intros row Hrow. exists (Spec.column_of row). split.
  - apply new_imported_ok. now split.
  - reflexivity.
Qed.

Lemma imported_column_shows_the_row_witness :
  exists column,
    MySQLTableColumn.new_imported (JObject Examples.users_id) = Ok column
    /\ MySQLTableColumn.toJSON column = Notions.camel_row (JObject Examples.users_id).
Proof.
  apply (imported_column_shows_the_row (JObject Examples.users_id)).
  vm_compute. reflexivity.
Defined.

(** X14.  [toJSON] and the constructor are inverse: a column built from
    the object that [toJSON] returns is a copy of the column, and its own
    [toJSON] is that object again. *)
Theorem column_json_round_trip :
  forall column : MySQLTableColumn.t,
    MySQLTableColumn.constructor (MySQLTableColumn.toJSON column) = column
    /\ MySQLTableColumn.toJSON
         (MySQLTableColumn.constructor (MySQLTableColumn.toJSON column))
       = MySQLTableColumn.toJSON column.
Proof.
  intros column.
  assert (MySQLTableColumn.constructor (MySQLTableColumn.toJSON column) = column)
    as H by (destruct column; reflexivity).
  split; [exact H | now rewrite H].
Qed.

(** ** Lists of rows *)

Section Rows.

Lemma valid_row_object (row : JsValue) :
  Notions.valid_row row ->
  exists props, row = JObject props /\ Spec.all_fields_match props = true.
Proof.
  intros Hrow. destruct (assert_only_objects row true Hrow) as [_ [props ->]].
  exists props. split; [reflexivity | now apply assert_object].
Qed.

Lemma valid_row_imported (row : JsValue) :
  Notions.valid_row row ->
  MySQLTableColumn.new_imported row = Ok (Spec.column_of row).
Proof. intros Hrow. apply new_imported_ok. now split. Qed.

Lemma valid_row_validated (row : JsValue) :
  Notions.valid_row row -> Notions.validated (Spec.column_of row).
Proof.
  intros Hrow. destruct (valid_row_object row Hrow) as (props & -> & Hall).
  now exists props.
Qed.

Lemma invalid_row_rejected (row : JsValue) (e : Exception) :
  Validator.assertColumnMetadataRaw row = Throw e ->
  MySQLTableColumn.new_imported row = Throw e.
Proof.
  intros H. unfold MySQLTableColumn.new_imported.
  now rewrite (import_rejected row MySQLTableColumn.blank e H).
Qed.

Lemma imported_is_valid (row : JsValue) (column : MySQLTableColumn.t) :
  MySQLTableColumn.new_imported row = Ok column -> Notions.valid_row row.
Proof. intros H. now apply new_imported_ok in H. Qed.

(** a field that the validation holds to be a text *)
Lemma validated_text (column : MySQLTableColumn.t)
      (field : MySQLTableColumn.t -> JsValue) (key : string) :
  (forall raw, field (Spec.column_of raw) = Js.get raw key) ->
  In (key, Spec.AString) Spec.declared_shape ->
  Notions.validated column -> exists s, field column = JString s.
Proof.
  intros Hfield Hin (props & Hall & ->). rewrite Hfield.
  exact (matches_string _ (validated_field props key Spec.AString Hall Hin)).
Qed.

Lemma validated_columnName column :
  Notions.validated column ->
  exists s, column.(MySQLTableColumn.columnName) = JString s.
Proof.
  apply (validated_text column MySQLTableColumn.columnName "COLUMN_NAME");
    [reflexivity | simpl; tauto].
Qed.

Lemma validated_tableName column :
  Notions.validated column ->
  exists s, column.(MySQLTableColumn.tableName) = JString s.
Proof.
  apply (validated_text column MySQLTableColumn.tableName "TABLE_NAME");
    [reflexivity | simpl; tauto].
Qed.

Lemma validated_dataType column :
  Notions.validated column ->
  exists s, column.(MySQLTableColumn.dataType) = JString s.
Proof.
  apply (validated_text column MySQLTableColumn.dataType "DATA_TYPE");
    [reflexivity | simpl; tauto].
Qed.

Lemma validated_columnType column :
  Notions.validated column ->
  exists s, column.(MySQLTableColumn.columnType) = JString s.
Proof.
  apply (validated_text column MySQLTableColumn.columnType "COLUMN_TYPE");
    [reflexivity | simpl; tauto].
Qed.

Lemma validated_extra column :
  Notions.validated column ->
  exists s, column.(MySQLTableColumn.extra) = JString s.
Proof.
  apply (validated_text column MySQLTableColumn.extra "EXTRA");
    [reflexivity | simpl; tauto].
Qed.

Lemma validated_columnComment column :
  Notions.validated column ->
  exists s, column.(MySQLTableColumn.columnComment) = JString s.
Proof.
  apply (validated_text column MySQLTableColumn.columnComment "COLUMN_COMMENT");
    [reflexivity | simpl; tauto].
Qed.

Lemma validated_columnDefault column :
  Notions.validated column ->
  column.(MySQLTableColumn.columnDefault) = JNull
  \/ exists s, column.(MySQLTableColumn.columnDefault) = JString s.
Proof.
  intros (props & Hall & ->).
  pose proof (validated_field props "COLUMN_DEFAULT" Spec.NullableString Hall
                ltac:(simpl; tauto)) as H.
  change (MySQLTableColumn.columnDefault (Spec.column_of (JObject props)))
    with (Js.get (JObject props) "COLUMN_DEFAULT").
  destruct (Js.get (JObject props) "COLUMN_DEFAULT"); try discriminate H; eauto.
Qed.

Lemma mapM_total {A B} (f : A -> Result B) (l : list A) :
  Forall (fun a => exists b, f a = Ok b) l -> exists bs, Res.mapM f l = Ok bs.
Proof.
  induction 1 as [|a l [b Hb] _ [bs Hbs]]; [now exists []|].
  exists (b :: bs). simpl. now rewrite Hb, Hbs.
Qed.

Lemma table_step_valid this raw :
  Notions.valid_row raw ->
  Notions.table_step this raw = Ok (MySQLTable.addColumn (Spec.column_of raw) this).
Proof.
  intros Hraw. unfold Notions.table_step. rewrite (valid_row_imported raw Hraw).
  destruct (valid_row_object raw Hraw) as (props & -> & _). reflexivity.
Qed.

Lemma table_step_invalid this raw e :
  Validator.assertColumnMetadataRaw raw = Throw e -> Notions.table_step this raw = Throw e.
Proof.
  intros Hraw. unfold Notions.table_step. now rewrite (invalid_row_rejected raw e Hraw).
Qed.

Lemma table_fold_valid rows :
  Forall Notions.valid_row rows ->
  forall this,
    Res.fold Notions.table_step rows this
    = Ok (fold_left (fun table row => MySQLTable.addColumn (Spec.column_of row) table)
                    rows this).
Proof.
  induction 1 as [|row rows Hrow _ IH]; intros this; [reflexivity|].
  simpl. rewrite (table_step_valid this row Hrow). apply IH.
Qed.

Lemma table_fold_ok rows :
  forall this table,
    Res.fold Notions.table_step rows this = Ok table -> Forall Notions.valid_row rows.
Proof.
  induction rows as [|row rows IH]; intros this table H; [constructor|].
  simpl in H. destruct (Notions.table_step this row) as [next|] eqn:Hstep; [|discriminate].
  constructor; [|exact (IH _ _ H)].
  unfold Notions.table_step in Hstep.
  destruct (MySQLTableColumn.new_imported row) as [column|] eqn:Hnew; [|discriminate].
  exact (imported_is_valid row column Hnew).
Qed.

Lemma table_fold_invalid prefix bad rest e :
  Forall Notions.valid_row prefix ->
  Validator.assertColumnMetadataRaw bad = Throw e ->
  forall this, Res.fold Notions.table_step (prefix ++ bad :: rest) this = Throw e.
Proof.
  intros Hprefix Hbad. induction Hprefix as [|row rows Hrow _ IH]; intros this; simpl.
  - now rewrite (table_step_invalid this bad e Hbad).
  - rewrite (table_step_valid this row Hrow). apply IH.
Qed.

Lemma add_row_valid db raw :
  Notions.valid_row raw ->
  Notions.model_ok db.(MySQLDatabase.tables) ->
  exists db', Renderers.add_row db raw = Ok db'
              /\ Notions.model_ok db'.(MySQLDatabase.tables).
Proof.
  intros Hraw Hok.
  pose proof (valid_row_validated raw Hraw) as Hcol.
  destruct (validated_tableName _ Hcol) as [tn Htn].
  rewrite (add_row_ok db raw _ tn (valid_row_imported raw Hraw) Htn).
  eexists. split; [reflexivity|]. simpl.
  set (table0 := match JsMap.get (JString tn) db.(MySQLDatabase.tables) with
                 | Some table => table
                 | None => MySQLTable.mk (JString tn) JsMap.empty
                 end).
  assert ((exists s, table0.(MySQLTable.tableName) = JString s)
          /\ Forall Notions.validated (MySQLTable.getColumns table0)) as [Hname Hcols].
  { unfold table0.
    destruct (JsMap.get (JString tn) db.(MySQLDatabase.tables)) as [table|] eqn:G.
    - destruct (get_In _ _ _ G) as (k0 & Hin & _).
      unfold Notions.model_ok in Hok. rewrite Forall_forall in Hok. exact (Hok _ Hin).
    - split; [now exists tn | constructor]. }
  assert ((exists s, (MySQLTable.addColumn (Spec.column_of raw) table0).(MySQLTable.tableName)
                     = JString s)
          /\ Forall Notions.validated
               (MySQLTable.getColumns (MySQLTable.addColumn (Spec.column_of raw) table0)))
    as Hnew.
  { split; [exact Hname|].
    unfold MySQLTable.getColumns, JsMap.values, MySQLTable.addColumn in *. simpl.
    rewrite Forall_map in Hcols |- *.
    apply Forall_set; simpl; trivial. }
  unfold Notions.model_ok. apply Forall_set; simpl; trivial.
Qed.

Lemma add_row_invalid db raw e :
  Validator.assertColumnMetadataRaw raw = Throw e -> Renderers.add_row db raw = Throw e.
Proof.
  intros Hraw. unfold Renderers.add_row.
  now rewrite (invalid_row_rejected raw e Hraw).
Qed.

Lemma model_fold_valid data :
  Forall Notions.valid_row data ->
  forall db,
    Notions.model_ok db.(MySQLDatabase.tables) ->
    exists db', Res.fold Renderers.add_row data db = Ok db'
                /\ Notions.model_ok db'.(MySQLDatabase.tables).
Proof.
  induction 1 as [|raw data Hraw _ IH]; intros db Hok; [now exists db|].
  destruct (add_row_valid db raw Hraw Hok) as (db1 & Hadd & Hok1).
  simpl. rewrite Hadd. exact (IH db1 Hok1).
Qed.

Lemma model_fold_ok data :
  forall db db',
    Res.fold Renderers.add_row data db = Ok db' -> Forall Notions.valid_row data.
Proof.
  induction data as [|raw data IH]; intros db db' H; [constructor|].
  simpl in H. destruct (Renderers.add_row db raw) as [db1|] eqn:Hadd; [|discriminate].
  constructor; [|exact (IH _ _ H)].
  unfold Renderers.add_row in Hadd.
  destruct (MySQLTableColumn.new_imported raw) as [column|] eqn:Hnew; [|discriminate].
  exact (imported_is_valid raw column Hnew).
Qed.

Lemma model_fold_invalid prefix bad rest e :
  Forall Notions.valid_row prefix ->
  Validator.assertColumnMetadataRaw bad = Throw e ->
  forall db,
    Notions.model_ok db.(MySQLDatabase.tables) ->
    Res.fold Renderers.add_row (prefix ++ bad :: rest) db = Throw e.
Proof.
  intros Hprefix Hbad. induction Hprefix as [|raw data Hraw _ IH]; intros db Hok; simpl.
  - now rewrite (add_row_invalid db bad e Hbad).
  - destruct (add_row_valid db raw Hraw Hok) as (db1 & -> & Hok1).
    exact (IH db1 Hok1).
Qed.

(** the model of a list of rows, from the properties of the first row *)
Lemma build_object props data :
  Renderers.build (JObject props) data
  = Res.fold Renderers.add_row data
      (MySQLDatabase.mk (Js.get (JObject props) "TABLE_SCHEMA") JsMap.empty).
Proof. reflexivity. Qed.

Lemma build_valid first data :
  Notions.valid_row first ->
  Forall Notions.valid_row data ->
  exists db, Renderers.build first data = Ok db
             /\ Notions.model_ok db.(MySQLDatabase.tables).
Proof.
  intros Hfirst Hdata.
  destruct (valid_row_object first Hfirst) as (props & -> & _).
  rewrite build_object. apply (model_fold_valid data Hdata). constructor.
Qed.

Lemma build_ok first data db :
  Renderers.build first data = Ok db -> Forall Notions.valid_row data.
Proof.
  unfold Renderers.build.
  destruct (Js.member first "TABLE_SCHEMA") as [schema|]; [|discriminate].
  simpl. apply model_fold_ok.
Qed.

Lemma build_invalid prefix bad rest e :
  Forall Notions.valid_row prefix ->
  Validator.assertColumnMetadataRaw bad = Throw e ->
  Notions.nullish bad = false ->
  Renderers.build (hd bad prefix) (prefix ++ bad :: rest) = Throw e.
Proof.
  intros Hprefix Hbad Hnull. unfold Renderers.build.
  assert (exists schema, Js.member (hd bad prefix) "TABLE_SCHEMA" = Ok schema)
    as [schema ->].
  { destruct Hprefix as [|row rows Hrow _]; simpl.
    - destruct bad; try discriminate Hnull; eexists; reflexivity.
    - destruct (valid_row_object row Hrow) as (props & -> & _).
      eexists; reflexivity. }
  simpl. apply (model_fold_invalid prefix bad rest e Hprefix Hbad). constructor.
Qed.

Lemma upperCaseFirstLetter_text (s : string) :
  exists text, Renderers.upperCaseFirstLetter (JString s) = Ok text.
Proof. destruct s; eexists; reflexivity. Qed.

Lemma hasStringDataType_validated column :
  Notions.validated column ->
  exists b, SchemaHelpers.hasStringDataType column = Ok b.
Proof.
  intros Hcol. destruct (validated_dataType column Hcol) as [dt Hdt].
  unfold SchemaHelpers.hasStringDataType. rewrite Hdt. eexists. reflexivity.
Qed.

Lemma table_class_lines_total table :
  (exists tn, table.(MySQLTable.tableName) = JString tn) ->
  Forall Notions.validated (MySQLTable.getColumns table) ->
  exists lines, Renderers.table_class_lines table = Ok lines.
Proof.
  intros [tn Htn] Hcols. unfold Renderers.table_class_lines. rewrite Htn.
  destruct (upperCaseFirstLetter_text tn) as [className ->].
  destruct (mapM_total Renderers.field_declaration_lines (MySQLTable.getColumns table))
    as [fields ->].
  { eapply Forall_impl; [|exact Hcols]. intros column Hcol.
    unfold Renderers.field_declaration_lines.
    destruct (hasStringDataType_validated column Hcol) as [b ->].
    eexists. reflexivity. }
  destruct (mapM_total Renderers.field_coercion_line (MySQLTable.getColumns table))
    as [coercions ->].
  { eapply Forall_impl; [|exact Hcols]. intros column Hcol.
    unfold Renderers.field_coercion_line.
    destruct (hasStringDataType_validated column Hcol) as [b ->].
    destruct b; eexists; reflexivity. }
  eexists. reflexivity.
Qed.

Lemma class_code_of_model db :
  Notions.model_ok db.(MySQLDatabase.tables) ->
  exists tables,
    Res.mapM Renderers.table_class_lines (JsMap.values db.(MySQLDatabase.tables))
    = Ok tables.
Proof.
  intros Hok. apply mapM_total. unfold JsMap.values. apply Forall_map.
  eapply Forall_impl; [|exact Hok]. intros entry [Hname Hcols].
  now apply table_class_lines_total.
Qed.

End Rows.

(** X15.  The constructor of a table and the two source renderers accept
    exactly the lists of valid rows: each of them returns when every row
    passes the validation, and throws when one does not. *)
Theorem builders_accept_exactly_valid_rows :
  forall (name : JsValue) (data : list JsValue),
    ((exists table, MySQLTable.constructor name data = Ok table)
     <-> Forall Notions.valid_row data)
    /\ ((exists text, Renderers.convertColumnMetadataToJsCode data = Ok text)
        <-> Forall Notions.valid_row data)
    /\ ((exists text, Renderers.convertColumnMetadataToJsClassCode data = Ok text)
        <-> Forall Notions.valid_row data).
Proof.
  intros name data. split; [|split].
  - change (MySQLTable.constructor name data)
      with (Res.fold Notions.table_step data (MySQLTable.mk name JsMap.empty)).
    split.
    + intros [table H]. exact (table_fold_ok data _ table H).
    + intros H. rewrite (table_fold_valid data H). eexists. reflexivity.
  - destruct data as [|first data]; [split; [constructor | now exists ""]|].
    unfold Renderers.convertColumnMetadataToJsCode. split.
    + intros [text H].
      destruct (Renderers.build first (first :: data)) as [db|] eqn:Hbuild;
        [|discriminate].
      exact (build_ok first _ db Hbuild).
    + intros H.
      destruct (build_valid first (first :: data) (Forall_inv H) H) as (db & -> & _).
      eexists. reflexivity.
  - destruct data as [|first data]; [split; [constructor | now exists ""]|].
    unfold Renderers.convertColumnMetadataToJsClassCode. split.
    + intros [text H].
      destruct (Renderers.build first (first :: data)) as [db|] eqn:Hbuild;
        [|discriminate].
      exact (build_ok first _ db Hbuild).
    + intros H.
      destruct (build_valid first (first :: data) (Forall_inv H) H) as (db & -> & Hok).
      destruct (class_code_of_model db Hok) as [tables Htables].
      unfold Res.bind at 1. rewrite Htables. eexists. reflexivity.
Qed.

Lemma builders_accept_exactly_valid_rows_witness :
  (exists table, MySQLTable.constructor (JString "users") Samples.mixed_rows = Ok table)
  /\ (exists text, Renderers.convertColumnMetadataToJsCode Samples.mixed_rows = Ok text)
  /\ (exists text,
         Renderers.convertColumnMetadataToJsClassCode Samples.mixed_rows = Ok text).
Proof.
  assert (Forall Notions.valid_row Samples.mixed_rows) as Hrows
      by (repeat constructor).
  destruct (builders_accept_exactly_valid_rows (JString "users") Samples.mixed_rows)
    as (Htable & Hcode & Hclass).
  split; [apply Htable | split; [apply Hcode | apply Hclass]]; exact Hrows.
Defined.

(** X16.  The error of a list that holds an invalid row is the validation
    error of its first invalid row: the constructor of a table throws it,
    and so do the two source renderers when that row is an object (on
    [null] or [undefined] in first place they fail on reading the schema
    name). *)
Theorem first_invalid_row_is_reported :
  forall (name : JsValue) (prefix : list JsValue) (bad : JsValue)
         (rest : list JsValue) (e : Exception),
    Forall Notions.valid_row prefix ->
    Validator.assertColumnMetadataRaw bad = Throw e ->
    let data := (prefix ++ bad :: rest)%list in
    MySQLTable.constructor name data = Throw e
    /\ (Notions.nullish bad = false ->
        Renderers.convertColumnMetadataToJsCode data = Throw e
        /\ Renderers.convertColumnMetadataToJsClassCode data = Throw e).
Proof.
  intros name prefix bad rest e Hprefix Hbad data. split.
  - exact (table_fold_invalid prefix bad rest e Hprefix Hbad _).
  - intros Hnull.
    pose proof (build_invalid prefix bad rest e Hprefix Hbad Hnull) as Hbuild.
    fold data in Hbuild.
    unfold Renderers.convertColumnMetadataToJsCode,
      Renderers.convertColumnMetadataToJsClassCode.
    assert (exists first others, data = first :: others /\ hd bad prefix = first)
      as (first & others & Hdata & Hfirst).
    { unfold data. destruct prefix; simpl; eauto. }
    rewrite Hfirst in Hbuild. rewrite Hdata in Hbuild |- *.
    rewrite Hbuild. split; reflexivity.
Qed.

Lemma first_invalid_row_is_reported_witness :
  let data := ([JObject Examples.users_id] ++ JObject Samples.bad_position
                 :: [JObject Examples.users_name])%list in
  MySQLTable.constructor (JString "users") data = Throw Samples.bad_position_error
  /\ Renderers.convertColumnMetadataToJsCode data = Throw Samples.bad_position_error
  /\ Renderers.convertColumnMetadataToJsClassCode data
     = Throw Samples.bad_position_error.
Proof.
  intros data.
  destruct (first_invalid_row_is_reported (JString "users")
              [JObject Examples.users_id] (JObject Samples.bad_position)
              [JObject Examples.users_name] Samples.bad_position_error)
    as (Htable & Hcode).
  - repeat constructor.
  - vm_compute. reflexivity.
  - split; [exact Htable | apply Hcode; reflexivity].
Defined.

(** ** The columns of a table *)

Section TableColumns.
Import MySQLTable.
Variable Q : MySQLTableColumn.t -> Prop.

Lemma strict_equals_eq (a b : JsValue) : Js.strict_equals a b = true -> a = b.
Proof.
  destruct a, b; simpl; try discriminate; intros H; try reflexivity.
  - apply Bool.eqb_prop in H. now subst.
  - apply Z.eqb_eq in H. now subst.
  - apply String.eqb_eq in H. now subst.
Qed.

Lemma strict_equals_sym (a b : JsValue) :
  Js.strict_equals a b = Js.strict_equals b a.
Proof.
  destruct a, b; simpl; try reflexivity.
  - now destruct b, b0.
  - apply Z.eqb_sym.
  - apply String.eqb_sym.
Qed.

Lemma get_set {V} (k k' : JsValue) (c : V) (m : JsMap.t V) :
  Js.strict_equals k' k' = true ->
  JsMap.get k (JsMap.set k' c m)
  = if Js.strict_equals k' k then Some c else JsMap.get k m.
Proof.
  intros Hk'. induction m as [|[k0 x] m IH]; simpl; [reflexivity|].
  destruct (Js.strict_equals k0 k') eqn:E; simpl.
  - apply strict_equals_eq in E. subst k0.
    now destruct (Js.strict_equals k' k).
  - rewrite IH. destruct (Js.strict_equals k0 k) eqn:E0; [|reflexivity].
    apply strict_equals_eq in E0. subst k0. now rewrite strict_equals_sym, E.
Qed.

Lemma keys_set {V} (k : JsValue) (c : V) (m : JsMap.t V) :
  map fst (JsMap.set k c m) = JsSet.add k (map fst m).
Proof.
  unfold JsSet.add. induction m as [|[k0 x] m IH]; simpl; [reflexivity|].
  destruct (Js.strict_equals k0 k); simpl; [reflexivity|].
  rewrite IH. now destruct (JsSet.has k (map fst m)).
Qed.

Lemma keyed_set (s : string) (c : MySQLTableColumn.t) m :
  c.(MySQLTableColumn.columnName) = JString s -> Q c ->
  Notions.keyed_by_name Q m ->
  Notions.keyed_by_name Q (JsMap.set (JString s) c m).
Proof.
  intros Hname Hc. induction m as [|[k0 x] m IH]; simpl.
  - intros _. repeat split; eauto.
  - intros (Hfresh & Hx & Hk0 & HQ & Hrest).
    destruct (Js.strict_equals k0 (JString s)) eqn:E; simpl.
    + apply strict_equals_eq in E. subst k0. repeat split; eauto; congruence.
    + rewrite get_set by apply String.eqb_refl.
      rewrite strict_equals_sym, E. repeat split; auto.
Qed.

Lemma keyed_get m (k : JsValue) (v : MySQLTableColumn.t) :
  Notions.keyed_by_name Q m -> In (k, v) m ->
  JsMap.get k m = Some v /\ v.(MySQLTableColumn.columnName) = k /\ Q v.
Proof.
  induction m as [|[k0 x] m IH]; simpl; [easy|].
  intros (Hfresh & Hx & [s Hk0] & HQ & Hrest) [[= <- <-]|Hin].
  - rewrite Hk0 at 1 2. simpl. now rewrite String.eqb_refl.
  - destruct (IH Hrest Hin) as (Hget & Hv & HQv).
    destruct (Js.strict_equals k0 k) eqn:E; [|auto].
    apply strict_equals_eq in E. subst k0. congruence.
Qed.

Lemma table_of_keyed (columns : list MySQLTableColumn.t) :
  Forall (fun c => (exists s, c.(MySQLTableColumn.columnName) = JString s) /\ Q c)
         columns ->
  forall table,
    Notions.keyed_by_name Q table.(MySQLTable.columns) ->
    let table' := fold_left (fun t c => addColumn c t) columns table in
    table'.(tableName) = table.(tableName)
    /\ Notions.keyed_by_name Q table'.(MySQLTable.columns)
    /\ (forall k, (exists c, getColumn k table = Some c) ->
                  exists c, getColumn k table' = Some c)
    /\ (forall c, In c columns ->
                  exists c', getColumn c.(MySQLTableColumn.columnName) table' = Some c').
Proof.
  induction 1 as [|c columns [[s Hs] Hc] _ IH]; intros table Hkeyed; simpl.
  - repeat split; auto. intros c [].
  - assert (Notions.keyed_by_name Q (addColumn c table).(MySQLTable.columns)) as Hnext
        by (unfold addColumn; simpl; rewrite Hs; now apply keyed_set).
    destruct (IH (addColumn c table) Hnext) as (Hname & Hk & Hkeep & Hnew).
    assert (forall k, (exists c0, getColumn k table = Some c0) ->
                      exists c0, getColumn k (addColumn c table) = Some c0) as Hstep.
    { intros k [c0 Hc0]. unfold getColumn, addColumn in *. simpl.
      rewrite Hs, get_set by apply String.eqb_refl.
      destruct (Js.strict_equals (JString s) k); eauto. }
    repeat split; auto.
    intros c0 [<-|Hin]; [|now apply Hnew].
    apply Hkeep. unfold getColumn, addColumn. simpl.
    rewrite Hs, get_set_same by apply String.eqb_refl. eauto.
Qed.

End TableColumns.

Section ConstructedTables.
Import MySQLTable.

Lemma fold_columns (rows : list JsValue) (table : MySQLTable.t) :
  fold_left (fun t row => addColumn (Spec.column_of row) t) rows table
  = fold_left (fun t c => addColumn c t) (map Spec.column_of rows) table.
Proof.
  revert table. induction rows as [|row rows IH]; intros table; [reflexivity|].
  simpl. apply IH.
Qed.

Lemma constructor_valid (name : JsValue) (rows : list JsValue) :
  Forall Notions.valid_row rows ->
  constructor name rows = Ok (Notions.table_of name (map Spec.column_of rows)).
Proof.
  intros Hrows.
  change (constructor name rows)
    with (Res.fold Notions.table_step rows (mk name JsMap.empty)).
  rewrite (table_fold_valid rows Hrows). unfold Notions.table_of.
  now rewrite fold_columns.
Qed.

Lemma table_of_rows (name : JsValue) (rows : list JsValue) :
  Forall Notions.valid_row rows ->
  let table := Notions.table_of name (map Spec.column_of rows) in
  let from_rows c := Notions.validated c
                     /\ exists row, In row rows /\ c = Spec.column_of row in
  table.(tableName) = name
  /\ Notions.keyed_by_name from_rows table.(MySQLTable.columns)
  /\ (forall row, In row rows ->
                  exists c, getColumn (Js.get row "COLUMN_NAME") table = Some c).
Proof.
  intros Hrows table from_rows.
  destruct (table_of_keyed from_rows (map Spec.column_of rows)) with
    (table := mk name JsMap.empty) as (Hname & Hkeyed & _ & Hfound).
  - apply Forall_map. rewrite Forall_forall in Hrows |- *. intros row Hin.
    pose proof (valid_row_validated row (Hrows row Hin)) as Hcol.
    split; [exact (validated_columnName _ Hcol)|].
    split; [exact Hcol | now exists row].
  - exact I.
  - repeat split; [exact Hname | exact Hkeyed |].
    intros row Hin. apply (Hfound (Spec.column_of row)). now apply in_map.
Qed.

End ConstructedTables.

(** X17.  A table constructed from valid rows has the given name and
    holds, for every row, a column under the row's column name; every
    column it holds is the column of one of the rows and is found by
    [getColumn] under its own name. *)
Theorem constructed_table_holds_its_rows :
  forall (name : JsValue) (rows : list JsValue),
    Forall Notions.valid_row rows ->
    exists table,
      MySQLTable.constructor name rows = Ok table
      /\ table.(MySQLTable.tableName) = name
      /\ (forall row, In row rows ->
                      exists c,
                        MySQLTable.getColumn (Js.get row "COLUMN_NAME") table = Some c
                        /\ c.(MySQLTableColumn.columnName) = Js.get row "COLUMN_NAME")
      /\ (forall c, In c (MySQLTable.getColumns table) ->
                    MySQLTable.getColumn c.(MySQLTableColumn.columnName) table = Some c
                    /\ exists row, In row rows /\ c = Spec.column_of row).
Proof.
  intros name rows Hrows.
  exists (Notions.table_of name (map Spec.column_of rows)).
  split; [now apply constructor_valid|].
  destruct (table_of_rows name rows Hrows) as (Hname & Hkeyed & Hfound).
  split; [exact Hname|]. split.
  - intros row Hin. destruct (Hfound row Hin) as [c Hc]. exists c.
    split; [exact Hc|].
    destruct (get_In _ _ _ Hc) as (k0 & Hentry & Hk0).
    apply strict_equals_eq in Hk0. subst k0.
    now destruct (keyed_get _ _ _ _ Hkeyed Hentry) as (_ & Hcn & _).
  - intros c Hin. unfold MySQLTable.getColumns, JsMap.values in Hin.
    apply in_map_iff in Hin. destruct Hin as ([k v] & <- & Hentry). simpl.
    destruct (keyed_get _ _ _ _ Hkeyed Hentry) as (Hget & Hcn & _ & Hrow).
    split; [|exact Hrow]. unfold MySQLTable.getColumn. now rewrite Hcn.
Qed.

Lemma constructed_table_holds_its_rows_witness :
  exists table,
    MySQLTable.constructor (JString "users")
      [JObject Examples.users_id; JObject Examples.users_name] = Ok table
    /\ table.(MySQLTable.tableName) = JString "users"
    /\ (forall row, In row [JObject Examples.users_id; JObject Examples.users_name] ->
                    exists c,
                      MySQLTable.getColumn (Js.get row "COLUMN_NAME") table = Some c
                      /\ c.(MySQLTableColumn.columnName) = Js.get row "COLUMN_NAME")
    /\ (forall c, In c (MySQLTable.getColumns table) ->
                  MySQLTable.getColumn c.(MySQLTableColumn.columnName) table = Some c
                  /\ exists row,
                       In row [JObject Examples.users_id; JObject Examples.users_name]
                       /\ c = Spec.column_of row).
Proof.
  apply (constructed_table_holds_its_rows (JString "users")
           [JObject Examples.users_id; JObject Examples.users_name]).
  repeat constructor.
Defined.

(** ** The order of the tables *)

Section TableOrder.

Lemma names_fold_valid (data : list JsValue) :
  Forall Notions.valid_row data ->
  forall names : JsSet.t,
    Res.fold (fun names row =>
                (name <- Js.member row "TABLE_NAME" ;;
                 Ok (JsSet.add name names))%res) data names
    = Ok (fold_left (fun names row => JsSet.add (Js.get row "TABLE_NAME") names)
                    data names).
Proof.
  induction 1 as [|row data Hrow _ IH]; intros names; [reflexivity|].
  destruct (valid_row_object row Hrow) as (props & -> & _).
  simpl Res.fold. simpl fold_left. apply IH.
Qed.

Lemma model_fold_keys (data : list JsValue) :
  Forall Notions.valid_row data ->
  forall db db',
    Res.fold Renderers.add_row data db = Ok db' ->
    map fst db'.(MySQLDatabase.tables)
    = fold_left (fun names row => JsSet.add (Js.get row "TABLE_NAME") names)
                data (map fst db.(MySQLDatabase.tables)).
Proof.
  induction 1 as [|raw data Hraw _ IH]; intros db db' Hfold.
  - now injection Hfold as <-.
  - simpl in Hfold |- *.
    pose proof (valid_row_validated raw Hraw) as Hcol.
    destruct (validated_tableName _ Hcol) as [tn Htn].
    rewrite (add_row_ok db raw _ tn (valid_row_imported raw Hraw) Htn) in Hfold.
    simpl in Hfold. rewrite (IH _ _ Hfold). simpl MySQLDatabase.tables.
    rewrite keys_set.
    change (MySQLTableColumn.tableName (Spec.column_of raw))
      with (Js.get raw "TABLE_NAME") in Htn.
    now rewrite Htn.
Qed.

End TableOrder.

(** X18.  The model that the renderers build from a list of valid rows
    holds its tables in the order of the table list of the page: the keys
    of the tables, and the names of the tables, are the names that
    [getTablesNamesFromDatabaseSchema] returns for the same rows. *)
Theorem tables_follow_the_table_list :
  forall (first : JsValue) (rest : list JsValue),
    Forall Notions.valid_row (first :: rest) ->
    exists db,
      Renderers.build first (first :: rest) = Ok db
      /\ FrontendLists.getTablesNamesFromDatabaseSchema (first :: rest)
         = Ok (map fst db.(MySQLDatabase.tables))
      /\ map MySQLTable.tableName (JsMap.values db.(MySQLDatabase.tables))
         = map fst db.(MySQLDatabase.tables).
Proof.
  intros first rest Hrows.
  destruct (build_valid first (first :: rest) (Forall_inv Hrows) Hrows)
    as (db & Hbuild & _).
  exists db. split; [exact Hbuild|].
  destruct (valid_row_object first (Forall_inv Hrows)) as (props & -> & _).
  rewrite build_object in Hbuild. split.
  - unfold FrontendLists.getTablesNamesFromDatabaseSchema.
    rewrite (names_fold_valid _ Hrows).
    now rewrite (model_fold_keys _ Hrows _ _ Hbuild).
  - assert (Spec.table_name_invariant db.(MySQLDatabase.tables)) as Hinv
        by (eapply fold_add_row_keeps_invariant; [|exact Hbuild]; constructor).
    unfold JsMap.values. rewrite map_map.
    apply map_ext_in. intros entry Hin.
    unfold Spec.table_name_invariant in Hinv. rewrite Forall_forall in Hinv.
    now destruct (Hinv entry Hin).
Qed.

Lemma tables_follow_the_table_list_witness :
  exists db,
    Renderers.build (JObject Examples.users_id) Examples.shop_rows = Ok db
    /\ FrontendLists.getTablesNamesFromDatabaseSchema Examples.shop_rows
       = Ok (map fst db.(MySQLDatabase.tables))
    /\ map MySQLTable.tableName (JsMap.values db.(MySQLDatabase.tables))
       = map fst db.(MySQLDatabase.tables).
Proof.
  apply (tables_follow_the_table_list (JObject Examples.users_id)
           [JObject Examples.orders_id; JObject Examples.users_name]).
  repeat constructor.
Defined.

(** ** The statement of a table *)

Section Statements.
Import MySQLTable.

Lemma statement_head_tail (options : Options) (table : t) :
  generateCreateTableQuery options table
  = match getColumns table with
    | [] => Throw (Error ("Table " ++ Js.ToString table.(tableName) ++ " has no columns"))
    | first :: _ =>
        (acc <- Res.fold collect (getColumns table) (mkCollected [] [] [] []) ;;
         tail <- Notions.statement_tail options first ;;
         Ok (("CREATE TABLE `" ++ Js.ToString table.(tableName) ++ "` ("
              ++ Str.nl ++ "  ")
             ++ Str.join ("," ++ Str.nl ++ "  ") (Notions.statement_lines acc)
             ++ tail))%res
    end.
Proof.
  unfold generateCreateTableQuery.
  destruct (getColumns table) as [|first columns]; [reflexivity|].
  destruct (Res.fold collect (first :: columns) (mkCollected [] [] [] []))
    as [acc|e]; [|reflexivity].
  unfold Notions.statement_tail, Notions.statement_lines, Res.bind.
  match goal with
  | |- context [Str.join ("," ++ Str.nl ++ "  ") ?l] =>
      generalize (Str.join ("," ++ Str.nl ++ "  ") l)
  end.
  generalize (Js.ToString table.(tableName)). intros name joined.
  generalize (Js.ToString
                (Js.or (Js.or options.(charset) first.(MySQLTableColumn.characterSetName))
                       (JString "utf8mb4"))).
  generalize (Js.ToString
                (Js.or (Js.or options.(collation) first.(MySQLTableColumn.collationName))
                       (JString "utf8mb4_unicode_ci"))).
  intros collation_text charset_text.
  generalize (Js.ToString options.(engine)). intros engine_text.
  destruct (Js.ToBoolean options.(engine));
    (destruct (Js.ToBoolean options.(comment));
     [destruct (escapeString options.(comment)) as [escaped|e]; [|reflexivity]|]);
    f_equal; unfold Str.nl;
    rewrite ?append_assoc; simpl; rewrite ?append_assoc; reflexivity.
Qed.

Lemma columnDefinition_clear_key (v : JsValue) (column : MySQLTableColumn.t) :
  columnDefinition (MySQLTableColumn.set_columnKey v column)
  = columnDefinition column.
Proof. destruct column; reflexivity. Qed.

Lemma columnDefinition_without_index (column : MySQLTableColumn.t) :
  columnDefinition (Notions.without_index column) = columnDefinition column.
Proof.
  unfold Notions.without_index.
  destruct (Js.is_string column.(MySQLTableColumn.columnKey) "MUL");
    [apply columnDefinition_clear_key | reflexivity].
Qed.

Lemma collect_without_index (a b : Collected) (column : MySQLTableColumn.t) :
  Notions.same_clauses a b ->
  match collect a (Notions.without_index column), collect b column with
  | Ok a', Ok b' => Notions.same_clauses a' b'
  | Throw e, Throw e' => e = e'
  | _, _ => False
  end.
Proof.
  intros (Hdefs & Hpk & Huk). unfold collect.
  rewrite columnDefinition_without_index.
  destruct (columnDefinition column) as [line|e]; [|reflexivity].
  unfold Res.bind. unfold Notions.without_index.
  destruct (Js.is_string column.(MySQLTableColumn.columnKey) "MUL") eqn:Emul.
  - unfold Js.is_string in Emul. apply strict_equals_string in Emul.
    assert (MySQLTableColumn.isPrimaryKey column = false) as ->
        by (unfold MySQLTableColumn.isPrimaryKey; now rewrite Emul).
    rewrite Emul.
    assert (MySQLTableColumn.isPrimaryKey
              (MySQLTableColumn.set_columnKey (JString "") column) = false) as ->
        by (destruct column; reflexivity).
    assert (MySQLTableColumn.columnKey
              (MySQLTableColumn.set_columnKey (JString "") column) = JString "") as ->
        by (destruct column; reflexivity).
    simpl. unfold Notions.same_clauses. simpl. now rewrite Hdefs.
  - rewrite Emul.
    destruct (MySQLTableColumn.isPrimaryKey column);
      [|destruct (Js.is_string column.(MySQLTableColumn.columnKey) "UNI")];
      unfold Notions.same_clauses; simpl; rewrite Hdefs, Hpk, Huk; auto.
Qed.

Lemma fold_without_index (columns : list MySQLTableColumn.t) :
  forall a b,
    Notions.same_clauses a b ->
    match Res.fold collect (map Notions.without_index columns) a,
          Res.fold collect columns b with
    | Ok a', Ok b' => Notions.same_clauses a' b'
    | Throw e, Throw e' => e = e'
    | _, _ => False
    end.
Proof.
  induction columns as [|column columns IH]; intros a b Hsame; [exact Hsame|].
  simpl. pose proof (collect_without_index a b column Hsame) as Hstep.
  destruct (collect a (Notions.without_index column)) as [a1|e1],
           (collect b column) as [b1|e2]; try contradiction; simpl.
  - exact (IH a1 b1 Hstep).
  - exact Hstep.
Qed.

Lemma same_clauses_lines (a b : Collected) :
  Notions.same_clauses a b -> Notions.statement_lines a = Notions.statement_lines b.
Proof.
  intros (Hdefs & Hpk & Huk). unfold Notions.statement_lines.
  now rewrite Hdefs, Hpk, Huk.
Qed.

Lemma collect_keys (columns : list MySQLTableColumn.t) :
  forall acc acc',
    Res.fold collect columns acc = Ok acc' ->
    acc'.(primaryKeys)
    = (acc.(primaryKeys)
       ++ map Notions.quoted_name (filter MySQLTableColumn.isPrimaryKey columns))%list
    /\ acc'.(uniqueKeys)
       = (acc.(uniqueKeys)
          ++ map Notions.quoted_name (filter Notions.is_unique_key columns))%list.
Proof.
  induction columns as [|column columns IH]; simpl; intros acc acc' Hfold.
  - injection Hfold as <-. now rewrite !List.app_nil_r.
  - unfold collect at 1 in Hfold.
    destruct (columnDefinition column) as [line|]; [|discriminate].
    simpl in Hfold. unfold Notions.is_unique_key.
    destruct (MySQLTableColumn.isPrimaryKey column); simpl.
    + destruct (IH _ _ Hfold) as [Hpk Huk]. simpl in Hpk, Huk.
      rewrite Hpk, Huk, <- List.app_assoc. auto.
    + destruct (Js.is_string column.(MySQLTableColumn.columnKey) "UNI"); simpl.
      * destruct (IH _ _ Hfold) as [Hpk Huk]. simpl in Hpk, Huk.
        rewrite Hpk, Huk, <- List.app_assoc. auto.
      * destruct (Js.is_string column.(MySQLTableColumn.columnKey) "MUL");
          destruct (IH _ _ Hfold) as [Hpk Huk]; simpl in Hpk, Huk; auto.
Qed.

Lemma columnDefinition_validated (column : MySQLTableColumn.t) :
  Notions.validated column -> exists line, columnDefinition column = Ok line.
Proof.
  intros Hcol.
  destruct (validated_dataType _ Hcol) as [dt Hdt].
  destruct (validated_extra _ Hcol) as [ex Hex].
  destruct (validated_columnComment _ Hcol) as [cm Hcm].
  unfold columnDefinition, MySQLTableColumn.isAutoIncrement.
  rewrite Hex, Hcm. simpl Js.includes.
  rewrite escapeString_sql_escape.
  destruct (validated_columnDefault _ Hcol) as [Hnull|[d Hd]].
  - rewrite Hnull. simpl. destruct (negb (cm =? "")); eexists; reflexivity.
  - rewrite (formatDefaultValue_string column d dt Hd Hdt), Hd. simpl.
    destruct (negb (cm =? "")); eexists; reflexivity.
Qed.

Lemma collect_validated (columns : list MySQLTableColumn.t) :
  Forall Notions.validated columns ->
  forall acc, exists acc', Res.fold collect columns acc = Ok acc'.
Proof.
  induction 1 as [|column columns Hcol _ IH]; intros acc; [now exists acc|].
  simpl. unfold collect at 1.
  destruct (columnDefinition_validated column Hcol) as [line ->].
  unfold Res.bind at 2.
  destruct (MySQLTableColumn.isPrimaryKey column); [apply IH|].
  destruct (Js.is_string _ "UNI"); [apply IH|].
  destruct (Js.is_string _ "MUL"); apply IH.
Qed.

Lemma statement_tail_total (options : Options) (first : MySQLTableColumn.t) :
  Notions.text_or_absent options.(comment) = true ->
  exists tail, Notions.statement_tail options first = Ok tail.
Proof.
  intros Hcomment. unfold Notions.statement_tail.
  destruct options.(comment) as [| |b|n|text|items|props];
    simpl in Hcomment |- *;
    try (eexists; reflexivity);
    try discriminate Hcomment.
  - apply negb_true_iff in Hcomment. rewrite Hcomment. eexists. reflexivity.
  - apply negb_true_iff in Hcomment. rewrite Hcomment. eexists. reflexivity.
  - destruct (negb (text =? "")); eexists; reflexivity.
Qed.

(** what follows the lines starts with the closing parenthesis on a line
    of its own *)
Lemma statement_tail_closes (options : Options) (first : MySQLTableColumn.t)
      (tail : string) :
  Notions.statement_tail options first = Ok tail ->
  exists closing, tail = Str.nl ++ ")" ++ closing.
Proof.
  unfold Notions.statement_tail.
  generalize (Js.ToString
                (Js.or (Js.or options.(charset) first.(MySQLTableColumn.characterSetName))
                       (JString "utf8mb4"))).
  generalize (Js.ToString
                (Js.or (Js.or options.(collation) first.(MySQLTableColumn.collationName))
                       (JString "utf8mb4_unicode_ci"))).
  intros collation_text charset_text.
  generalize (Js.ToString options.(engine)). intros engine_text.
  assert (forall a b : string, Ok a = Ok b :> Result string -> a = b) as Hok
      by (intros a b H; now injection H).
  unfold Res.bind.
  destruct (Js.ToBoolean options.(engine));
    (destruct (Js.ToBoolean options.(comment));
     [destruct (escapeString options.(comment)) as [escaped|e]; [|discriminate]|]);
    intros H; apply Hok in H; subst tail.
  - exists (" ENGINE=" ++ engine_text ++ " DEFAULT CHARSET=" ++ charset_text
            ++ " COLLATE=" ++ collation_text ++ " COMMENT='" ++ escaped ++ "'" ++ ";").
    unfold Str.nl. now rewrite !append_assoc.
  - exists (" ENGINE=" ++ engine_text ++ " DEFAULT CHARSET=" ++ charset_text
            ++ " COLLATE=" ++ collation_text ++ ";").
    unfold Str.nl. now rewrite !append_assoc.
  - exists (" DEFAULT CHARSET=" ++ charset_text
            ++ " COLLATE=" ++ collation_text ++ " COMMENT='" ++ escaped ++ "'" ++ ";").
    unfold Str.nl. now rewrite !append_assoc.
  - exists (" DEFAULT CHARSET=" ++ charset_text
            ++ " COLLATE=" ++ collation_text ++ ";").
    unfold Str.nl. now rewrite !append_assoc.
Qed.

Lemma keyed_columns (Q : MySQLTableColumn.t -> Prop) m :
  Notions.keyed_by_name Q m -> Forall Q (map snd m).
Proof.
  induction m as [|[k v] m IH]; simpl; [constructor|].
  intros (_ & _ & _ & Hv & Hrest). constructor; auto.
Qed.

End Statements.

(** X19.  A table constructed from a list of valid rows that is not empty
    has a statement: [generateCreateTableQuery] returns a text that starts
    with CREATE TABLE and the name of the table, whatever the engine,
    character set and collation given, when the comment given is a text or
    absent. *)
Theorem valid_rows_have_a_statement :
  forall (name first : JsValue) (rest : list JsValue) (options : MySQLTable.Options),
    Forall Notions.valid_row (first :: rest) ->
    Notions.text_or_absent options.(MySQLTable.comment) = true ->
    exists table body,
      MySQLTable.constructor name (first :: rest) = Ok table
      /\ MySQLTable.generateCreateTableQuery options table
         = Ok ("CREATE TABLE `" ++ Js.ToString name ++ "` (" ++ body).
Proof.
  intros name first rest options Hrows Hcomment.
  exists (Notions.table_of name (map Spec.column_of (first :: rest))).
  destruct (table_of_rows name (first :: rest) Hrows) as (Hname & Hkeyed & Hfound).
  set (table := Notions.table_of name (map Spec.column_of (first :: rest))) in *.
  assert (Forall Notions.validated (MySQLTable.getColumns table)) as Hcols.
  { apply keyed_columns in Hkeyed. eapply Forall_impl; [|exact Hkeyed].
    now intros c [Hc _]. }
  rewrite statement_head_tail, Hname.
  destruct (MySQLTable.getColumns table) as [|column columns] eqn:Ecols.
  - exfalso. destruct (Hfound first (or_introl eq_refl)) as [c Hc].
    unfold MySQLTable.getColumn in Hc. unfold MySQLTable.getColumns, JsMap.values in Ecols.
    destruct (MySQLTable.columns table); [discriminate Hc | discriminate Ecols].
  - destruct (collect_validated _ Hcols (MySQLTable.mkCollected [] [] [] []))
      as [acc ->].
    destruct (statement_tail_total options column Hcomment) as [tail ->].
    unfold Res.bind. eexists. split; [now apply constructor_valid|].
    f_equal. rewrite !append_assoc. reflexivity.
Qed.

Lemma valid_rows_have_a_statement_witness :
  exists table body,
    MySQLTable.constructor (JString "users")
      [JObject Examples.users_id; JObject Examples.users_name] = Ok table
    /\ MySQLTable.generateCreateTableQuery MySQLTable.no_options table
       = Ok ("CREATE TABLE `" ++ Js.ToString (JString "users") ++ "` (" ++ body).
Proof.
  apply (valid_rows_have_a_statement (JString "users") (JObject Examples.users_id)
           [JObject Examples.users_name] MySQLTable.no_options).
  - repeat constructor.
  - reflexivity.
Defined.

(** X20.  A statement is made of the lines of the columns, in the order
    of the columns; then one PRIMARY KEY clause that names the primary key
    columns in order, when there is one; then one UNIQUE KEY clause for
    every column whose key is UNI, in order; and nothing else before the
    closing parenthesis, which the table options and the semicolon
    follow. *)
Theorem statement_lists_columns_then_keys :
  forall (options : MySQLTable.Options) (table : MySQLTable.t) (query : string),
    MySQLTable.generateCreateTableQuery options table = Ok query ->
    exists first others lines tail closing,
      MySQLTable.getColumns table = first :: others
      /\ Res.mapM MySQLTable.columnDefinition (MySQLTable.getColumns table) = Ok lines
      /\ Notions.statement_tail options first = Ok tail
      /\ tail = Str.nl ++ ")" ++ closing
      /\ query
         = ("CREATE TABLE `" ++ Js.ToString table.(MySQLTable.tableName) ++ "` ("
            ++ Str.nl ++ "  ")
           ++ Str.join ("," ++ Str.nl ++ "  ")
                (lines ++ Notions.key_clauses (MySQLTable.getColumns table))
           ++ tail.
Proof.
  intros options table query. rewrite statement_head_tail.
  destruct (MySQLTable.getColumns table) as [|first columns] eqn:Ecols;
    [discriminate|].
  destruct (Res.fold MySQLTable.collect (first :: columns)
              (MySQLTable.mkCollected [] [] [] [])) as [acc|] eqn:Hfold;
    [|discriminate].
  destruct (collect_definitions _ _ _ Hfold) as (lines & Hlines & Hdefs).
  destruct (collect_keys _ _ _ Hfold) as (Hpk & Huk).
  cbn [MySQLTable.columnDefinitions MySQLTable.primaryKeys MySQLTable.uniqueKeys app]
    in Hdefs, Hpk, Huk.
  unfold Res.bind at 1.
  destruct (Notions.statement_tail options first) as [tail|] eqn:Htail;
    [|discriminate].
  destruct (statement_tail_closes options first tail Htail) as [closing Hclosing].
  intros Hquery. exists first, columns, lines, tail, closing.
  split; [reflexivity|]. split; [exact Hlines|]. split; [exact Htail|].
  split; [exact Hclosing|].
  replace (lines ++ Notions.key_clauses (first :: columns))%list
    with (Notions.statement_lines acc); [unfold Res.bind in Hquery; congruence|].
  unfold Notions.statement_lines, Notions.key_clauses.
  rewrite Hdefs, Hpk, Huk, map_map.
  destruct (filter MySQLTableColumn.isPrimaryKey (first :: columns));
    cbn [map]; [reflexivity | now rewrite <- List.app_assoc].
Qed.

Lemma statement_lists_columns_then_keys_witness :
  exists first others lines tail closing,
    MySQLTable.getColumns Examples.users_table = first :: others
    /\ Res.mapM MySQLTable.columnDefinition (MySQLTable.getColumns Examples.users_table)
       = Ok lines
    /\ Notions.statement_tail MySQLTable.no_options first = Ok tail
    /\ tail = Str.nl ++ ")" ++ closing
    /\ Examples.users_statement
       = ("CREATE TABLE `" ++ Js.ToString Examples.users_table.(MySQLTable.tableName)
          ++ "` (" ++ Str.nl ++ "  ")
         ++ Str.join ("," ++ Str.nl ++ "  ")
              (lines ++ Notions.key_clauses (MySQLTable.getColumns Examples.users_table))
         ++ tail.
Proof.
  apply (statement_lists_columns_then_keys MySQLTable.no_options Examples.users_table).
  vm_compute. reflexivity.
Defined.

(** X21.  A column whose key is MUL leaves no trace of its key in the
    statement: the statement of a table, or its error, is the one of the
    table with the MUL keys cleared, so no index is ever created. *)
Theorem index_keys_are_dropped :
  forall (options : MySQLTable.Options) (table : MySQLTable.t),
    MySQLTable.generateCreateTableQuery options (Notions.unindexed table)
    = MySQLTable.generateCreateTableQuery options table.
Proof.
  intros options table. rewrite !statement_head_tail.
  assert (MySQLTable.getColumns (Notions.unindexed table)
          = map Notions.without_index (MySQLTable.getColumns table)) as ->.
  { unfold MySQLTable.getColumns, JsMap.values, Notions.unindexed. simpl.
    now rewrite !map_map. }
  change (MySQLTable.tableName (Notions.unindexed table))
    with (MySQLTable.tableName table).
  destruct (MySQLTable.getColumns table) as [|first columns]; [reflexivity|].
  change (map Notions.without_index (first :: columns))
    with (Notions.without_index first :: map Notions.without_index columns).
  cbv iota.
  change (Notions.without_index first :: map Notions.without_index columns)
    with (map Notions.without_index (first :: columns)).
  pose proof (fold_without_index (first :: columns)
                (MySQLTable.mkCollected [] [] [] [])
                (MySQLTable.mkCollected [] [] [] [])
                (conj eq_refl (conj eq_refl eq_refl))) as Hfold.
  destruct (Res.fold MySQLTable.collect (map Notions.without_index (first :: columns))
              (MySQLTable.mkCollected [] [] [] [])) as [a|e1],
           (Res.fold MySQLTable.collect (first :: columns)
              (MySQLTable.mkCollected [] [] [] [])) as [b|e2];
    try contradiction; [|now subst].
  unfold Res.bind at 1 3. rewrite (same_clauses_lines a b Hfold).
  assert (Notions.statement_tail options (Notions.without_index first)
          = Notions.statement_tail options first) as ->; [|reflexivity].
  unfold Notions.without_index.
  destruct (Js.is_string first.(MySQLTableColumn.columnKey) "MUL"); [|reflexivity].
  destruct first; reflexivity.
Qed.

(** ** The values in the object-literal source *)

Section Literals.




End Literals.



(** ** The command line *)

(** X23.  After [startApp], the credentials of the database are the
    options [db_host], [user], [db_port] and [password] of the command
    line, each replaced by its default (localhost, root, 3306, the empty
    text) when it is absent or falsy, under the keys host, user, port and
    password. *)
Theorem startApp_sets_the_credentials :
  forall argv : JsValue,
    App.startApp_credentials argv
    = [("host", Notions.option_or argv "db_host" (JString "localhost"));
       ("user", Notions.option_or argv "user" (JString "root"));
       ("port", Notions.option_or argv "db_port" (JNumber 3306));
       ("password", Notions.option_or argv "password" (JString ""))].
Proof.
  intros argv.
  unfold App.startApp_credentials, App.read_args, Notions.option_or, Js.or.
  cbn [fold_left App.default_args fst].
  generalize (Js.get argv "port") (Js.get argv "db_port") (Js.get argv "db_host")
             (Js.get argv "user") (Js.get argv "password") (Js.get argv "open")
             (Js.get argv "help").
  intros port db_port db_host user password open help.
  destruct (Js.ToBoolean port), (Js.ToBoolean db_port), (Js.ToBoolean db_host),
    (Js.ToBoolean user), (Js.ToBoolean password), (Js.ToBoolean open),
    (Js.ToBoolean help); reflexivity.
Qed.

(** ** Quoted texts in the statement *)

Section QuotedTexts.

Lemma sql_unescape_escape (s : string) :
  Notions.sql_unescape (Spec.sql_escape s) = Some s.
Proof.
  induction s as [|c s IH]; [reflexivity|].
  simpl Spec.sql_escape.
  destruct (Ascii.eqb c "'") eqn:Equote.
  - apply Ascii.eqb_eq in Equote. subst c. simpl. now rewrite IH.
  - destruct (Ascii.eqb c "092") eqn:Eback.
    + apply Ascii.eqb_eq in Eback. subst c. simpl. now rewrite IH.
    + simpl. now rewrite Equote, Eback, IH.
Qed.

End QuotedTexts.

(** X24.  The escaping of the statement is faithful: the text that
    [escapeString] returns holds quotes and backslashes in pairs only and
    stands for the text given, so the default of a column of a character,
    enumeration or set type is a well-formed quoted text that denotes the
    default of the catalog. *)
Theorem quoted_defaults_denote_the_default :
  forall (column : MySQLTableColumn.t) (d dt : string),
    column.(MySQLTableColumn.columnDefault) = JString d ->
    column.(MySQLTableColumn.dataType) = JString dt ->
    Str.mem (Str.toLowerCase dt) ["char"; "varchar"; "text"; "enum"; "set"] = true ->
    exists body,
      MySQLTable.escapeString (JString d) = Ok body
      /\ MySQLTable.formatDefaultValue column = Ok (JString ("'" ++ body ++ "'"))
      /\ Notions.sql_unescape body = Some d.
Proof.
  intros column d dt Hd Hdt Htype. exists (Spec.sql_escape d).
  split; [apply escapeString_sql_escape|]. split; [|apply sql_unescape_escape].
  rewrite (formatDefaultValue_string column d dt Hd Hdt).
  unfold Spec.formatted_default. now rewrite Htype.
Qed.

Lemma quoted_defaults_denote_the_default_witness :
  exists body,
    MySQLTable.escapeString (JString "0") = Ok body
    /\ MySQLTable.formatDefaultValue (Spec.column_of (JObject Examples.users_name))
       = Ok (JString ("'" ++ body ++ "'"))
    /\ Notions.sql_unescape body = Some "0".
Proof.
  apply (quoted_defaults_denote_the_default
           (Spec.column_of (JObject Examples.users_name)) "0" "varchar");
    reflexivity.
Defined.

(** ** The constructor of a database *)

Section Databases.

Lemma database_step_valid this entry :
  Notions.valid_entry entry ->
  exists table,
    Notions.database_step this entry
    = Ok (MySQLDatabase.mk this.(MySQLDatabase.databaseName)
            (JsMap.set (fst entry) table this.(MySQLDatabase.tables)))
    /\ table.(MySQLTable.tableName) = fst entry.
Proof.
  intros [_ Hrows]. unfold Notions.database_step.
  rewrite (constructor_valid (fst entry) (snd entry) Hrows).
  eexists. split; [reflexivity|].
  now destruct (table_of_rows (fst entry) (snd entry) Hrows) as (Hname & _).
Qed.

Lemma holds_table_set tables (key k : JsValue) (table : MySQLTable.t) (s : string) :
  k = JString s -> table.(MySQLTable.tableName) = k ->
  Notions.holds_table tables key ->
  Notions.holds_table (JsMap.set k table tables) key.
Proof.
  intros -> Hname (found & Hget & Hfound). unfold Notions.holds_table.
  rewrite get_set by apply String.eqb_refl.
  destruct (Js.strict_equals (JString s) key) eqn:E.
  - apply strict_equals_eq in E. exists table. split; [reflexivity | congruence].
  - exists found. split; assumption.
Qed.

Lemma database_fold_valid entries :
  Forall Notions.valid_entry entries ->
  forall this,
    exists db,
      Res.fold Notions.database_step entries this = Ok db
      /\ db.(MySQLDatabase.databaseName) = this.(MySQLDatabase.databaseName)
      /\ (forall key, Notions.holds_table this.(MySQLDatabase.tables) key ->
                      Notions.holds_table db.(MySQLDatabase.tables) key)
      /\ (forall entry, In entry entries ->
                        Notions.holds_table db.(MySQLDatabase.tables) (fst entry)).
Proof.
  induction 1 as [|entry entries Hentry _ IH]; intros this.
  - exists this. repeat split; auto. intros entry [].
  - destruct (database_step_valid this entry Hentry) as (table & Hstep & Hname).
    destruct Hentry as [[s Hs] _].
    destruct (IH (MySQLDatabase.mk this.(MySQLDatabase.databaseName)
                    (JsMap.set (fst entry) table this.(MySQLDatabase.tables))))
      as (db & Hfold & Hdb & Hkeep & Hnew).
    exists db. simpl Res.fold. rewrite Hstep. simpl in Hkeep.
    split; [exact Hfold|]. split; [exact Hdb|]. split.
    + intros key Hkey. apply Hkeep. now apply (holds_table_set _ _ _ _ s).
    + intros e [<-|Hin]; [|now apply Hnew].
      apply Hkeep. unfold Notions.holds_table.
      rewrite Hs, get_set_same by apply String.eqb_refl.
      exists table. split; [reflexivity | congruence].
Qed.

Lemma database_fold_ok entries :
  forall this db,
    Res.fold Notions.database_step entries this = Ok db ->
    Forall (fun entry => Forall Notions.valid_row (snd entry)) entries.
Proof.
  induction entries as [|entry entries IH]; intros this db H; [constructor|].
  simpl in H.
  destruct (Notions.database_step this entry) as [next|] eqn:Hstep; [|discriminate].
  constructor; [|exact (IH _ _ H)].
  unfold Notions.database_step in Hstep.
  destruct (MySQLTable.constructor (fst entry) (snd entry)) as [table|] eqn:Htable;
    [|discriminate].
  exact (table_fold_ok (snd entry) _ table Htable).
Qed.

End Databases.

(** X25.  The constructor of a database, given tables by name and rows,
    returns only when all the rows are valid; when they are, and the names
    are texts, the database has the given name and holds under every given
    name a table of that name (whatever table the rows themselves name). *)
Theorem constructed_database_holds_its_tables :
  forall (name : JsValue) (entries : list (JsValue * list JsValue)),
    (forall db, MySQLDatabase.constructor name entries = Ok db ->
                Forall (fun entry => Forall Notions.valid_row (snd entry)) entries)
    /\ (Forall Notions.valid_entry entries ->
        exists db,
          MySQLDatabase.constructor name entries = Ok db
          /\ db.(MySQLDatabase.databaseName) = name
          /\ forall entry, In entry entries ->
                           Notions.holds_table db.(MySQLDatabase.tables) (fst entry)).
Proof.
  intros name entries.
  change (MySQLDatabase.constructor name entries)
    with (Res.fold Notions.database_step entries (MySQLDatabase.mk name JsMap.empty)).
  split.
  - intros db. apply database_fold_ok.
  - intros Hentries.
    destruct (database_fold_valid entries Hentries (MySQLDatabase.mk name JsMap.empty))
      as (db & Hfold & Hname & _ & Hheld).
    exists db. auto.
Qed.

Lemma constructed_database_holds_its_tables_witness :
  exists db,
    MySQLDatabase.constructor (JString "shop") Samples.shop_entries = Ok db
    /\ db.(MySQLDatabase.databaseName) = JString "shop"
    /\ forall entry, In entry Samples.shop_entries ->
                     Notions.holds_table db.(MySQLDatabase.tables) (fst entry).
Proof.
  destruct (constructed_database_holds_its_tables (JString "shop") Samples.shop_entries)
    as [_ Hvalid].
  apply Hvalid. repeat constructor; eexists; reflexivity.
Defined.
